(** * Grid-trading controller (ceshi.py): a shallow embedding.

    The controller of [src/ceshi.py] keeps two insertion-ordered dictionaries
    of orders and, once per second, runs the four steps of [GridTrader.trade].
    Everything behind [BinanceAPI] (signing, HTTP, tick-size rounding) is the
    exchange: it is an interface here, and every call to it is logged with
    the arguments the controller passed and the reply it got.  A call to
    [create_order] or [check_order_status] returns or raises; the statements
    about what the controller does with the replies are over exchanges whose
    calls return, and they are carried over to calls that raise at the end.
    The methods of [BinanceAPI] themselves are modelled apart, over the HTTP
    transport they call, and then put under the controller.

    Python floats are rationals ([Q]): prices and quantities that are only
    handed on to the exchange are computed exactly, comparisons and
    [math.floor] on binary64 results.  [print] is dropped. *)

From Stdlib Require Import ZArith QArith Qround Qabs Qpower Qfield Lqa List Ascii String Bool Lia.
Import ListNotations.

Local Open Scope Z_scope.

(** ** Data model *)

(** [TraderConfig] (lines 11-21). *)
Record TraderConfig := {
  symbol : string;
  leverage : Q;
  total_margin : Q;
  drop_to_buy : Q;
  rise_to_sell : Q;
  max_buy_times : Z;
  test_mode : bool;
  api_key : string;
  api_secret : string
}.

Definition order_id := Z.

(** The fields of the exchange's reply that the controller reads back:
    [order['info']['price']] and [order['info']['origQty']]. *)
Record OrderInfo := { price : Q; origQty : Q }.

(** [{'id': response['orderId'], 'info': response}] (line 103). *)
Record Order := { id : order_id; info : OrderInfo }.

Inductive side := Buy | Sell.

(** What [check_order_status] returns: status, executed quantity, remaining
    quantity; the status is [None] when the query failed (line 119). *)
Definition status_reply := (option string * Q * Q)%type.

Definition status_of (r : status_reply) : option string := fst (fst r).
Definition filled_of (r : status_reply) : Q := snd (fst r).

(** [status == lit] on a status that may be [None]. *)
Definition status_is (st : option string) (lit : string) : bool :=
  match st with
  | Some s => String.eqb s lit
  | None => false
  end.

(** ** Python dictionaries keyed by order id

    A [dict] keeps insertion order; assigning to a key that is present keeps
    its position, [del] of a key that is absent raises [KeyError]. *)
Definition dict := list (order_id * Order).

Definition keys (d : dict) : list order_id := map fst d.

Definition dict_mem (k : order_id) (d : dict) : bool :=
  existsb (Z.eqb k) (keys d).

Fixpoint dict_set (k : order_id) (v : Order) (d : dict) : dict :=
  match d with
  | [] => [(k, v)]
  | (k', v') :: rest =>
      if k =? k' then (k, v) :: rest else (k', v') :: dict_set k v rest
  end.

Fixpoint dict_remove (k : order_id) (d : dict) : dict :=
  match d with
  | [] => []
  | (k', v') :: rest =>
      if k =? k' then rest else (k', v') :: dict_remove k rest
  end.

Definition dict_del (k : order_id) (d : dict) : option dict :=
  if dict_mem k d then Some (dict_remove k d) else None.

(** The representation invariant of a Python dictionary: keys are unique. *)
Definition dict_wf (d : dict) : Prop := NoDup (keys d).

(** ** Controller state *)

(** [OrderManager] (lines 135-142). *)
Record OrderManager := {
  buy_orders : dict;
  sell_orders : dict;
  sell_order_filled : bool;
  sell_order_executed : bool;
  buy_order_filled : bool
}.

(** [GridTrader] (lines 186-192). *)
Record GridTrader := {
  order_manager : OrderManager;
  base_price : option Q;
  new_cycle_flag : bool;
  order_executed : bool
}.

Definition set_buy_orders (d : dict) (m : OrderManager) : OrderManager :=
  {| buy_orders := d; sell_orders := sell_orders m;
     sell_order_filled := sell_order_filled m;
     sell_order_executed := sell_order_executed m;
     buy_order_filled := buy_order_filled m |}.

Definition set_sell_orders (d : dict) (m : OrderManager) : OrderManager :=
  {| buy_orders := buy_orders m; sell_orders := d;
     sell_order_filled := sell_order_filled m;
     sell_order_executed := sell_order_executed m;
     buy_order_filled := buy_order_filled m |}.

Definition set_sell_order_executed (b : bool) (m : OrderManager) : OrderManager :=
  {| buy_orders := buy_orders m; sell_orders := sell_orders m;
     sell_order_filled := sell_order_filled m;
     sell_order_executed := b;
     buy_order_filled := buy_order_filled m |}.

Definition set_buy_order_filled (b : bool) (m : OrderManager) : OrderManager :=
  {| buy_orders := buy_orders m; sell_orders := sell_orders m;
     sell_order_filled := sell_order_filled m;
     sell_order_executed := sell_order_executed m;
     buy_order_filled := b |}.

Definition set_order_manager (m : OrderManager) (t : GridTrader) : GridTrader :=
  {| order_manager := m; base_price := base_price t;
     new_cycle_flag := new_cycle_flag t; order_executed := order_executed t |}.

Definition set_base_price (p : option Q) (t : GridTrader) : GridTrader :=
  {| order_manager := order_manager t; base_price := p;
     new_cycle_flag := new_cycle_flag t; order_executed := order_executed t |}.

Definition set_new_cycle_flag (b : bool) (t : GridTrader) : GridTrader :=
  {| order_manager := order_manager t; base_price := base_price t;
     new_cycle_flag := b; order_executed := order_executed t |}.

(** [OrderManager.__init__] and [GridTrader.__init__]. *)
Definition OrderManager_init : OrderManager :=
  {| buy_orders := []; sell_orders := [];
     sell_order_filled := false; sell_order_executed := false;
     buy_order_filled := false |}.

Definition GridTrader_init : GridTrader :=
  {| order_manager := OrderManager_init; base_price := None;
     new_cycle_flag := true; order_executed := false |}.

(** ** Exceptions *)

Inductive exn := KeyError | ZeroDivisionError | UnboundLocalError.

Inductive result (A : Type) :=
| Ok (a : A)
| Raise (e : exn).
Arguments Ok {A} a.
Arguments Raise {A} e.

(** ** The exchange and the log of calls *)

(** The four [BinanceAPI] operations the controller uses.  Each may change
    the exchange (time passes, orders fill), so each returns the next world.
    [create_order] and [check_order_status] return a reply or raise
    (lines 62, 88 and 117 are under no [try]); [cancel_order] only prints
    what [send_request] gave it, and [get_market_price] catches every
    exception, so these two always return. *)
Class Api (X : Type) := {
  call_create_order : side -> Q -> Q -> X -> result (option Order * X);
  call_check_order_status : order_id -> X -> result (status_reply * X);
  call_cancel_order : order_id -> X -> X;
  call_get_market_price : X -> option Q * X
}.

(** An exchange every call of which returns. *)
Class Exchange (X : Type) := {
  api_create_order : side -> Q -> Q -> X -> option Order * X;
  api_check_order_status : order_id -> X -> status_reply * X;
  api_cancel_order : order_id -> X -> X;
  api_get_market_price : X -> option Q * X
}.

#[export] Instance returning {X : Type} (EX : Exchange X) : Api X := {
  call_create_order := fun sd p amount w => Ok (api_create_order sd p amount w);
  call_check_order_status := fun oid w => Ok (api_check_order_status oid w);
  call_cancel_order := api_cancel_order;
  call_get_market_price := api_get_market_price
}.

Inductive event :=
| EvCreate (sd : side) (p amount : Q) (reply : option Order)
| EvStatus (oid : order_id) (reply : status_reply)
| EvCancel (oid : order_id)
| EvPrice (reply : option Q).

Definition is_create (e : event) : bool :=
  match e with EvCreate _ _ _ _ => true | _ => false end.

Definition is_buy_create (e : event) : bool :=
  match e with EvCreate Buy _ _ _ => true | _ => false end.

(** ** The effect monad *)

(** A computation over an object of type [S] and an exchange of type [X]:
    it raises, or returns a value, the object, the exchange, and the calls
    it made in order. *)
Definition M (X S A : Type) := S -> X -> result (A * S * X * list event).

Definition ret {X S A} (a : A) : M X S A :=
  fun s w => Ok (a, s, w, []).

Definition bind {X S A B} (m : M X S A) (f : A -> M X S B) : M X S B :=
  fun s w =>
    match m s w with
    | Raise e => Raise e
    | Ok (a, s1, w1, e1) =>
        match f a s1 w1 with
        | Raise e => Raise e
        | Ok (b, s2, w2, e2) => Ok (b, s2, w2, e1 ++ e2)
        end
    end.

Definition raise {X S A} (e : exn) : M X S A := fun _ _ => Raise e.

Definition gets {X S A} (f : S -> A) : M X S A :=
  fun s w => Ok (f s, s, w, []).

Definition modify {X S} (f : S -> S) : M X S unit :=
  fun s w => Ok (tt, f s, w, []).

(** A method of [self.order_manager] called from [GridTrader]. *)
Definition on_order_manager {X A} (m : M X OrderManager A) : M X GridTrader A :=
  fun t w =>
    match m (order_manager t) w with
    | Raise e => Raise e
    | Ok (a, om, w1, e1) => Ok (a, set_order_manager om t, w1, e1)
    end.

Declare Scope monad_scope.
Delimit Scope monad_scope with monad.
Notation "x <- m ;; k" := (bind m (fun x => k))
  (at level 61, m at next level, right associativity) : monad_scope.
Notation "m ;; k" := (bind m (fun _ => k))
  (at level 61, right associativity) : monad_scope.
Local Open Scope monad_scope.

(** [for x in xs: body(x)] over a snapshot [xs]. *)
Fixpoint for_each {X S A} (xs : list A) (body : A -> M X S unit) : M X S unit :=
  match xs with
  | [] => ret tt
  | x :: rest => body x ;; for_each rest body
  end.

(** Float division: [a / b] raises [ZeroDivisionError] when [b] is zero. *)
Definition py_div {X S} (a b : Q) : M X S Q :=
  if Qeq_bool b 0 then raise ZeroDivisionError else ret (a / b)%Q.

(** [range(1, n + 1)]. *)
Definition range1 (n : Z) : list Z :=
  map Z.of_nat (seq 1 (Z.to_nat n)).

(** ** Binary64 results

    Where a last-place difference decides what the code does (the comparison
    of line 219, the [math.floor] of line 88), a number stands for the
    binary64 nearest to it and every operation rounds its result: to 53
    significant bits, ties to even, with the subnormal spacing of [2^-1074]
    at the bottom.  Results beyond the binary64 range (infinities, NaN) are
    outside the model. *)

(** The nearest integer, ties to even. *)
Definition round_half_even (x : Q) : Z :=
  let f := Qfloor x in
  match Qcompare (x - inject_Z f) (1 # 2) with
  | Lt => f
  | Gt => f + 1
  | Eq => if Z.even f then f else f + 1
  end.

(** The exponent [e] of the spacing [2^e] around [q <> 0]:
    [2^52 <= |q| / 2^e < 2^53], and no less than [-1074]. *)
Definition b64_exponent (q : Q) : Z :=
  let e0 := Z.log2 (Z.abs (Qnum q)) - Z.log2 (Zpos (Qden q)) - 52 in
  let e1 := if Qle_bool (2 ^ (e0 + 52)) (Qabs q) then e0 else e0 - 1 in
  Z.max e1 (-1074).

Definition b64 (q : Q) : Q :=
  if Qeq_bool q 0 then 0%Q
  else
    let e := b64_exponent q in
    Qred (inject_Z (round_half_even (q / 2 ^ e)) * 2 ^ e)%Q.

(** [a + b], [a * b] and [a / b] on floats ([b] non-zero). *)
Definition float_add (a b : Q) : Q := b64 (b64 a + b64 b).
Definition float_mul (a b : Q) : Q := b64 (b64 a * b64 b).
Definition float_div (a b : Q) : Q := b64 (b64 a / b64 b).

Arguments b64 : simpl never.
Arguments float_add : simpl never.
Arguments float_mul : simpl never.
Arguments float_div : simpl never.

Section Controller.

Context {X : Type} {A : Api X}.
Variable config : TraderConfig.

(** *** Calls to [self.api], logged *)

Definition create_order {S} (sd : side) (p amount : Q) : M X S (option Order) :=
  fun s w =>
    match call_create_order sd p amount w with
    | Ok (r, w') => Ok (r, s, w', [EvCreate sd p amount r])
    | Raise e => Raise e
    end.

Definition check_order_status {S} (oid : order_id) : M X S status_reply :=
  fun s w =>
    match call_check_order_status oid w with
    | Ok (r, w') => Ok (r, s, w', [EvStatus oid r])
    | Raise e => Raise e
    end.

Definition cancel_order {S} (oid : order_id) : M X S unit :=
  fun s w => Ok (tt, s, call_cancel_order oid w, [EvCancel oid]).

Definition get_market_price {S} : M X S (option Q) :=
  fun s w =>
    let '(r, w') := call_get_market_price w in
    Ok (r, s, w', [EvPrice r]).

(** *** Dictionary statements *)

(** [self.buy_orders[k] = v] and [del self.buy_orders[k]]. *)
Definition buy_orders_set (k : order_id) (v : Order) : M X OrderManager unit :=
  modify (fun m => set_buy_orders (dict_set k v (buy_orders m)) m).

Definition buy_orders_del (k : order_id) : M X OrderManager unit :=
  fun m w =>
    match dict_del k (buy_orders m) with
    | Some d => Ok (tt, set_buy_orders d m, w, [])
    | None => Raise KeyError
    end.

Definition sell_orders_set (k : order_id) (v : Order) : M X OrderManager unit :=
  modify (fun m => set_sell_orders (dict_set k v (sell_orders m)) m).

Definition sell_orders_del (k : order_id) : M X OrderManager unit :=
  fun m w =>
    match dict_del k (sell_orders m) with
    | Some d => Ok (tt, set_sell_orders d m, w, [])
    | None => Raise KeyError
    end.

(** *** [OrderManager.place_buy_orders] (lines 144-154) *)

(** The [for price in buy_prices] loop; [return] on the first failure. *)
Fixpoint place_buy_loop (buy_prices : list Q) (single_amount : Q)
  : M X OrderManager unit :=
  match buy_prices with
  | [] => ret tt
  | p :: rest =>
      order <- create_order Buy p single_amount ;;
      match order with
      | None => ret tt
      | Some o => buy_orders_set (id o) o ;; place_buy_loop rest single_amount
      end
  end.

Definition buy_prices (base : Q) : list Q :=
  map (fun i => base * (1 - drop_to_buy config * inject_Z i))%Q
      (range1 (max_buy_times config)).

Definition place_buy_orders (base : Q) : M X OrderManager unit :=
  single_margin <- py_div (total_margin config) (inject_Z (max_buy_times config)) ;;
  single_amount <- py_div (single_margin * leverage config)%Q base ;;
  place_buy_loop (buy_prices base) single_amount.

(** *** [OrderManager.check_and_place_sell_orders] (lines 156-178) *)

(** The [while retry_count > 0 and sell_order is None] loop (lines 166-175);
    it returns the final [sell_order]. *)
Fixpoint sell_retry_loop (retry_count : nat) (sell_price filled_amount : Q)
  : M X OrderManager (option Order) :=
  match retry_count with
  | O => ret None
  | S n =>
      sell_order <- create_order Sell sell_price filled_amount ;;
      match sell_order with
      | None => sell_retry_loop n sell_price filled_amount
      | Some so =>
          sell_orders_set (id so) so ;;
          modify (set_sell_order_executed true) ;;
          ret (Some so)
      end
  end.

(** Lines 163-178: the conversion of one fully filled buy. *)
Definition convert_filled_buy (oid : order_id) (order : Order) (filled_amount : Q)
  : M X OrderManager unit :=
  let sell_price := (price (info order) * (1 + rise_to_sell config))%Q in
  sell_order <- sell_retry_loop 3 sell_price filled_amount ;;
  match sell_order with
  | Some _ => buy_orders_del oid
  | None => ret tt
  end.

(** Lines 158-178: the loop body for one tracked buy. *)
Definition check_buy_order (item : order_id * Order) : M X OrderManager unit :=
  let '(oid, order) := item in
  r <- check_order_status oid ;;
  if status_is (status_of r) "FILLED" || status_is (status_of r) "PARTIALLY_FILLED"
  then
    modify (set_buy_order_filled true) ;;
    if Qeq_bool (origQty (info order)) (filled_of r)
    then convert_filled_buy oid order (filled_of r)
    else ret tt
  else ret tt.

Definition check_and_place_sell_orders : M X OrderManager unit :=
  items <- gets buy_orders ;;
  for_each items check_buy_order.

(** *** [OrderManager.cancel_all_orders] (lines 180-183) *)

Definition cancel_all_orders : M X OrderManager unit :=
  ks <- gets (fun m => keys (buy_orders m)) ;;
  for_each ks (fun oid => cancel_order oid ;; buy_orders_del oid).

(** *** [GridTrader.start_trade_cycle] (lines 194-204) *)

Definition start_trade_cycle : M X GridTrader unit :=
  on_order_manager (modify (set_buy_order_filled false)) ;;
  on_order_manager cancel_all_orders ;;
  p <- get_market_price ;;
  modify (set_base_price p) ;;
  match p with
  | None => ret tt
  | Some base => on_order_manager (place_buy_orders base)
  end.

(** *** [GridTrader.check_price_rise] (lines 206-220) *)

(** The list comprehension of line 210: one status query per tracked buy. *)
Fixpoint poll_statuses {S} (ids : list order_id) : M X S (list status_reply) :=
  match ids with
  | [] => ret []
  | oid :: rest =>
      r <- check_order_status oid ;;
      rs <- poll_statuses rest ;;
      ret (r :: rs)
  end.

Definition any_partially_filled (rs : list status_reply) : bool :=
  existsb (fun r => status_is (status_of r) "PARTIALLY_FILLED") rs.

Definition check_price_rise : M X GridTrader unit :=
  ids <- gets (fun t => keys (buy_orders (order_manager t))) ;;
  rs <- poll_statuses ids ;;
  let partial_filled := any_partially_filled rs in
  bof <- gets (fun t => buy_order_filled (order_manager t)) ;;
  if negb bof && negb partial_filled then
    current_price <- get_market_price ;;
    base <- gets base_price ;;
    match current_price, base with
    | Some cur, Some b =>
        let threshold_price := float_mul b (float_add 1 (rise_to_sell config)) in
        if negb (Qle_bool (b64 cur) threshold_price)
        then modify (set_new_cycle_flag true)
        else ret tt
    | _, _ => ret tt
    end
  else ret tt.

(** *** [GridTrader.check_and_replace_buy_orders] (lines 223-253) *)

(** The first loop (lines 228-232).  It returns [all_sell_orders_filled] and
    the loop variable [order_id] as the loop leaves it: unbound when the
    dictionary is empty, else the key of the last entry. *)
Fixpoint poll_sell_orders (items : list (order_id * Order))
    (all_sell_orders_filled : bool) (bound : option order_id)
  : M X GridTrader (bool * option order_id) :=
  match items with
  | [] => ret (all_sell_orders_filled, bound)
  | (oid, _) :: rest =>
      r <- check_order_status oid ;;
      poll_sell_orders rest
        (if status_is (status_of r) "FILLED" then all_sell_orders_filled else false)
        (Some oid)
  end.

(** Lines 242-253: the second loop's body for one tracked sell. *)
Definition replace_sell_order (item : order_id * Order) : M X GridTrader unit :=
  let '(oid, order) := item in
  r <- check_order_status oid ;;
  if status_is (status_of r) "FILLED" then
    let sell_price := price (info order) in
    let new_buy_price := (sell_price * (1 - drop_to_buy config))%Q in
    let buy_amount := origQty (info order) in
    buy_order <- create_order Buy new_buy_price buy_amount ;;
    match buy_order with
    | Some b =>
        on_order_manager (buy_orders_set (id b) b) ;;
        on_order_manager (sell_orders_del oid)
    | None => ret tt
    end
  else ret tt.

Definition check_and_replace_buy_orders : M X GridTrader unit :=
  items <- gets (fun t => sell_orders (order_manager t)) ;;
  polled <- poll_sell_orders items true None ;;
  let '(all_sell_orders_filled, bound) := polled in
  n <- gets (fun t => List.length (sell_orders (order_manager t))) ;;
  if all_sell_orders_filled && (0 <? n)%nat then
    match bound with
    | None => raise UnboundLocalError
    | Some oid =>
        on_order_manager (sell_orders_del oid) ;;
        modify (set_new_cycle_flag true)
    end
  else
    items2 <- gets (fun t => sell_orders (order_manager t)) ;;
    for_each items2 replace_sell_order.

(** *** [GridTrader.trade] (lines 256-270) *)

Definition needs_cycle_start (t : GridTrader) : bool :=
  new_cycle_flag t || match base_price t with None => true | Some _ => false end.

(** One pass of the [while True] body ([time.sleep] aside). *)
Definition trade_tick : M X GridTrader unit :=
  start <- gets needs_cycle_start ;;
  (if start
   then start_trade_cycle ;; modify (set_new_cycle_flag false)
   else ret tt) ;;
  on_order_manager check_and_place_sell_orders ;;
  check_and_replace_buy_orders ;;
  check_price_rise.

(** The first [n] passes of the loop. *)
Fixpoint trade (n : nat) : M X GridTrader unit :=
  match n with
  | O => ret tt
  | S k => trade_tick ;; trade k
  end.

End Controller.

(** ** A scripted exchange

    A test double for [BinanceAPI]: replies are read off three scripts, one
    per kind of call, in the order the calls arrive; an exhausted script
    answers as an unreachable exchange does.  A successful placement echoes
    the requested price and quantity under a fresh order id. *)
Record Scripted := {
  next_id : Z;
  create_script : list bool;
  status_script : list status_reply;
  price_script : list (option Q)
}.

Definition scripted_create (sd : side) (p amount : Q) (w : Scripted)
  : option Order * Scripted :=
  match create_script w with
  | true :: rest =>
      (Some {| id := next_id w; info := {| price := p; origQty := amount |} |},
       {| next_id := next_id w + 1; create_script := rest;
          status_script := status_script w; price_script := price_script w |})
  | false :: rest =>
      (None,
       {| next_id := next_id w; create_script := rest;
          status_script := status_script w; price_script := price_script w |})
  | [] => (None, w)
  end.

Definition scripted_status (oid : order_id) (w : Scripted)
  : status_reply * Scripted :=
  match status_script w with
  | r :: rest =>
      (r, {| next_id := next_id w; create_script := create_script w;
             status_script := rest; price_script := price_script w |})
  | [] => ((None, 0%Q, 0%Q), w)
  end.

Definition scripted_price (w : Scripted) : option Q * Scripted :=
  match price_script w with
  | r :: rest =>
      (r, {| next_id := next_id w; create_script := create_script w;
             status_script := status_script w; price_script := rest |})
  | [] => (None, w)
  end.

#[export] Instance scripted_exchange : Exchange Scripted := {
  api_create_order := scripted_create;
  api_check_order_status := scripted_status;
  api_cancel_order := fun _ w => w;
  api_get_market_price := scripted_price
}.

(** The configuration of [__main__] (lines 273-283). *)
Definition main_config : TraderConfig :=
  {| symbol := "BNBUSDT"; leverage := 10; total_margin := 1000;
     drop_to_buy := 11 # 10000; rise_to_sell := 1 # 1000;
     max_buy_times := 4; test_mode := true;
     api_key := "xxx"; api_secret := "xxx" |}.

Definition NEW (q : Q) : status_reply := (Some "NEW"%string, 0%Q, q).
Definition FILLED (q : Q) : status_reply := (Some "FILLED"%string, q, 0%Q).

(** *** Scenarios

    The configuration of the worked examples: spacing and markup of one per
    mille, two rungs. *)
Definition scenario_config : TraderConfig :=
  {| symbol := "BNBUSDT"; leverage := 10; total_margin := 1000;
     drop_to_buy := 1 # 1000; rise_to_sell := 1 # 1000;
     max_buy_times := 2; test_mode := true;
     api_key := "xxx"; api_secret := "xxx" |}.

Definition scripted (next : Z) (creates : list bool)
    (statuses : list status_reply) (prices : list (option Q)) : Scripted :=
  {| next_id := next; create_script := creates;
     status_script := statuses; price_script := prices |}.

Definition limit_order (oid : order_id) (p q : Q) : Order :=
  {| id := oid; info := {| price := p; origQty := q |} |}.

Definition tracking (buys sells : dict) (bof : bool) : OrderManager :=
  {| buy_orders := buys; sell_orders := sells;
     sell_order_filled := false; sell_order_executed := false;
     buy_order_filled := bof |}.

Definition running (m : OrderManager) (base : option Q) (flag : bool) : GridTrader :=
  {| order_manager := m; base_price := base;
     new_cycle_flag := flag; order_executed := false |}.

(** One buy of 1.5 at 598.8 is tracked. *)
Definition held_buy : Order := limit_order 7 (5988 # 10) (15 # 10).

Definition one_buy : OrderManager := tracking [(7, held_buy)] [] false.

(** The buy is reported FILLED in full and every sell submission is refused. *)
Definition refusing_sells : Scripted :=
  scripted 8 [false; false; false] [FILLED (15 # 10)] [].

(** The executed quantity equals the requested one under a status that is
    neither FILLED nor PARTIALLY_FILLED. *)
Definition stale_status : Scripted :=
  scripted 8 [true] [(Some "NEW"%string, 15 # 10, 0%Q)] [].

(** The buy is reported FILLED in full and the first sell is accepted. *)
Definition accepting_sell : Scripted :=
  scripted 8 [true] [FILLED (15 # 10)] [].

(** Two sell submissions are refused, the third is accepted. *)
Definition third_time_lucky : Scripted :=
  scripted 8 [false; false; true] [] [].

(** Both rungs of the two-rung ladder are accepted. *)
Definition accepting_ladder : Scripted :=
  scripted 1 [true; true] [] [Some 600%Q].

(** Two sells are tracked, none of the buys. *)
Definition two_sells : GridTrader :=
  running
    (tracking []
       [(5, limit_order 5 (6000 # 10) (15 # 10));
        (6, limit_order 6 (5994 # 10) (15 # 10))] true)
    (Some 600%Q) false.

(** Both sells report FILLED on the same pass. *)
Definition both_filled : Scripted :=
  scripted 7 [true; true; true; true] [FILLED (15 # 10); FILLED (15 # 10)]
    [Some 600%Q].

(** The first sell reports FILLED, the second is still open; the
    replacement buy is accepted. *)
Definition first_filled : Scripted :=
  scripted 7 [true]
    [FILLED (15 # 10); NEW (15 # 10); FILLED (15 # 10); NEW (15 # 10)] [].

(** A trader between cycles: nothing tracked, flag down. *)
Definition idle_trader : GridTrader :=
  running (tracking [] [] false) (Some 600%Q) false.

Definition silent : Scripted := scripted 1 [] [] [].

(** A cycle start is due while one buy is tracked, and the price query fails. *)
Definition restart_due : GridTrader :=
  running one_buy (Some 600%Q) true.

Definition price_unavailable : Scripted := scripted 8 [] [] [None].

(** A cold start under [main_config] where the second of the four rungs is
    refused; the one tracked buy stays open and the price stays at 600. *)
Definition second_rung_refused : Scripted :=
  scripted 1 [true; false]
    [NEW (25 # 6); NEW (25 # 6); NEW (25 # 6); NEW (25 # 6)]
    [Some 600%Q; Some 600%Q; Some 600%Q].

(** Three ticks under [main_config].  Tick 1: the four rungs are placed and
    fill, four sells are placed.  Tick 2: all four sells report FILLED.
    Tick 3: a new ladder is placed, its first rung fills, and the three sells
    left over from tick 2 still report FILLED. *)
Definition three_ticks : Scripted :=
  scripted 1 (repeat true 20)
    ([FILLED (25 # 6); FILLED (25 # 6); FILLED (25 # 6); FILLED (25 # 6)]
     ++ repeat (NEW (25 # 6)) 8
     ++ repeat (FILLED (25 # 6)) 4
     ++ [FILLED (25 # 6); NEW (25 # 6); NEW (25 # 6); NEW (25 # 6)]
     ++ [FILLED (25 # 6); FILLED (25 # 6); FILLED (25 # 6); NEW (25 # 6)]
     ++ [FILLED (25 # 6); FILLED (25 # 6); FILLED (25 # 6); NEW (25 # 6)]
     ++ repeat (NEW (25 # 6)) 6)
    [Some 600%Q; Some 600%Q].

(** What one pass of the second loop keeps: the sells still to be visited are
    tracked, both tables have unique keys, and the cycle state is untouched. *)
Definition replace_keeps (t0 : GridTrader) (rest : list (order_id * Order))
    (t : GridTrader) : Prop :=
  (forall k, In k (keys rest) -> In k (keys (sell_orders (order_manager t)))) /\
  NoDup (keys rest) /\
  dict_wf (sell_orders (order_manager t)) /\
  dict_wf (buy_orders (order_manager t)) /\
  base_price t = base_price t0 /\
  new_cycle_flag t = new_cycle_flag t0 /\
  buy_order_filled (order_manager t) = buy_order_filled (order_manager t0).

(** What one pass of the conversion loop keeps: the buys still to be visited
    are tracked and both tables have unique keys. *)
Definition convert_keeps (rest : list (order_id * Order)) (m : OrderManager) : Prop :=
  (forall k, In k (keys rest) -> In k (keys (buy_orders m))) /\
  NoDup (keys rest) /\
  dict_wf (buy_orders m) /\
  dict_wf (sell_orders m).

(** The first rung of the two-rung ladder is accepted, the second refused. *)
Definition refusing_second : Scripted := scripted 1 [true; false] [] [].

(** A price of 600 and four accepted placements. *)
Definition fresh_ladder : Scripted :=
  scripted 8 [true; true; true; true] [] [Some 600%Q].

(** The tracked buy of 1.5 reports 1 executed. *)
Definition partial_fill : Scripted :=
  scripted 8 [] [(Some "PARTIALLY_FILLED"%string, 1%Q, 1 # 2)] [].

(** Both sells are reported open, in both loops. *)
Definition all_open : Scripted :=
  scripted 7 [] [NEW (15 # 10); NEW (15 # 10); NEW (15 # 10); NEW (15 # 10)] [].

(** One buy is tracked, no fill has been seen, the base price is 600 and no
    cycle start is due. *)
Definition watching : GridTrader := running one_buy (Some 600%Q) false.

(** The tracked buy reports FILLED to the price-rise check while the price
    stands at 601. *)
Definition filled_at_check : Scripted :=
  scripted 8 [] [FILLED (15 # 10)] [Some 601%Q].

(** The tracked buy is open when the conversion pass asks and FILLED when
    the price-rise check asks, a moment later; the price stands at 601. *)
Definition filled_late : Scripted :=
  scripted 8 [] [NEW (15 # 10); FILLED (15 # 10)] [Some 601%Q].

(** The tracked buy stays open and the price stands at 600.6, which is
    600 times 1.001. *)
Definition at_threshold : Scripted :=
  scripted 8 [] [NEW (15 # 10); NEW (15 # 10)] [Some (6006 # 10)].

(** The price script of a scripted exchange has run out. *)
Definition price_script_spent (w : Scripted) : Prop := price_script w = [].

(** Both tracking tables have unique keys. *)
Definition trader_wf (t : GridTrader) : Prop :=
  dict_wf (buy_orders (order_manager t)) /\ dict_wf (sell_orders (order_manager t)).

(** Unique keys, decided. *)
Fixpoint unique_keys (ks : list order_id) : bool :=
  match ks with
  | [] => true
  | k :: rest => negb (existsb (Z.eqb k) rest) && unique_keys rest
  end.

(** The replies the exchange gives to one status query per id, in order,
    and the exchange afterwards. *)
Fixpoint replies_from {X} {EX : Exchange X} (ids : list order_id) (w : X)
  : list status_reply * X :=
  match ids with
  | [] => ([], w)
  | oid :: rest =>
      let '(r, w1) := api_check_order_status oid w in
      let '(rs, w2) := replies_from rest w1 in
      (r :: rs, w2)
  end.

(** The calls of those queries as they appear in the log. *)
Definition status_events (ids : list order_id) (rs : list status_reply) : list event :=
  map (fun p => EvStatus (fst p) (snd p)) (combine ids rs).

(** The exchange after one cancellation per id, in order. *)
Definition cancelled_from {X} {EX : Exchange X} (ids : list order_id) (w : X) : X :=
  fold_left (fun w oid => api_cancel_order oid w) ids w.

Definition reports_filled (r : status_reply) : Prop :=
  status_of r = Some "FILLED"%string.

Definition reports_partially_filled (r : status_reply) : Prop :=
  status_of r = Some "PARTIALLY_FILLED"%string.

Definition all_report_filled (rs : list status_reply) : bool :=
  forallb (fun r => status_is (status_of r) "FILLED") rs.

(** The loop variable [order_id] after a [for order_id, order in items] loop. *)
Definition last_bound (items : list (order_id * Order)) (bound : option order_id)
  : option order_id :=
  fold_left (fun _ item => Some (fst item)) items bound.

(** The trader after cycle completion dropped the sell [oid] (lines 236-237). *)
Definition completed (oid : order_id) (t : GridTrader) : GridTrader :=
  set_new_cycle_flag true
    (set_order_manager
       (set_sell_orders (dict_remove oid (sell_orders (order_manager t)))
          (order_manager t)) t).

(** The trader once [start_trade_cycle] has cancelled the buys and stored the
    reply [p] of the price query (lines 196-200). *)
Definition cycle_reset (p : option Q) (t : GridTrader) : GridTrader :=
  set_base_price p
    (set_order_manager
       (set_buy_orders [] (set_buy_order_filled false (order_manager t))) t).

(** A sell (or buy) order the exchange accepted, as it shows in the log. *)
Definition is_created (sd : side) (e : event) : bool :=
  match e, sd with
  | EvCreate Sell _ _ (Some _), Sell => true
  | EvCreate Buy _ _ (Some _), Buy => true
  | _, _ => false
  end.

Definition created (sd : side) (evs : list event) : nat :=
  List.length (filter (is_created sd) evs).

(** A sell submission the exchange did not accept. *)
Definition failed_sell (p q : Q) : event := EvCreate Sell p q None.

(** The tracking tables after a buy [oid] has been converted into the sell [so]. *)
Definition converted (oid : order_id) (so : Order) (m : OrderManager) : OrderManager :=
  set_buy_orders (dict_remove oid (buy_orders m))
    (set_sell_order_executed true
       (set_sell_orders (dict_set (id so) so (sell_orders m)) m)).

(** The trader after the sell [oid] has been replaced by the buy [b]. *)
Definition replenished (oid : order_id) (b : Order) (t : GridTrader) : GridTrader :=
  set_order_manager
    (set_sell_orders (dict_remove oid (sell_orders (order_manager t)))
       (set_buy_orders (dict_set (id b) b (buy_orders (order_manager t)))
          (order_manager t))) t.

(** ** [BinanceAPI] over its transport (lines 23-132)

    [send_request] and the [requests.get] of [get_market_price] are the
    transport: signing, HTTP and JSON decoding happen there, and a failure
    of any of them comes back as [None].  Replies are decoded objects of the
    shape the code reads; a key the code tests for, or reads with [get], is
    an option.  [float] of a decoded number is the number, rounded to
    binary64 where [create_order] computes with it. *)
Module Reply.

(** An entry of [symbol_info['filters']]. *)
Record Filter := { filterType : string; tickSize : option Q }.

(** An entry of [response['symbols']]. *)
Record SymbolInfo := {
  symbol : string;
  pricePrecision : Z;
  quantityPrecision : Z;
  filters : list Filter
}.

(** The reply to [GET /fapi/v1/exchangeInfo]. *)
Record ExchangeInfo := { symbols : option (list SymbolInfo) }.

(** The reply to [POST /fapi/v1/order]; [body] holds what the controller
    later reads through [order['info']]. *)
Record NewOrder := { orderId : option order_id; body : OrderInfo }.

(** The reply to [GET /fapi/v1/order]; [other_keys] says whether the object
    holds any key besides the three the code reads. *)
Record OrderStatus := {
  status : option string;
  origQty : option Q;
  executedQty : option Q;
  other_keys : bool
}.

End Reply.

Module BinanceAPI.

(** The dictionary [get_symbol_info] returns (lines 59-63). *)
Record SymbolMeta := { pricePrecision : Z; quantityPrecision : Z; tickSize : Q }.

(** The [params] of the order request (lines 93-100); [str] of a number is
    the number. *)
Record OrderParams := {
  p_symbol : string;
  p_side : string;
  p_type : string;
  p_timeInForce : string;
  p_quantity : Q;
  p_price : Q
}.

(** The four endpoints [send_request] is called on, and the ticker. *)
Class Transport (W : Type) := {
  get_exchangeInfo : W -> option Reply.ExchangeInfo * W;
  post_order : OrderParams -> W -> option Reply.NewOrder * W;
  get_order : string -> order_id -> W -> option Reply.OrderStatus * W;
  delete_order : string -> order_id -> W -> W;
  get_ticker_price : string -> W -> option Q * W
}.

Inductive request :=
| GetExchangeInfo
| PostOrder (params : OrderParams)
| GetOrder (sym : string) (oid : order_id)
| DeleteOrder (sym : string) (oid : order_id)
| GetTickerPrice (sym : string).

(** [s.replace('/', '')]. *)
Fixpoint remove_slashes (s : string) : string :=
  match s with
  | EmptyString => EmptyString
  | String c rest =>
      if Ascii.eqb c "/"%char then remove_slashes rest
      else String c (remove_slashes rest)
  end.

(** [side.upper()] of ['buy'] and ['sell']. *)
Definition upper (sd : side) : string :=
  match sd with Buy => "BUY" | Sell => "SELL" end.

(** The truth value of the decoded reply in [if response:] (line 115). *)
Definition truthy (r : Reply.OrderStatus) : bool :=
  match Reply.status r, Reply.origQty r, Reply.executedQty r with
  | None, None, None => Reply.other_keys r
  | _, _, _ => true
  end.

(** [response.get(key, 0)] followed by [float]. *)
Definition get_or_zero (v : option Q) : Q :=
  match v with Some q => q | None => 0%Q end.

Section Methods.

Context {W : Type} {T : Transport W}.
Variable config : TraderConfig.

(** Python's [round(x, ndigits)]. *)
Variable round : Q -> Z -> Q.

(** [BinanceAPI.__init__] (line 26). *)
Definition base_url : string :=
  if negb (test_mode config) then "https://fapi.binance.com"
  else "https://testnet.binancefuture.com".

(** [next(filter(lambda x: x['filterType'] == 'PRICE_FILTER', filters), None)]. *)
Definition price_filter (fs : list Reply.Filter) : option Reply.Filter :=
  find (fun x => String.eqb (Reply.filterType x) "PRICE_FILTER") fs.

(** The loop of lines 55-63; [Ok None] when it falls through. *)
Fixpoint scan_symbols (name : string) (l : list Reply.SymbolInfo)
  : result (option SymbolMeta) :=
  match l with
  | [] => Ok None
  | symbol_info :: rest =>
      if String.eqb (Reply.symbol symbol_info) name then
        match price_filter (Reply.filters symbol_info) with
        | Some pf =>
            match Reply.tickSize pf with
            | Some tick =>
                Ok (Some {| pricePrecision := Reply.pricePrecision symbol_info;
                            quantityPrecision := Reply.quantityPrecision symbol_info;
                            tickSize := tick |})
            | None => Raise KeyError
            end
        | None => scan_symbols name rest
        end
      else scan_symbols name rest
  end.

(** The first entry of the list that carries the name and holds a price
    filter: the entry the loop stops at. *)
Definition usable (name : string) (symbol_info : Reply.SymbolInfo) : bool :=
  String.eqb (Reply.symbol symbol_info) name
  && existsb (fun x => String.eqb (Reply.filterType x) "PRICE_FILTER")
       (Reply.filters symbol_info).

Definition first_usable (name : string) (l : list Reply.SymbolInfo)
  : option Reply.SymbolInfo :=
  find (usable name) l.

(** [get_symbol_info] (lines 51-65). *)
Definition get_symbol_info (w : W) : result (option SymbolMeta * W * list request) :=
  let '(response, w1) := get_exchangeInfo w in
  match response with
  | Some {| Reply.symbols := Some l |} =>
      match scan_symbols (remove_slashes (symbol config)) l with
      | Ok found => Ok (found, w1, [GetExchangeInfo])
      | Raise e => Raise e
      end
  | _ => Ok (None, w1, [GetExchangeInfo])
  end.

(** [get_market_price] (lines 67-80). *)
Definition get_market_price (w : W) : result (option Q * W * list request) :=
  let '(p, w1) := get_ticker_price (remove_slashes (symbol config)) w in
  Ok (p, w1, [GetTickerPrice (remove_slashes (symbol config))]).

(** [math.floor(price / tick_size) * tick_size] (line 88), on floats. *)
Definition floor_to_tick (p tick : Q) : Q :=
  float_mul (inject_Z (Qfloor (float_div p tick))) tick.

(** [create_order] (lines 82-106). *)
Definition create_order (sd : side) (p amount : Q) (w : W)
  : result (option Order * W * list request) :=
  match get_symbol_info w with
  | Raise e => Raise e
  | Ok (None, w1, e1) => Ok (None, w1, e1)
  | Ok (Some symbol_info, w1, e1) =>
      let tick_size := tickSize symbol_info in
      if Qeq_bool (b64 tick_size) 0 then Raise ZeroDivisionError
      else
        let p1 := floor_to_tick p tick_size in
        let p2 := round p1 (pricePrecision symbol_info) in
        let amount2 := round amount (quantityPrecision symbol_info) in
        let params :=
          {| p_symbol := remove_slashes (symbol config);
             p_side := upper sd;
             p_type := "LIMIT";
             p_timeInForce := "GTC";
             p_quantity := amount2;
             p_price := p2 |} in
        let '(response, w2) := post_order params w1 in
        match response with
        | Some r =>
            match Reply.orderId r with
            | Some oid =>
                Ok (Some {| id := oid; info := Reply.body r |}, w2,
                    e1 ++ [PostOrder params])
            | None => Ok (None, w2, e1 ++ [PostOrder params])
            end
        | None => Ok (None, w2, e1 ++ [PostOrder params])
        end
  end.

(** [check_order_status] (lines 108-119). *)
Definition check_order_status (oid : order_id) (w : W)
  : result (status_reply * W * list request) :=
  let sym := remove_slashes (symbol config) in
  let '(response, w1) := get_order sym oid w in
  match response with
  | Some r =>
      if truthy r then
        let remaining_qty :=
          (get_or_zero (Reply.origQty r) - get_or_zero (Reply.executedQty r))%Q in
        match Reply.status r with
        | Some st =>
            Ok ((Some st, get_or_zero (Reply.executedQty r), remaining_qty), w1,
                [GetOrder sym oid])
        | None => Raise KeyError
        end
      else Ok ((None, 0%Q, 0%Q), w1, [GetOrder sym oid])
  | None => Ok ((None, 0%Q, 0%Q), w1, [GetOrder sym oid])
  end.

(** [cancel_order] (lines 121-132): the reply is only printed. *)
Definition cancel_order (oid : order_id) (w : W) : result (unit * W * list request) :=
  let sym := remove_slashes (symbol config) in
  Ok (tt, delete_order sym oid w, [DeleteOrder sym oid]).

End Methods.

End BinanceAPI.

(** [GridTrader.__init__] builds its [BinanceAPI] from the configuration
    (line 188): the controller's calls are those methods over the
    transport. *)
Definition binance_api (config : TraderConfig) (round : Q -> Z -> Q)
    {W : Type} {T : BinanceAPI.Transport W} : Api W := {|
  call_create_order := fun sd p amount w =>
    match BinanceAPI.create_order config round sd p amount w with
    | Ok (r, w', _) => Ok (r, w')
    | Raise e => Raise e
    end;
  call_check_order_status := fun oid w =>
    match BinanceAPI.check_order_status config oid w with
    | Ok (r, w', _) => Ok (r, w')
    | Raise e => Raise e
    end;
  call_cancel_order := fun oid w =>
    match BinanceAPI.cancel_order config oid w with
    | Ok (_, w', _) => w'
    | Raise _ => w
    end;
  call_get_market_price := fun w =>
    match BinanceAPI.get_market_price config w with
    | Ok (p, w', _) => (p, w')
    | Raise _ => (None, w)
    end
|}.

(** *** A scripted transport

    The exchange information is fixed; replies to order placements and to
    status queries are read off scripts, and an exhausted script is a failed
    request. *)
Record Wire := {
  wire_info : option Reply.ExchangeInfo;
  wire_orders : list (option Reply.NewOrder);
  wire_statuses : list (option Reply.OrderStatus);
  wire_price : option Q
}.

Definition wire_post (params : BinanceAPI.OrderParams) (w : Wire)
  : option Reply.NewOrder * Wire :=
  match wire_orders w with
  | r :: rest =>
      (r, {| wire_info := wire_info w; wire_orders := rest;
             wire_statuses := wire_statuses w; wire_price := wire_price w |})
  | [] => (None, w)
  end.

Definition wire_get_order (sym : string) (oid : order_id) (w : Wire)
  : option Reply.OrderStatus * Wire :=
  match wire_statuses w with
  | r :: rest =>
      (r, {| wire_info := wire_info w; wire_orders := wire_orders w;
             wire_statuses := rest; wire_price := wire_price w |})
  | [] => (None, w)
  end.

#[export] Instance wire_transport : BinanceAPI.Transport Wire := {
  BinanceAPI.get_exchangeInfo := fun w => (wire_info w, w);
  BinanceAPI.post_order := wire_post;
  BinanceAPI.get_order := wire_get_order;
  BinanceAPI.delete_order := fun _ _ w => w;
  BinanceAPI.get_ticker_price := fun _ w => (wire_price w, w)
}.

(** [round] on exact decimals, half to even, for the examples. *)
Definition decimal_round (x : Q) (ndigits : Z) : Q :=
  (inject_Z (round_half_even (x * Qpower 10 ndigits)) / Qpower 10 ndigits)%Q.

(** Exchange information listing BNBUSDT with a tick of 0.01, after an
    entry of the same name without a price filter and an unrelated symbol. *)
Definition listing : Reply.ExchangeInfo :=
  {| Reply.symbols := Some
       [ {| Reply.symbol := "ETHUSDT"; Reply.pricePrecision := 2;
            Reply.quantityPrecision := 3;
            Reply.filters := [ {| Reply.filterType := "PRICE_FILTER";
                                  Reply.tickSize := Some (1 # 100) |} ] |};
         {| Reply.symbol := "BNBUSDT"; Reply.pricePrecision := 1;
            Reply.quantityPrecision := 1;
            Reply.filters := [ {| Reply.filterType := "LOT_SIZE";
                                  Reply.tickSize := None |} ] |};
         {| Reply.symbol := "BNBUSDT"; Reply.pricePrecision := 2;
            Reply.quantityPrecision := 2;
            Reply.filters := [ {| Reply.filterType := "LOT_SIZE";
                                  Reply.tickSize := None |};
                               {| Reply.filterType := "PRICE_FILTER";
                                  Reply.tickSize := Some (1 # 100) |} ] |} ] |}.

(** The same configuration as [main_config], the pair written with a slash. *)
Definition slash_config : TraderConfig :=
  {| symbol := "BNB/USDT"; leverage := 10; total_margin := 1000;
     drop_to_buy := 11 # 10000; rise_to_sell := 1 # 1000;
     max_buy_times := 4; test_mode := true;
     api_key := "xxx"; api_secret := "xxx" |}.

(** A configuration for a pair the listing does not hold. *)
Definition unlisted_config : TraderConfig :=
  {| symbol := "DOGE/USDT"; leverage := 10; total_margin := 1000;
     drop_to_buy := 11 # 10000; rise_to_sell := 1 # 1000;
     max_buy_times := 4; test_mode := true;
     api_key := "xxx"; api_secret := "xxx" |}.

(** The order is accepted under id 42 and echoed. *)
Definition wire_accepting : Wire :=
  {| wire_info := Some listing;
     wire_orders := [Some {| Reply.orderId := Some 42;
                             Reply.body := {| price := 59934 # 100;
                                              origQty := 417 # 100 |} |}];
     wire_statuses := [Some {| Reply.status := Some "PARTIALLY_FILLED"%string;
                               Reply.origQty := Some (417 # 100);
                               Reply.executedQty := Some (1 # 1);
                               Reply.other_keys := true |}];
     wire_price := Some 600%Q |}.

(** The order posted at 598.79 is accepted under id 42 and echoed. *)
Definition wire_echo : Wire :=
  {| wire_info := Some listing;
     wire_orders := [Some {| Reply.orderId := Some 42;
                             Reply.body := {| price := 59879 # 100;
                                              origQty := 417 # 100 |} |}];
     wire_statuses := [];
     wire_price := Some 600%Q |}.

(** The order query comes back as an object that holds no [status]. *)
Definition wire_no_status : Wire :=
  {| wire_info := Some listing;
     wire_orders := [];
     wire_statuses := [Some {| Reply.status := None;
                               Reply.origQty := None;
                               Reply.executedQty := None;
                               Reply.other_keys := true |}];
     wire_price := Some 600%Q |}.

(** Exchange information that gives BNBUSDT a tick size of zero. *)
Definition wire_zero_tick : Wire :=
  {| wire_info := Some
       {| Reply.symbols := Some
            [ {| Reply.symbol := "BNBUSDT"; Reply.pricePrecision := 2;
                 Reply.quantityPrecision := 2;
                 Reply.filters := [ {| Reply.filterType := "PRICE_FILTER";
                                       Reply.tickSize := Some 0%Q |} ] |} ] |};
     wire_orders := [];
     wire_statuses := [];
     wire_price := Some 600%Q |}.

(** [round(x, ndigits)] of a float, as the decimal it prints. *)
Definition python_round (x : Q) (ndigits : Z) : Q := decimal_round (b64 x) ndigits.

(** *** Kinds of calls and sizes of the tables *)

Definition is_status (e : event) : bool :=
  match e with EvStatus _ _ => true | _ => false end.

Definition is_cancel (e : event) : bool :=
  match e with EvCancel _ => true | _ => false end.

Definition is_price (e : event) : bool :=
  match e with EvPrice _ => true | _ => false end.

Definition is_sell_create (e : event) : bool :=
  match e with EvCreate Sell _ _ _ => true | _ => false end.

(** The number of orders an order manager tracks, buys and sells together. *)
Definition tracked_orders (m : OrderManager) : nat :=
  List.length (buy_orders m) + List.length (sell_orders m).

(** How the order manager may differ after part of a conversion pass from
    the one [m0] the pass started with. *)
Definition conversion_frame (m0 m : OrderManager) : Prop :=
  (tracked_orders m <= tracked_orders m0)%nat /\
  (List.length (buy_orders m) <= List.length (buy_orders m0))%nat /\
  incl (keys (buy_orders m)) (keys (buy_orders m0)) /\
  incl (keys (sell_orders m0)) (keys (sell_orders m)) /\
  sell_order_filled m = sell_order_filled m0 /\
  (buy_order_filled m0 = true -> buy_order_filled m = true) /\
  (sell_order_executed m0 = true -> sell_order_executed m = true).

(** How the trader may differ after part of a replenishment loop from the
    one [t0] the loop started with. *)
Definition replenishment_frame (t0 t : GridTrader) : Prop :=
  (tracked_orders (order_manager t) <= tracked_orders (order_manager t0))%nat /\
  (List.length (sell_orders (order_manager t))
   <= List.length (sell_orders (order_manager t0)))%nat /\
  incl (keys (sell_orders (order_manager t))) (keys (sell_orders (order_manager t0))) /\
  incl (keys (buy_orders (order_manager t0))) (keys (buy_orders (order_manager t))) /\
  base_price t = base_price t0 /\
  new_cycle_flag t = new_cycle_flag t0 /\
  order_executed t = order_executed t0 /\
  buy_order_filled (order_manager t) = buy_order_filled (order_manager t0) /\
  sell_order_filled (order_manager t) = sell_order_filled (order_manager t0) /\
  sell_order_executed (order_manager t) = sell_order_executed (order_manager t0).

(** The guards of lines 160 and 162, on the reply to a status query. *)
Definition reports_fill (r : status_reply) : bool :=
  status_is (status_of r) "FILLED" || status_is (status_of r) "PARTIALLY_FILLED".

Definition convertible (order : Order) (r : status_reply) : bool :=
  reports_fill r && Qeq_bool (origQty (info order)) (filled_of r).

(** A call the conversion pass may make when [items] are the buys tracked at
    its start: a status query for one of them, or a sell for one of them at
    its price times [1 + rise_to_sell] and for its requested quantity. *)
Definition conversion_call (config : TraderConfig) (items : dict) (e : event) : Prop :=
  match e with
  | EvStatus oid _ => In oid (keys items)
  | EvCreate Sell p a _ =>
      exists oid order,
        In (oid, order) items /\
        p = (price (info order) * (1 + rise_to_sell config))%Q /\
        (a == origQty (info order))%Q
  | _ => False
  end.

(** A call the replenishment pass may make when [items] are the sells tracked
    at its start: a status query for one of them, or a buy for one of them at
    its price times [1 - drop_to_buy] and for its requested quantity. *)
Definition replenishment_call (config : TraderConfig) (items : dict) (e : event) : Prop :=
  match e with
  | EvStatus oid _ => In oid (keys items)
  | EvCreate Buy p a _ =>
      exists oid order,
        In (oid, order) items /\
        p = (price (info order) * (1 - drop_to_buy config))%Q /\
        a = origQty (info order)
  | _ => False
  end.

(** *** Calls that raise

    The exchange made of the calls of [A] that return; where a call of [A]
    raises, it answers as a failed request does.  A run over [A] that
    returns is a run over this exchange. *)
Definition answers {X : Type} (A : Api X) : Exchange X := {|
  api_create_order := fun sd p amount w =>
    match call_create_order sd p amount w with
    | Ok r => r
    | Raise _ => (None, w)
    end;
  api_check_order_status := fun oid w =>
    match call_check_order_status oid w with
    | Ok r => r
    | Raise _ => ((None, 0%Q, 0%Q), w)
    end;
  api_cancel_order := call_cancel_order;
  api_get_market_price := call_get_market_price
|}.

(** The exception [e] comes out of a call to the exchange. *)
Definition raised_by_api {X : Type} (A : Api X) (e : exn) : Prop :=
  (exists sd p amount w, call_create_order sd p amount w = Raise e) \/
  (exists oid w, call_check_order_status oid w = Raise e).

(** [m'] returns what [m] returns, and raises what [m] raises unless the
    exception is one of [raised]. *)
Definition alike {X S B : Type} (raised : exn -> Prop) (m m' : M X S B) : Prop :=
  forall s w,
    match m s w with
    | Ok r => m' s w = Ok r
    | Raise e => m' s w = Raise e \/ raised e
    end.

(** What makes [place_buy_orders] divide by zero: no rung to place, or a
    price of zero reported by the exchange. *)
Definition zero_division_cause {X : Type} {EX : Exchange X} (config : TraderConfig)
  : Prop :=
  max_buy_times config = 0 \/
  exists w p, fst (api_get_market_price w) = Some p /\ (p == 0)%Q.

(** * Properties *)

(** Over an exchange whose calls return, a call is its reply. *)
Tactic Notation "calls_return" :=
  cbn [call_create_order call_check_order_status call_cancel_order
       call_get_market_price returning].
Tactic Notation "calls_return" "in" hyp(H) :=
  cbn [call_create_order call_check_order_status call_cancel_order
       call_get_market_price returning] in H.

(** ** Dictionaries *)

Lemma dict_mem_In k d : dict_mem k d = true <-> In k (keys d).
Proof.
  unfold dict_mem. rewrite existsb_exists. split.
  - intros (x & Hx & Heq). apply Z.eqb_eq in Heq. now subst.
  - intros Hin. exists k. split; [assumption | apply Z.eqb_refl].
Qed.

Lemma dict_del_tracked k d :
  In k (keys d) -> dict_del k d = Some (dict_remove k d).
Proof.
  intros Hin. unfold dict_del. apply dict_mem_In in Hin. now rewrite Hin.
Qed.

Lemma dict_del_untracked k d : ~ In k (keys d) -> dict_del k d = None.
Proof.
  intros Hn. unfold dict_del. destruct (dict_mem k d) eqn:E; [|reflexivity].
  apply dict_mem_In in E. contradiction.
Qed.

Lemma keys_dict_remove_other k k' d :
  k' <> k -> In k' (keys d) -> In k' (keys (dict_remove k d)).
Proof.
  intros Hne. induction d as [|[k0 v0] rest IH]; simpl; [tauto|].
  intros [Heq | Hin].
  - subst k0. destruct (k =? k') eqn:E.
    + apply Z.eqb_eq in E. congruence.
    + simpl. now left.
  - destruct (k =? k0); [assumption | simpl; right; auto].
Qed.

Lemma keys_dict_remove_incl k k' d :
  In k' (keys (dict_remove k d)) -> In k' (keys d).
Proof.
  induction d as [|[k0 v0] rest IH]; simpl; [tauto|].
  destruct (k =? k0); simpl; tauto.
Qed.

Lemma dict_remove_gone k d : dict_wf d -> ~ In k (keys (dict_remove k d)).
Proof.
  unfold dict_wf. induction d as [|[k0 v0] rest IH]; simpl; [tauto|].
  intros Hnd. inversion Hnd as [|? ? Hnotin Hrest]; subst.
  destruct (k =? k0) eqn:E.
  - apply Z.eqb_eq in E. now subst.
  - apply Z.eqb_neq in E. simpl. intros [H | H]; [congruence | now apply IH].
Qed.

Lemma dict_remove_wf k d : dict_wf d -> dict_wf (dict_remove k d).
Proof.
  unfold dict_wf. induction d as [|[k0 v0] rest IH]; simpl; [tauto|].
  intros Hnd. inversion Hnd as [|? ? Hnotin Hrest]; subst.
  destruct (k =? k0); [assumption|]. simpl. constructor; [|auto].
  intros Hin. apply Hnotin. eapply keys_dict_remove_incl; eassumption.
Qed.

Lemma keys_dict_set k v d :
  keys (dict_set k v d) = if dict_mem k d then keys d else keys d ++ [k].
Proof.
  induction d as [|[k0 v0] rest IH]; simpl; [reflexivity|].
  unfold dict_mem in *. simpl. destruct (k =? k0) eqn:E; simpl.
  - apply Z.eqb_eq in E. now subst.
  - rewrite IH. now destruct (existsb (Z.eqb k) (keys rest)).
Qed.

Lemma dict_set_wf k v d : dict_wf d -> dict_wf (dict_set k v d).
Proof.
  unfold dict_wf. intros Hnd. rewrite keys_dict_set.
  destruct (dict_mem k d) eqn:E; [assumption|].
  apply NoDup_app; [assumption | repeat constructor; simpl; tauto |].
  intros a Ha [Hb | []]. subst a.
  apply dict_mem_In in Ha. congruence.
Qed.

Lemma keys_dict_set_incl k v d : incl (keys d) (keys (dict_set k v d)).
Proof.
  intros k' Hin. rewrite keys_dict_set. destruct (dict_mem k d); [assumption|].
  apply in_or_app. now left.
Qed.

Lemma length_dict_set k v d : (List.length (dict_set k v d) <= S (List.length d))%nat.
Proof.
  induction d as [|[k0 v0] rest IH]; simpl; [lia|].
  destruct (k =? k0); simpl; lia.
Qed.

Lemma length_dict_remove k d :
  In k (keys d) -> S (List.length (dict_remove k d)) = List.length d.
Proof.
  induction d as [|[k0 v0] rest IH]; simpl; [tauto|].
  intros Hin. destruct (k =? k0) eqn:E; [reflexivity|].
  apply Z.eqb_neq in E. simpl. rewrite IH; [reflexivity|].
  destruct Hin as [H | H]; [congruence | exact H].
Qed.

Lemma dict_remove_last k v d :
  ~ In k (keys d) -> dict_remove k (d ++ [(k, v)]) = d.
Proof.
  induction d as [|[k0 v0] rest IH]; simpl.
  - now rewrite Z.eqb_refl.
  - intros Hn. destruct (k =? k0) eqn:E.
    + apply Z.eqb_eq in E. subst. tauto.
    + f_equal. apply IH. tauto.
Qed.

Lemma status_is_spec st lit : status_is st lit = true <-> st = Some lit.
Proof.
  destruct st as [s|]; simpl.
  - rewrite String.eqb_eq. split; congruence.
  - split; discriminate.
Qed.

(** ** Binary64 results and integers *)

Lemma round_half_even_above z x :
  (inject_Z z <= x)%Q -> z <= round_half_even x.
Proof.
  intros H. apply Qfloor_resp_le in H. rewrite Qfloor_Z in H.
  unfold round_half_even.
  destruct (Qcompare _ _); [destruct (Z.even _)| |]; lia.
Qed.

Lemma round_half_even_below z x :
  (x <= inject_Z z)%Q -> round_half_even x <= z.
Proof.
  intros H. pose proof (Qfloor_resp_le _ _ H) as Hf. rewrite Qfloor_Z in Hf.
  unfold round_half_even.
  destruct (Z.eq_dec (Qfloor x) z) as [Heq | Hne].
  - assert (Hlt : (x - inject_Z (Qfloor x) < 1 # 2)%Q).
    { rewrite Heq. lra. }
    destruct (Qcompare _ _) eqn:E; [|lia|].
    + apply Qeq_alt in E. rewrite E in Hlt. discriminate.
    + apply Qgt_alt in E. lra.
  - destruct (Qcompare _ _); [destruct (Z.even _)| |]; lia.
Qed.

Lemma two_power_pos e : (0 < 2 ^ e)%Q.
Proof. apply Qpower_0_lt. reflexivity. Qed.

(** The exponent before the clamp lies under the number. *)
Lemma b64_exponent_below x :
  (0 < x)%Q ->
  exists e1, b64_exponent x = Z.max e1 (-1074) /\ (2 ^ (e1 + 52) <= x)%Q.
Proof.
  intros Hpos. unfold b64_exponent.
  assert (Habs : (Qabs x == x)%Q) by (apply Qabs_pos; lra).
  destruct x as [n d]. cbn [Qnum Qden].
  assert (Hn : 0 < n) by (unfold Qlt in Hpos; simpl in Hpos; lia).
  rewrite (Z.abs_eq n) by lia.
  set (e0 := Z.log2 n - Z.log2 (Z.pos d) - 52).
  destruct (Qle_bool (2 ^ (e0 + 52)) (Qabs (n # d))) eqn:Hle.
  - exists e0. split; [reflexivity|]. apply Qle_bool_iff in Hle. now rewrite Habs in Hle.
  - exists (e0 - 1). split; [reflexivity|].
    pose proof (Z.log2_spec n Hn) as [Hln _].
    pose proof (Z.log2_spec (Z.pos d) eq_refl) as [_ Hld].
    pose proof (Z.log2_nonneg n) as Hln0.
    pose proof (Z.log2_nonneg (Z.pos d)) as Hld0.
    replace (e0 - 1 + 52) with (Z.log2 n - Z.succ (Z.log2 (Z.pos d))) by (unfold e0; lia).
    rewrite Qpower_minus by discriminate.
    rewrite (Qmake_Qdiv n d).
    assert (H1 : (2 ^ Z.log2 n <= inject_Z n)%Q).
    { change 2%Q with (inject_Z 2). rewrite <- Zpower_Qpower by assumption.
      now rewrite <- Zle_Qle. }
    assert (H2 : (inject_Z (Z.pos d) <= 2 ^ Z.succ (Z.log2 (Z.pos d)))%Q).
    { change 2%Q with (inject_Z 2). rewrite <- Zpower_Qpower by lia.
      rewrite <- Zle_Qle. lia. }
    assert (Hd : (0 < inject_Z (Z.pos d))%Q) by reflexivity.
    pose proof (two_power_pos (Z.succ (Z.log2 (Z.pos d)))) as Hp.
    pose proof (two_power_pos (Z.log2 n)) as Hq.
    apply Qle_shift_div_l; [exact Hd|].
    set (a := (2 ^ Z.log2 n)%Q) in *.
    set (b := (2 ^ Z.succ (Z.log2 (Z.pos d)))%Q) in *.
    assert (Hr : (inject_Z (Z.pos d) / b <= 1)%Q)
      by (apply Qle_shift_div_r; lra).
    assert (Hr0 : (0 <= inject_Z (Z.pos d) / b)%Q)
      by (apply Qle_shift_div_l; lra).
    assert (Heq : (a / b * inject_Z (Z.pos d) == a * (inject_Z (Z.pos d) / b))%Q)
      by (field; lra).
    rewrite Heq. nra.
Qed.

Lemma b64_value x :
  ~ (x == 0)%Q ->
  (b64 x == inject_Z (round_half_even (x / 2 ^ b64_exponent x)) * 2 ^ b64_exponent x)%Q.
Proof.
  intros Hne. unfold b64.
  destruct (Qeq_bool x 0) eqn:E.
  - apply Qeq_bool_iff in E. contradiction.
  - apply Qred_correct.
Qed.

Lemma b64_zero x : (x == 0)%Q -> b64 x = 0%Q.
Proof. intros H. unfold b64. apply Qeq_bool_iff in H. now rewrite H. Qed.

(** An integer on the grid of a non-positive exponent. *)
Lemma scaled_integer N e :
  e <= 0 -> (inject_Z (N * 2 ^ (- e)) == inject_Z N / 2 ^ e)%Q.
Proof.
  intros He. rewrite inject_Z_mult, Zpower_Qpower by lia.
  change (inject_Z 2) with 2%Q. rewrite Qpower_opp.
  unfold Qdiv. reflexivity.
Qed.

Lemma b64_above N x :
  0 <= N < 2 ^ 53 -> (inject_Z N <= x)%Q -> (inject_Z N <= b64 x)%Q.
Proof.
  intros [HN0 HN] Hle.
  assert (H0 : (0 <= inject_Z N)%Q) by (change 0%Q with (inject_Z 0); now rewrite <- Zle_Qle).
  destruct (Qeq_dec x 0) as [Hz | Hnz].
  - rewrite (b64_zero x Hz). lra.
  - rewrite (b64_value x Hnz).
    assert (Hpos : (0 < x)%Q) by lra.
    destruct (b64_exponent_below x Hpos) as (e1 & He & Hlow).
    set (e := b64_exponent x) in *.
    pose proof (two_power_pos e) as Hp.
    destruct (Z_le_gt_dec e 0) as [Hneg | Hgt].
    + assert (Hz : (inject_Z (N * 2 ^ (- e)) <= x / 2 ^ e)%Q).
      { rewrite scaled_integer by assumption.
        apply Qmult_le_compat_r; [exact Hle|]. apply Qinv_le_0_compat. lra. }
      apply round_half_even_above in Hz. rewrite Zle_Qle in Hz.
      rewrite scaled_integer in Hz by assumption.
      apply (Qmult_le_compat_r _ _ (2 ^ e)) in Hz; [|lra].
      unfold Qdiv in Hz. rewrite <- Qmult_assoc, (Qmult_comm (/ _)), Qmult_inv_r, Qmult_1_r in Hz by lra.
      exact Hz.
    + assert (He1 : e = e1) by lia. subst e1.
      assert (Hz : (inject_Z (2 ^ 52) <= x / 2 ^ e)%Q).
      { apply Qle_shift_div_l; [exact Hp|].
        rewrite Zpower_Qpower by lia. change (inject_Z 2) with 2%Q.
        rewrite <- Qpower_plus by discriminate. now rewrite Z.add_comm. }
      apply round_half_even_above in Hz. rewrite Zle_Qle in Hz.
      apply (Qmult_le_compat_r _ _ (2 ^ e)) in Hz; [|lra].
      eapply Qle_trans; [|exact Hz].
      rewrite Zpower_Qpower by lia. change (inject_Z 2) with 2%Q.
      rewrite <- Qpower_plus by discriminate.
      apply Qle_trans with (2 ^ 53)%Q.
      * change 2%Q with (inject_Z 2). rewrite <- Zpower_Qpower by lia.
        rewrite <- Zle_Qle. lia.
      * apply Qpower_le_compat_l; [lia | discriminate].
Qed.

Lemma b64_below N x :
  0 <= N < 2 ^ 53 -> (0 <= x)%Q -> (x <= inject_Z N)%Q -> (b64 x <= inject_Z N)%Q.
Proof.
  intros [HN0 HN] Hx Hle.
  assert (H0 : (0 <= inject_Z N)%Q) by (change 0%Q with (inject_Z 0); now rewrite <- Zle_Qle).
  destruct (Qeq_dec x 0) as [Hz | Hnz].
  - rewrite (b64_zero x Hz). exact H0.
  - rewrite (b64_value x Hnz).
    assert (Hpos : (0 < x)%Q) by lra.
    destruct (b64_exponent_below x Hpos) as (e1 & He & Hlow).
    set (e := b64_exponent x) in *.
    pose proof (two_power_pos e) as Hp.
    assert (Hneg : e <= 0).
    { assert (e1 <= 0); [|lia].
      assert (Hlt : (2 ^ (e1 + 52) < 2 ^ 53)%Q).
      { eapply Qle_lt_trans; [exact Hlow|]. eapply Qle_lt_trans; [exact Hle|].
        change 2%Q with (inject_Z 2). rewrite <- Zpower_Qpower by lia.
        rewrite <- Zlt_Qlt. lia. }
      apply Qpower_lt_compat_l_inv in Hlt; [lia | reflexivity]. }
    assert (Hz : (x / 2 ^ e <= inject_Z (N * 2 ^ (- e)))%Q).
    { rewrite scaled_integer by assumption.
      apply Qmult_le_compat_r; [exact Hle|]. apply Qinv_le_0_compat. lra. }
    apply round_half_even_below in Hz. rewrite Zle_Qle in Hz.
    rewrite scaled_integer in Hz by assumption.
    apply (Qmult_le_compat_r _ _ (2 ^ e)) in Hz; [|lra].
    unfold Qdiv in Hz at 2. rewrite <- Qmult_assoc, (Qmult_comm (/ _)), Qmult_inv_r, Qmult_1_r in Hz by lra.
    exact Hz.
Qed.

(** Integers below [2^53] are binary64 numbers. *)
Lemma b64_integer N : 0 <= N < 2 ^ 53 -> (b64 (inject_Z N) == inject_Z N)%Q.
Proof.
  intros HN. apply Qle_antisym.
  - apply b64_below; [exact HN | | apply Qle_refl].
    change 0%Q with (inject_Z 0). rewrite <- Zle_Qle. lia.
  - apply b64_above; [exact HN | apply Qle_refl].
Qed.

(** ** Running computations *)

Section Runs.

Context {X S : Type}.

Lemma bind_ok {A B} (m : M X S A) (f : A -> M X S B) s w a s1 w1 e1 b s2 w2 e2 :
  m s w = Ok (a, s1, w1, e1) ->
  f a s1 w1 = Ok (b, s2, w2, e2) ->
  bind m f s w = Ok (b, s2, w2, e1 ++ e2).
Proof. intros Hm Hf. unfold bind. now rewrite Hm, Hf. Qed.

Lemma for_each_cons {A} (x : A) rest (body : A -> M X S unit) s w :
  for_each (x :: rest) body s w = bind (body x) (fun _ => for_each rest body) s w.
Proof. reflexivity. Qed.

(** A loop over a snapshot whose body keeps an invariant of the entries still
    to come returns, and the invariant holds at the end. *)
Lemma for_each_invariant {A} (body : A -> M X S unit) (I : list A -> S -> Prop) :
  (forall x rest s w, I (x :: rest) s ->
     exists s' w' e, body x s w = Ok (tt, s', w', e) /\ I rest s') ->
  forall l s w, I l s ->
    exists s' w' e, for_each l body s w = Ok (tt, s', w', e) /\ I [] s'.
Proof.
  intros Hbody l. induction l as [|x rest IH]; intros s w HI.
  - exists s, w, []. split; [reflexivity | assumption].
  - destruct (Hbody x rest s w HI) as (s1 & w1 & e1 & Hx & HI1).
    destruct (IH s1 w1 HI1) as (s2 & w2 & e2 & Hrest & HI2).
    exists s2, w2, (e1 ++ e2). split; [|assumption].
    rewrite for_each_cons. eapply bind_ok; eassumption.
Qed.

(** The same, with a property every call of the loop has. *)
Lemma for_each_rule {A} (body : A -> M X S unit) (I : list A -> S -> Prop)
    (P : event -> bool) :
  (forall x rest s w, I (x :: rest) s ->
     exists s' w' e,
       body x s w = Ok (tt, s', w', e) /\ I rest s' /\ forallb P e = true) ->
  forall l s w, I l s ->
    exists s' w' e,
      for_each l body s w = Ok (tt, s', w', e) /\ I [] s' /\ forallb P e = true.
Proof.
  intros Hbody l. induction l as [|x rest IH]; intros s w HI.
  - exists s, w, []. repeat split; assumption.
  - destruct (Hbody x rest s w HI) as (s1 & w1 & e1 & Hx & HI1 & HP1).
    destruct (IH s1 w1 HI1) as (s2 & w2 & e2 & Hrest & HI2 & HP2).
    exists s2, w2, (e1 ++ e2). split; [|split; [assumption|]].
    + rewrite for_each_cons. eapply bind_ok; eassumption.
    + rewrite forallb_app, HP1, HP2. reflexivity.
Qed.

(** The same, for a property of calls that is not decided. *)
Lemma for_each_rule_prop {A} (body : A -> M X S unit) (I : list A -> S -> Prop)
    (P : event -> Prop) :
  (forall x rest s w, I (x :: rest) s ->
     exists s' w' e,
       body x s w = Ok (tt, s', w', e) /\ I rest s' /\ Forall P e) ->
  forall l s w, I l s ->
    exists s' w' e,
      for_each l body s w = Ok (tt, s', w', e) /\ I [] s' /\ Forall P e.
Proof.
  intros Hbody l. induction l as [|x rest IH]; intros s w HI.
  - exists s, w, []. repeat split; [assumption | constructor].
  - destruct (Hbody x rest s w HI) as (s1 & w1 & e1 & Hx & HI1 & HP1).
    destruct (IH s1 w1 HI1) as (s2 & w2 & e2 & Hrest & HI2 & HP2).
    exists s2, w2, (e1 ++ e2). split; [|split; [assumption|]].
    + rewrite for_each_cons. eapply bind_ok; eassumption.
    + apply Forall_app. now split.
Qed.

End Runs.

Section Properties.

Context {X : Type} {EX : Exchange X}.
Variable config : TraderConfig.

(** ** Buy to sell conversion (lines 156-178) *)

(** The retry loop makes at most [retry_count] submissions: failures, then
    either one success (recorded at once) or nothing. *)
Lemma sell_retry_loop_spec n p q (m : OrderManager) (w : X) :
  exists r m' w' evs,
    sell_retry_loop n p q m w = Ok (r, m', w', evs) /\
    ((exists k so, (k < n)%nat /\
        evs = repeat (failed_sell p q) k ++ [EvCreate Sell p q (Some so)] /\
        r = Some so /\
        m' = set_sell_order_executed true
               (set_sell_orders (dict_set (id so) so (sell_orders m)) m))
     \/ (evs = repeat (failed_sell p q) n /\ r = None /\ m' = m)).
Proof.
  revert m w. induction n as [|n IH]; intros m w.
  - exists None, m, w, []. split; [reflexivity|]. right. now repeat split.
  - simpl. unfold bind at 1, create_order. calls_return.
    destruct (api_create_order Sell p q w) as [[so|] w1] eqn:Hc.
    + exists (Some so), (set_sell_order_executed true
               (set_sell_orders (dict_set (id so) so (sell_orders m)) m)), w1,
             [EvCreate Sell p q (Some so)].
      split; [reflexivity|]. left. exists 0%nat, so.
      repeat split; try lia; reflexivity.
    + destruct (IH m w1) as (r & m' & w' & evs & Hrun & Hcase).
      rewrite Hrun. exists r, m', w', (failed_sell p q :: evs).
      split; [reflexivity|].
      destruct Hcase as [(k & so & Hk & -> & -> & ->) | (-> & -> & ->)].
      * left. exists (S k), so. repeat split; try lia; reflexivity.
      * right. now repeat split.
Qed.

Lemma convert_filled_buy_spec (m : OrderManager) (w : X) oid order filled :
  In oid (keys (buy_orders m)) ->
  exists m' w' evs,
    convert_filled_buy config oid order filled m w = Ok (tt, m', w', evs) /\
    ((exists k so, (k < 3)%nat /\
        evs = repeat (failed_sell (price (info order) * (1 + rise_to_sell config)) filled) k
              ++ [EvCreate Sell (price (info order) * (1 + rise_to_sell config)) filled
                    (Some so)] /\
        m' = converted oid so m)
     \/ (evs = repeat (failed_sell (price (info order) * (1 + rise_to_sell config)) filled) 3 /\
         m' = m)).
Proof.
  intros Hin. unfold convert_filled_buy.
  destruct (sell_retry_loop_spec 3 (price (info order) * (1 + rise_to_sell config))
              filled m w) as (r & m1 & w1 & evs & Hrun & Hcase).
  destruct Hcase as [(k & so & Hk & -> & -> & ->) | (-> & -> & ->)].
  - exists (converted oid so m), w1,
      (repeat (failed_sell (price (info order) * (1 + rise_to_sell config)) filled) k
       ++ [EvCreate Sell (price (info order) * (1 + rise_to_sell config)) filled (Some so)]).
    split.
    + unfold bind. rewrite Hrun. unfold buy_orders_del. simpl.
      rewrite (dict_del_tracked _ _ Hin). now rewrite app_nil_r.
    + left. exists k, so. now repeat split.
  - exists m, w1, (repeat (failed_sell (price (info order) * (1 + rise_to_sell config)) filled) 3).
    split.
    + unfold bind. rewrite Hrun. reflexivity.
    + right. now split.
Qed.

(** C5. Converting a fully filled buy (lines 163-178) submits the sell at
    most three times in the tick, stopping at the first success.  When all
    three submissions fail, the order manager is exactly as before, so the buy
    is still tracked and is found again on a later tick; when one succeeds,
    and only then, the sell is recorded and the buy leaves the tracking table. *)
Theorem convert_filled_buy_retries (m : OrderManager) (w : X) oid order filled :
  dict_wf (buy_orders m) ->
  In oid (keys (buy_orders m)) ->
  exists m' w' evs,
    convert_filled_buy config oid order filled m w = Ok (tt, m', w', evs) /\
    ((exists k so, (k < 3)%nat /\
        evs = repeat (failed_sell (price (info order) * (1 + rise_to_sell config)) filled) k
              ++ [EvCreate Sell (price (info order) * (1 + rise_to_sell config)) filled
                    (Some so)] /\
        m' = converted oid so m /\
        In (id so) (keys (sell_orders m')) /\
        ~ In oid (keys (buy_orders m')))
     \/ (evs = repeat (failed_sell (price (info order) * (1 + rise_to_sell config)) filled) 3 /\
         m' = m /\
         In oid (keys (buy_orders m')))).
Proof.
  intros Hwf Hin.
  destruct (convert_filled_buy_spec m w oid order filled Hin)
    as (m' & w' & evs & Hrun & Hcase).
  exists m', w', evs. split; [exact Hrun|].
  destruct Hcase as [(k & so & Hk & Hevs & ->) | (Hevs & ->)].
  - left. exists k, so. repeat split; try assumption.
    + simpl. rewrite keys_dict_set.
      destruct (dict_mem (id so) (sell_orders m)) eqn:E.
      * now apply dict_mem_In.
      * apply in_or_app. right. now left.
    + simpl. now apply dict_remove_gone.
  - right. now repeat split.
Qed.

Lemma created_sell_failures p q k : created Sell (repeat (failed_sell p q) k) = 0%nat.
Proof. induction k as [|k IH]; [reflexivity | exact IH]. Qed.

Lemma created_app sd e1 e2 : created sd (e1 ++ e2) = (created sd e1 + created sd e2)%nat.
Proof. unfold created. now rewrite filter_app, length_app. Qed.

(** What the conversion loop does for one tracked buy (lines 158-178). *)
Lemma check_buy_order_spec (m : OrderManager) (w : X) oid order :
  dict_wf (buy_orders m) ->
  In oid (keys (buy_orders m)) ->
  exists m' w' evs,
    check_buy_order config (oid, order) m w = Ok (tt, m', w', evs) /\
    ((reports_filled (fst (api_check_order_status oid w)) \/
      reports_partially_filled (fst (api_check_order_status oid w))) ->
     (origQty (info order) == filled_of (fst (api_check_order_status oid w)))%Q ->
     (exists k so, (k < 3)%nat /\
        evs = EvStatus oid (fst (api_check_order_status oid w))
              :: repeat (failed_sell (price (info order) * (1 + rise_to_sell config))
                           (filled_of (fst (api_check_order_status oid w)))) k
              ++ [EvCreate Sell (price (info order) * (1 + rise_to_sell config))
                    (filled_of (fst (api_check_order_status oid w))) (Some so)] /\
        created Sell evs = 1%nat /\
        m' = converted oid so (set_buy_order_filled true m))
     \/ (evs = EvStatus oid (fst (api_check_order_status oid w))
               :: repeat (failed_sell (price (info order) * (1 + rise_to_sell config))
                            (filled_of (fst (api_check_order_status oid w)))) 3 /\
         created Sell evs = 0%nat /\
         m' = set_buy_order_filled true m)) /\
    ((~ (origQty (info order) == filled_of (fst (api_check_order_status oid w)))%Q \/
      ~ (reports_filled (fst (api_check_order_status oid w)) \/
         reports_partially_filled (fst (api_check_order_status oid w)))) ->
     evs = [EvStatus oid (fst (api_check_order_status oid w))] /\
     buy_orders m' = buy_orders m /\
     sell_orders m' = sell_orders m).
Proof.
  intros Hwf Hin. unfold check_buy_order, reports_filled, reports_partially_filled.
  unfold bind at 1, check_order_status. calls_return.
  destruct (api_check_order_status oid w) as [r w1] eqn:Hs. simpl fst.
  assert (Hst : status_is (status_of r) "FILLED"
                || status_is (status_of r) "PARTIALLY_FILLED" = true <->
                (status_of r = Some "FILLED"%string \/
                 status_of r = Some "PARTIALLY_FILLED"%string)).
  { rewrite orb_true_iff, !status_is_spec. reflexivity. }
  pose proof (Qeq_bool_iff (origQty (info order)) (filled_of r)) as Hq.
  destruct (status_is (status_of r) "FILLED" || status_is (status_of r) "PARTIALLY_FILLED")
    eqn:Est.
  - unfold bind at 1, modify.
    destruct (Qeq_bool (origQty (info order)) (filled_of r)) eqn:Eq.
    + assert (Hin' : In oid (keys (buy_orders (set_buy_order_filled true m)))) by assumption.
      assert (Hwf' : dict_wf (buy_orders (set_buy_order_filled true m))) by assumption.
      destruct (convert_filled_buy_spec (set_buy_order_filled true m) w1 oid order
                  (filled_of r) Hin') as (m' & w' & evs & Hrun & Hcase).
      rewrite Hrun. exists m', w', (EvStatus oid r :: evs).
      split; [reflexivity|]. split.
      * intros _ _.
        destruct Hcase as [(k & so & Hk & -> & ->) | (-> & ->)].
        -- left. exists k, so. repeat split; try assumption.
           change (EvStatus oid r :: ?l) with ([EvStatus oid r] ++ l).
           rewrite !created_app, created_sell_failures. reflexivity.
        -- right. repeat split.
      * intros [Hn | Hn]; exfalso; apply Hn; [now apply Hq | now apply Hst].
    + exists (set_buy_order_filled true m), w1, [EvStatus oid r].
      split; [reflexivity|]. split.
      * intros _ Habs. apply Hq in Habs. discriminate.
      * intros _. now repeat split.
  - exists m, w1, [EvStatus oid r]. split; [reflexivity|]. split.
    + intros Habs. apply Hst in Habs. discriminate.
    + intros _. now repeat split.
Qed.

(** ** The buy ladder (lines 144-154) *)

Lemma py_div_nonzero {S} (a b : Q) (s : S) (w : X) :
  ~ (b == 0)%Q -> py_div a b s w = Ok ((a / b)%Q, s, w, []).
Proof.
  intros Hb. unfold py_div. destruct (Qeq_bool b 0) eqn:E; [|reflexivity].
  apply Qeq_bool_iff in E. contradiction.
Qed.

Lemma py_div_zero {S} (a b : Q) (s : S) (w : X) :
  (b == 0)%Q -> py_div (X := X) a b s w = Raise ZeroDivisionError.
Proof.
  intros Hb. unfold py_div. apply Qeq_bool_iff in Hb. now rewrite Hb.
Qed.

Lemma inject_Z_nonzero n : n <> 0 -> ~ (inject_Z n == 0)%Q.
Proof. unfold Qeq. simpl. lia. Qed.

(** The loop submits the rungs in order; it either gets through all of them
    or stops right after the first one the exchange refuses. *)
Lemma place_buy_loop_spec prices amount (m : OrderManager) (w : X) :
  exists m' w' evs,
    place_buy_loop prices amount m w = Ok (tt, m', w', evs) /\
    sell_orders m' = sell_orders m /\
    (dict_wf (buy_orders m) -> dict_wf (buy_orders m')) /\
    (Forall2 (fun e p => exists o, e = EvCreate Buy p amount (Some o)) evs prices
     \/ exists evs0 p,
          evs = evs0 ++ [EvCreate Buy p amount None] /\
          (List.length evs0 < List.length prices)%nat /\
          nth_error prices (List.length evs0) = Some p /\
          Forall2 (fun e p => exists o, e = EvCreate Buy p amount (Some o))
                  evs0 (firstn (List.length evs0) prices)).
Proof.
  revert m w. induction prices as [|p rest IH]; intros m w.
  - exists m, w, []. split; [reflexivity|]. split; [reflexivity|].
    split; [tauto|]. left. constructor.
  - simpl. unfold bind at 1, create_order. calls_return.
    destruct (api_create_order Buy p amount w) as [[o|] w1] eqn:Hc.
    + unfold bind at 1, buy_orders_set, modify.
      destruct (IH (set_buy_orders (dict_set (id o) o (buy_orders m)) m) w1)
        as (m' & w' & evs & Hrun & Hsell & Hwf & Hcase).
      rewrite Hrun. exists m', w', (EvCreate Buy p amount (Some o) :: evs).
      split; [reflexivity|]. split; [exact Hsell|]. split.
      { intros H. apply Hwf. simpl. now apply dict_set_wf. }
      destruct Hcase as [Hall | (evs0 & q & -> & Hlen & Hnth & Hpre)].
      * left. constructor; [now exists o | assumption].
      * right. exists (EvCreate Buy p amount (Some o) :: evs0), q.
        repeat split; simpl; try lia; try assumption.
        constructor; [now exists o | assumption].
    + exists m, w1, [EvCreate Buy p amount None].
      split; [reflexivity|]. split; [reflexivity|]. split; [tauto|].
      right. exists [], p. repeat split; simpl; try lia. constructor.
Qed.

Lemma Forall2_map_right {A B C} (P : A -> C -> Prop) (f : B -> C) l1 l2 :
  Forall2 P l1 (map f l2) -> Forall2 (fun a b => P a (f b)) l1 l2.
Proof.
  revert l1. induction l2 as [|b l2 IH]; intros l1 H; inversion H; subst;
    constructor; auto.
Qed.

(** The ladder of [place_buy_orders]: rung i at [base * (1 - drop_to_buy * i)],
    each for [(total_margin / N) * leverage / base]. *)
Lemma place_buy_orders_spec (base : Q) (m : OrderManager) (w : X) :
  0 < max_buy_times config ->
  ~ (base == 0)%Q ->
  exists m' w' evs,
    place_buy_orders config base m w = Ok (tt, m', w', evs) /\
    sell_orders m' = sell_orders m /\
    ((forall sd p a, ~ In (EvCreate sd p a None) evs) ->
     Forall2 (fun e i => exists o,
                e = EvCreate Buy
                      (base * (1 - drop_to_buy config * inject_Z i))%Q
                      (total_margin config / inject_Z (max_buy_times config)
                       * leverage config / base)%Q
                      (Some o))
             evs (range1 (max_buy_times config)) /\
     List.length evs = Z.to_nat (max_buy_times config)).
Proof.
  intros HN Hbase. unfold place_buy_orders.
  destruct (place_buy_loop_spec (buy_prices config base)
              (total_margin config / inject_Z (max_buy_times config)
               * leverage config / base)%Q m w)
    as (m' & w' & evs & Hrun & Hsell & _ & Hcase).
  exists m', w', evs. split; [|split; [exact Hsell|]].
  - unfold bind. rewrite py_div_nonzero by (apply inject_Z_nonzero; lia).
    rewrite py_div_nonzero by assumption. now rewrite Hrun.
  - intros Hok. destruct Hcase as [Hall | (evs0 & p & -> & _)].
    + split.
      * unfold buy_prices in Hall. now apply Forall2_map_right in Hall.
      * apply Forall2_length in Hall. rewrite Hall. unfold buy_prices, range1.
        now rewrite !length_map, length_seq.
    + exfalso. eapply Hok. apply in_or_app. right. left. reflexivity.
Qed.

(** ** Status polling *)

Lemma poll_statuses_spec {S} ids (s : S) (w : X) :
  poll_statuses ids s w
  = Ok (fst (replies_from ids w), s, snd (replies_from ids w),
        status_events ids (fst (replies_from ids w))).
Proof.
  revert w. induction ids as [|oid rest IH]; intros w; [reflexivity|].
  simpl. unfold bind at 1, check_order_status. calls_return.
  destruct (api_check_order_status oid w) as [r w1].
  unfold bind at 1. rewrite IH.
  destruct (replies_from rest w1) as [rs w2]. unfold bind, ret. simpl.
  now rewrite app_nil_r.
Qed.

Lemma poll_sell_orders_spec items acc bound (t : GridTrader) (w : X) :
  poll_sell_orders items acc bound t w
  = Ok ((acc && all_report_filled (fst (replies_from (keys items) w)),
         last_bound items bound),
        t, snd (replies_from (keys items) w),
        status_events (keys items) (fst (replies_from (keys items) w))).
Proof.
  revert acc bound w. induction items as [|[oid o] rest IH]; intros acc bound w.
  - simpl. unfold ret. now rewrite andb_true_r.
  - simpl. unfold bind, check_order_status. calls_return.
    destruct (api_check_order_status oid w) as [r w1].
    rewrite IH. destruct (replies_from (keys rest) w1) as [rs w2]. simpl.
    destruct (status_is (status_of r) "FILLED"); simpl.
    + reflexivity.
    + now rewrite andb_false_r.
Qed.

Lemma last_bound_snoc items oid o bound :
  last_bound (items ++ [(oid, o)]) bound = Some oid.
Proof. unfold last_bound. now rewrite fold_left_app. Qed.

Lemma all_report_filled_spec rs :
  all_report_filled rs = true <-> Forall reports_filled rs.
Proof.
  unfold all_report_filled, reports_filled. rewrite forallb_forall, Forall_forall.
  split; intros H r Hr; apply status_is_spec; auto.
Qed.

(** ** Sell to buy replenishment (lines 240-253) *)

(** What the second loop does for one tracked sell. *)
Lemma replace_sell_order_spec (t : GridTrader) (w : X) oid order :
  In oid (keys (sell_orders (order_manager t))) ->
  replace_sell_order config (oid, order) t w
  = let '(r, w1) := api_check_order_status oid w in
    if status_is (status_of r) "FILLED" then
      let '(b, w2) := api_create_order Buy
                        (price (info order) * (1 - drop_to_buy config))%Q
                        (origQty (info order)) w1 in
      Ok (tt, match b with Some bo => replenished oid bo t | None => t end, w2,
          [EvStatus oid r;
           EvCreate Buy (price (info order) * (1 - drop_to_buy config))%Q
             (origQty (info order)) b])
    else Ok (tt, t, w1, [EvStatus oid r]).
Proof.
  intros Hin. unfold replace_sell_order. unfold bind at 1, check_order_status. calls_return.
  destruct (api_check_order_status oid w) as [r w1].
  destruct (status_is (status_of r) "FILLED"); [|reflexivity].
  unfold bind at 1, create_order. calls_return.
  destruct (api_create_order Buy _ _ w1) as [[bo|] w2]; [|reflexivity].
  unfold bind, on_order_manager, buy_orders_set, sell_orders_del, modify. simpl.
  rewrite (dict_del_tracked _ _ Hin). reflexivity.
Qed.

Lemma replace_sell_order_keeps t0 item rest (t : GridTrader) (w : X) :
  replace_keeps t0 (item :: rest) t ->
  exists t' w' e,
    replace_sell_order config item t w = Ok (tt, t', w', e) /\
    replace_keeps t0 rest t'.
Proof.
  destruct item as [oid order].
  intros (Htracked & Hnd & Hws & Hwb & Hbase & Hflag & Hbof).
  assert (Hin : In oid (keys (sell_orders (order_manager t)))).
  { apply Htracked. now left. }
  rewrite (replace_sell_order_spec t w oid order Hin).
  simpl in Hnd. inversion Hnd as [|? ? Hnotin Hnd']; subst.
  assert (Hstay : replace_keeps t0 rest t).
  { repeat split; try assumption. intros k Hk. apply Htracked. now right. }
  destruct (api_check_order_status oid w) as [r w1].
  destruct (status_is (status_of r) "FILLED").
  - destruct (api_create_order Buy _ _ w1) as [[bo|] w2].
    + eexists _, _, _. split; [reflexivity|].
      repeat split; simpl; try assumption.
      * intros k Hk. apply keys_dict_remove_other.
        -- intros ->. contradiction.
        -- apply Htracked. now right.
      * now apply dict_remove_wf.
      * now apply dict_set_wf.
    + eexists _, _, _. split; [reflexivity | assumption].
  - eexists _, _, _. split; [reflexivity | assumption].
Qed.

Lemma replace_loop_total (t : GridTrader) (w : X) :
  dict_wf (sell_orders (order_manager t)) ->
  dict_wf (buy_orders (order_manager t)) ->
  exists t' w' e,
    for_each (sell_orders (order_manager t)) (replace_sell_order config) t w
    = Ok (tt, t', w', e) /\
    replace_keeps t [] t'.
Proof.
  intros Hws Hwb.
  apply (for_each_invariant (replace_sell_order config) (replace_keeps t)).
  - intros x rest s w0 HI. now apply replace_sell_order_keeps.
  - repeat split; auto.
Qed.

(** ** [check_and_replace_buy_orders] by cases (lines 223-253) *)

Lemma check_and_replace_complete (t : GridTrader) (w : X) items oid o :
  sell_orders (order_manager t) = items ++ [(oid, o)] ->
  all_report_filled (fst (replies_from (keys (sell_orders (order_manager t))) w)) = true ->
  check_and_replace_buy_orders config t w
  = Ok (tt, completed oid t,
        snd (replies_from (keys (sell_orders (order_manager t))) w),
        status_events (keys (sell_orders (order_manager t)))
          (fst (replies_from (keys (sell_orders (order_manager t))) w))).
Proof.
  intros Hsells Hall. unfold check_and_replace_buy_orders.
  unfold bind at 1, gets. unfold bind at 1. rewrite poll_sell_orders_spec.
  rewrite Hall. simpl andb. unfold bind at 1.
  assert (Hn : (0 <? List.length (sell_orders (order_manager t)))%nat = true).
  { rewrite Hsells, length_app. simpl. apply Nat.ltb_lt. lia. }
  assert (Hlast : last_bound (sell_orders (order_manager t)) None = Some oid).
  { rewrite Hsells. apply last_bound_snoc. }
  assert (Hin : In oid (keys (sell_orders (order_manager t)))).
  { rewrite Hsells. unfold keys. rewrite map_app. apply in_or_app. right. now left. }
  rewrite Hn, Hlast.
  unfold bind, on_order_manager, sell_orders_del, modify.
  rewrite (dict_del_tracked _ _ Hin). now rewrite !app_nil_r.
Qed.

Lemma check_and_replace_incomplete (t : GridTrader) (w : X) :
  all_report_filled (fst (replies_from (keys (sell_orders (order_manager t))) w))
  && (0 <? List.length (sell_orders (order_manager t)))%nat = false ->
  check_and_replace_buy_orders config t w
  = match for_each (sell_orders (order_manager t)) (replace_sell_order config) t
            (snd (replies_from (keys (sell_orders (order_manager t))) w)) with
    | Ok (u, t', w', e) =>
        Ok (u, t', w',
            status_events (keys (sell_orders (order_manager t)))
              (fst (replies_from (keys (sell_orders (order_manager t))) w)) ++ e)
    | Raise e => Raise e
    end.
Proof.
  intros Hno. unfold check_and_replace_buy_orders.
  unfold bind at 1, gets. unfold bind at 1. rewrite poll_sell_orders_spec.
  simpl andb. unfold bind at 1. rewrite Hno. unfold bind.
  destruct (for_each _ _ t _) as [[[[u t'] w'] e]|]; reflexivity.
Qed.

Lemma for_each_app_ok {S A} (body : A -> M X S unit) l1 l2 s w sa wa ea s' w' e2 :
  for_each l1 body s w = Ok (tt, sa, wa, ea) ->
  for_each l2 body sa wa = Ok (tt, s', w', e2) ->
  for_each (l1 ++ l2) body s w = Ok (tt, s', w', ea ++ e2).
Proof.
  revert s w ea. induction l1 as [|x l1 IH]; intros s w ea H1 H2.
  - simpl in H1. unfold ret in H1. inversion H1; subst. exact H2.
  - simpl in *. unfold bind in *.
    destruct (body x s w) as [[[[[] s1] w1] e1]|]; [|discriminate].
    destruct (for_each l1 body s1 w1) as [[[[[] s2] w2] e2']|] eqn:Hl1; [|discriminate].
    inversion H1; subst. erewrite IH by (reflexivity || eassumption).
    now rewrite app_assoc.
Qed.

Lemma no_create_in_status_events ids rs :
  existsb is_create (status_events ids rs) = false.
Proof.
  unfold status_events. induction (combine ids rs) as [|p l IH]; [reflexivity | exact IH].
Qed.

Lemma incomplete_iff (sells : dict) rs :
  all_report_filled rs && (0 <? List.length sells)%nat = false <->
  ~ (sells <> [] /\ Forall reports_filled rs).
Proof.
  rewrite <- all_report_filled_spec. destruct (all_report_filled rs); simpl.
  - destruct sells as [|x rest]; simpl.
    + split; [|reflexivity]. intros _ [H _]. now apply H.
    + split; [discriminate|]. intros H. exfalso. apply H.
      split; [discriminate | reflexivity].
  - split; [|reflexivity]. intros _ [_ H]. discriminate.
Qed.

(** C1 (as the code has it). One pass of [check_and_replace_buy_orders]
    returns; starting with the flag down, it raises [new_cycle_flag] if and
    only if at least one sell is tracked and every tracked sell reports
    FILLED.  When it does, the last tracked sell is dropped, the tracked buys
    are untouched, and the pass makes status queries only: no order is
    submitted. *)
Theorem cycle_completion_iff (t : GridTrader) (w : X) :
  dict_wf (sell_orders (order_manager t)) ->
  dict_wf (buy_orders (order_manager t)) ->
  exists t' w' evs,
    check_and_replace_buy_orders config t w = Ok (tt, t', w', evs) /\
    (new_cycle_flag t = false ->
     (new_cycle_flag t' = true <->
      sell_orders (order_manager t) <> [] /\
      Forall reports_filled
        (fst (replies_from (keys (sell_orders (order_manager t))) w)))) /\
    (sell_orders (order_manager t) <> [] ->
     Forall reports_filled
       (fst (replies_from (keys (sell_orders (order_manager t))) w)) ->
     new_cycle_flag t' = true /\
     (exists items oid o,
        sell_orders (order_manager t) = items ++ [(oid, o)] /\
        sell_orders (order_manager t') = items) /\
     buy_orders (order_manager t') = buy_orders (order_manager t) /\
     existsb is_create evs = false).
Proof.
  intros Hws Hwb.
  destruct (all_report_filled
              (fst (replies_from (keys (sell_orders (order_manager t))) w))
            && (0 <? List.length (sell_orders (order_manager t)))%nat) eqn:Hc.
  - apply andb_true_iff in Hc. destruct Hc as [Hall Hlen].
    assert (Hne : sell_orders (order_manager t) <> []).
    { intros Hnil. rewrite Hnil in Hlen. discriminate. }
    destruct (exists_last Hne) as (items & [oid o] & Hsells).
    rewrite (check_and_replace_complete t w items oid o Hsells Hall).
    eexists _, _, _. split; [reflexivity|].
    assert (Hitems : dict_remove oid (sell_orders (order_manager t)) = items).
    { rewrite Hsells. apply dict_remove_last.
      unfold dict_wf, keys in Hws. rewrite Hsells, map_app in Hws.
      apply NoDup_remove_2 in Hws. rewrite app_nil_r in Hws. exact Hws. }
    split; [|intros _ _; repeat split].
    + intros _. split; [|reflexivity].
      intros _. split; [assumption | now apply all_report_filled_spec].
    + exists items, oid, o. split; [assumption | exact Hitems].
    + apply no_create_in_status_events.
  - rewrite (check_and_replace_incomplete t w Hc).
    destruct (replace_loop_total t
                (snd (replies_from (keys (sell_orders (order_manager t))) w)) Hws Hwb)
      as (t' & w' & e & Hrun & Hkeep).
    rewrite Hrun. eexists _, _, _. split; [reflexivity|].
    destruct Hkeep as (_ & _ & _ & _ & _ & Hflag & _).
    apply incomplete_iff in Hc. split.
    + intros Hdown. rewrite Hflag, Hdown. split; [discriminate | tauto].
    + intros Hne Hall. tauto.
Qed.

(** ** Cycle start (lines 180-204) *)

Lemma cancel_loop_spec (d : dict) (m : OrderManager) (w : X) :
  dict_wf d ->
  buy_orders m = d ->
  for_each (keys d) (fun oid => cancel_order oid ;; buy_orders_del oid) m w
  = Ok (tt, set_buy_orders [] m, cancelled_from (keys d) w, map EvCancel (keys d)).
Proof.
  revert m w. induction d as [|[k v] rest IH]; intros m w Hwf Hd.
  - simpl. unfold ret. destruct m; simpl in *. now subst.
  - unfold dict_wf in Hwf. simpl in Hwf. inversion Hwf as [|? ? Hnotin Hrest]; subst.
    simpl. unfold bind at 1. unfold bind at 1, cancel_order, buy_orders_del. calls_return.
    unfold dict_del, dict_mem. rewrite Hd. simpl. rewrite Z.eqb_refl. simpl.
    rewrite (IH (set_buy_orders rest m) (api_cancel_order k w) Hrest eq_refl).
    reflexivity.
Qed.

Lemma cancel_all_orders_spec (m : OrderManager) (w : X) :
  dict_wf (buy_orders m) ->
  cancel_all_orders m w
  = Ok (tt, set_buy_orders [] m, cancelled_from (keys (buy_orders m)) w,
        map EvCancel (keys (buy_orders m))).
Proof.
  intros Hwf. unfold cancel_all_orders. unfold bind at 1. unfold gets.
  cbv beta iota.
  now rewrite (cancel_loop_spec (buy_orders m) m w Hwf eq_refl).
Qed.

(** Placing the ladder can only fail on a division by zero; it never
    touches the sells and keeps the keys of the buys unique. *)
Lemma place_buy_orders_outcome base (m : OrderManager) (w : X) :
  match place_buy_orders config base m w with
  | Ok (_, m', _, _) =>
      sell_orders m' = sell_orders m /\
      (dict_wf (buy_orders m) -> dict_wf (buy_orders m'))
  | Raise e => e = ZeroDivisionError
  end.
Proof.
  unfold place_buy_orders, bind, py_div.
  destruct (Qeq_bool (inject_Z (max_buy_times config)) 0); [reflexivity|].
  unfold ret. destruct (Qeq_bool base 0); [reflexivity|].
  match goal with |- context [place_buy_loop ?ps ?a m w] =>
    destruct (place_buy_loop_spec ps a m w) as (m' & w' & evs & Hrun & Hsell & Hwf & _)
  end.
  rewrite Hrun. now split.
Qed.

Lemma start_trade_cycle_spec (t : GridTrader) (w : X) :
  dict_wf (buy_orders (order_manager t)) ->
  start_trade_cycle config t w
  = let '(p, w1) := api_get_market_price
                      (cancelled_from (keys (buy_orders (order_manager t))) w) in
    match p with
    | None =>
        Ok (tt, cycle_reset None t, w1,
            map EvCancel (keys (buy_orders (order_manager t))) ++ [EvPrice None])
    | Some base =>
        match place_buy_orders config base (order_manager (cycle_reset p t)) w1 with
        | Ok (u, m', w', e) =>
            Ok (u, set_order_manager m' (cycle_reset p t), w',
                map EvCancel (keys (buy_orders (order_manager t)))
                ++ EvPrice p :: e)
        | Raise e => Raise e
        end
    end.
Proof.
  intros Hwf. unfold start_trade_cycle.
  unfold bind at 1, on_order_manager at 1, modify at 1.
  unfold bind at 1, on_order_manager at 1.
  rewrite cancel_all_orders_spec by assumption. simpl buy_orders.
  unfold bind at 1, get_market_price. calls_return.
  destruct (api_get_market_price _) as [p w1].
  unfold bind at 1, modify. destruct p as [base|].
  - unfold on_order_manager. simpl.
    destruct (place_buy_orders config base _ w1) as [[[[u m'] w'] e]|]; reflexivity.
  - reflexivity.
Qed.

(** C2. A cycle start that reads the base price [P] (with
    [N = max_buy_times > 0]) cancels the tracked buys, stores [P], and then
    submits limit buys in the order i = 1..N, the i-th at
    [P * (1 - drop_to_buy * i)], each for [(total_margin / N) * leverage / P];
    when no submission is refused, exactly these N orders are submitted. *)
Theorem cycle_start_ladder (P : Q) (t : GridTrader) (w : X) :
  dict_wf (buy_orders (order_manager t)) ->
  0 < max_buy_times config ->
  fst (api_get_market_price
         (cancelled_from (keys (buy_orders (order_manager t))) w)) = Some P ->
  ~ (P == 0)%Q ->
  exists t' w' evs,
    start_trade_cycle config t w
    = Ok (tt, t', w',
          map EvCancel (keys (buy_orders (order_manager t)))
          ++ EvPrice (Some P) :: evs) /\
    base_price t' = Some P /\
    ((forall sd p a, ~ In (EvCreate sd p a None) evs) ->
     Forall2 (fun e i => exists o,
                e = EvCreate Buy
                      (P * (1 - drop_to_buy config * inject_Z i))%Q
                      (total_margin config / inject_Z (max_buy_times config)
                       * leverage config / P)%Q
                      (Some o))
             evs (range1 (max_buy_times config)) /\
     List.length evs = Z.to_nat (max_buy_times config)).
Proof.
  intros Hwb HN Hprice HP.
  rewrite start_trade_cycle_spec by exact Hwb.
  destruct (api_get_market_price _) as [p w1]. simpl in Hprice. subst p.
  destruct (place_buy_orders_spec P (order_manager (cycle_reset (Some P) t)) w1 HN HP)
    as (m' & w' & evs & Hrun & _ & Hladder).
  rewrite Hrun. exists (set_order_manager m' (cycle_reset (Some P) t)), w', evs.
  split; [reflexivity|]. split; [reflexivity | exact Hladder].
Qed.

(** C10. When the completion branch fires with more than one sell tracked,
    all of them reporting FILLED, the pass removes exactly one entry, the one
    the status loop visited last; the other filled sells are still tracked
    after the pass and after the cycle start that follows (which, when it
    returns, leaves the sell table alone; it can only die on a division by a
    zero price or a zero [max_buy_times]). *)
Theorem completion_drops_only_last (t : GridTrader) (w : X) items oid o :
  dict_wf (sell_orders (order_manager t)) ->
  dict_wf (buy_orders (order_manager t)) ->
  sell_orders (order_manager t) = items ++ [(oid, o)] ->
  items <> [] ->
  Forall reports_filled
    (fst (replies_from (keys (sell_orders (order_manager t))) w)) ->
  exists t' w' evs,
    check_and_replace_buy_orders config t w = Ok (tt, t', w', evs) /\
    sell_orders (order_manager t') = items /\
    S (List.length (sell_orders (order_manager t')))
    = List.length (sell_orders (order_manager t)) /\
    ~ In oid (keys (sell_orders (order_manager t'))) /\
    needs_cycle_start t' = true /\
    forall w2,
      match start_trade_cycle config t' w2 with
      | Ok (_, t2, _, _) => sell_orders (order_manager t2) = items
      | Raise e => e = ZeroDivisionError
      end.
Proof.
  intros Hws Hwb Hsells Hne Hall.
  apply all_report_filled_spec in Hall.
  rewrite (check_and_replace_complete t w items oid o Hsells Hall).
  assert (Hnotin : ~ In oid (keys items)).
  { unfold dict_wf, keys in Hws. rewrite Hsells, map_app in Hws.
    apply NoDup_remove_2 in Hws. now rewrite app_nil_r in Hws. }
  assert (Hitems : dict_remove oid (sell_orders (order_manager t)) = items).
  { rewrite Hsells. now apply dict_remove_last. }
  eexists _, _, _. split; [reflexivity|].
  simpl. rewrite Hitems. repeat split.
  - rewrite Hsells, length_app. simpl. lia.
  - assumption.
  - intros w2.
    rewrite start_trade_cycle_spec by exact Hwb.
    destruct (api_get_market_price _) as [[base|] w3]; [|exact Hitems].
    pose proof (place_buy_orders_outcome base
                  (order_manager (cycle_reset (Some base) (completed oid t))) w3) as Hout.
    destruct (place_buy_orders config base _ w3) as [[[[u m'] w'] e]|]; [|exact Hout].
    destruct Hout as [Hout _]. simpl in *. now rewrite Hout.
Qed.

(** ** The price-rise check (lines 206-220) *)

Lemma check_price_rise_spec (t : GridTrader) (w : X) :
  check_price_rise config t w
  = let ids := keys (buy_orders (order_manager t)) in
    let rs := fst (replies_from ids w) in
    let w1 := snd (replies_from ids w) in
    if negb (buy_order_filled (order_manager t)) && negb (any_partially_filled rs)
    then
      let '(cur, w2) := api_get_market_price w1 in
      Ok (tt,
          match cur, base_price t with
          | Some c, Some b =>
              if negb (Qle_bool (b64 c)
                         (float_mul b (float_add 1 (rise_to_sell config))))
              then set_new_cycle_flag true t else t
          | _, _ => t
          end,
          w2, status_events ids rs ++ [EvPrice cur])
    else Ok (tt, t, w1, status_events ids rs).
Proof.
  unfold check_price_rise. unfold bind at 1, gets at 1. cbv beta iota.
  unfold bind at 1. rewrite poll_statuses_spec. cbv beta iota zeta.
  unfold bind at 1, gets at 1. cbv beta iota.
  destruct (negb (buy_order_filled (order_manager t))
            && negb (any_partially_filled
                       (fst (replies_from (keys (buy_orders (order_manager t))) w)))).
  - unfold bind at 1, get_market_price. calls_return.
    destruct (api_get_market_price _) as [cur w2].
    unfold bind, gets. simpl.
    destruct cur as [c|]; destruct (base_price t) as [b|]; simpl;
      try destruct (Qle_bool (b64 c)
                      (float_mul b (float_add 1 (rise_to_sell config)))); simpl;
      rewrite ?app_nil_r; reflexivity.
  - unfold ret. simpl. now rewrite app_nil_r.
Qed.

Lemma any_partially_filled_spec rs :
  any_partially_filled rs = false <->
  forall r, In r rs -> ~ reports_partially_filled r.
Proof.
  unfold any_partially_filled, reports_partially_filled.
  induction rs as [|r rs IH]; simpl.
  - split; [intros _ r [] | reflexivity].
  - rewrite orb_false_iff, IH. split.
    + intros [Hr Hrs] r' [<- | Hin]; [|now apply Hrs].
      intros Habs. apply status_is_spec in Habs. congruence.
    + intros H. split.
      * destruct (status_is (status_of r) "PARTIALLY_FILLED") eqn:E; [|reflexivity].
        apply status_is_spec in E. exfalso. apply (H r); auto.
      * intros r' Hin. apply H. now right.
Qed.


(** ** Whole passes return *)

Lemma check_buy_order_keeps item rest (m : OrderManager) (w : X) :
  convert_keeps (item :: rest) m ->
  exists m' w' e,
    check_buy_order config item m w = Ok (tt, m', w', e) /\
    convert_keeps rest m'.
Proof.
  destruct item as [oid order]. intros (Htracked & Hnd & Hwb & Hws).
  simpl in Hnd. inversion Hnd as [|? ? Hnotin Hnd']; subst.
  assert (Hrest : forall k, In k (keys rest) -> In k (keys (buy_orders m))).
  { intros k Hk. apply Htracked. now right. }
  unfold check_buy_order. unfold bind at 1, check_order_status. calls_return.
  destruct (api_check_order_status oid w) as [r w1].
  destruct (status_is (status_of r) "FILLED" || status_is (status_of r) "PARTIALLY_FILLED").
  - unfold bind at 1, modify.
    destruct (Qeq_bool (origQty (info order)) (filled_of r)).
    + destruct (convert_filled_buy_spec (set_buy_order_filled true m) w1 oid order
                  (filled_of r) (Htracked oid (or_introl eq_refl)))
        as (m' & w' & evs & Hrun & Hcase).
      rewrite Hrun. eexists _, _, _. split; [reflexivity|].
      destruct Hcase as [(k & so & _ & _ & ->) | (_ & ->)].
      * repeat split; simpl; try assumption.
        -- intros k' Hk'. apply keys_dict_remove_other; [|now apply Hrest].
           intros ->. contradiction.
        -- now apply dict_remove_wf.
        -- now apply dict_set_wf.
      * repeat split; assumption.
    + eexists _, _, _. split; [reflexivity|]. repeat split; assumption.
  - eexists _, _, _. split; [reflexivity|]. repeat split; assumption.
Qed.

Lemma check_and_place_sell_orders_total (m : OrderManager) (w : X) :
  dict_wf (buy_orders m) ->
  dict_wf (sell_orders m) ->
  exists m' w' e,
    check_and_place_sell_orders config m w = Ok (tt, m', w', e) /\
    dict_wf (buy_orders m') /\ dict_wf (sell_orders m').
Proof.
  intros Hwb Hws. unfold check_and_place_sell_orders. unfold bind at 1, gets.
  cbv beta iota.
  destruct (for_each_invariant (check_buy_order config) convert_keeps
              (fun x rest s w0 HI => check_buy_order_keeps x rest s w0 HI)
              (buy_orders m) m w) as (m' & w' & e & Hrun & HI).
  - repeat split; auto.
  - rewrite Hrun. eexists _, _, _. split; [reflexivity|].
    destruct HI as (_ & _ & H1 & H2). now split.
Qed.

(** C4 (as the code has it). The conversion pass reaches every tracked buy
    while it is still tracked and queries its status once.  When the reply is
    FILLED or PARTIALLY_FILLED and the executed quantity equals the requested
    one, sells are submitted at the buy's price times [1 + rise_to_sell] for
    the executed quantity, three times at most; exactly one sell is created
    when a submission is accepted (the buy is then dropped and the sell
    recorded) and none when all three are refused (the buy stays tracked).
    A buy whose executed quantity differs from the requested one, or whose
    status is neither, makes no submission and stays. *)
Theorem conversion_per_filled_buy (m : OrderManager) (w : X) l1 oid order l2 :
  dict_wf (buy_orders m) ->
  dict_wf (sell_orders m) ->
  buy_orders m = l1 ++ (oid, order) :: l2 ->
  exists ma wa ea mb wb eb m' w' ec,
    check_and_place_sell_orders config m w = Ok (tt, m', w', ea ++ eb ++ ec) /\
    for_each l1 (check_buy_order config) m w = Ok (tt, ma, wa, ea) /\
    In oid (keys (buy_orders ma)) /\
    check_buy_order config (oid, order) ma wa = Ok (tt, mb, wb, eb) /\
    for_each l2 (check_buy_order config) mb wb = Ok (tt, m', w', ec) /\
    ((reports_filled (fst (api_check_order_status oid wa)) \/
      reports_partially_filled (fst (api_check_order_status oid wa))) ->
     (origQty (info order) == filled_of (fst (api_check_order_status oid wa)))%Q ->
     (exists k so, (k < 3)%nat /\
        eb = EvStatus oid (fst (api_check_order_status oid wa))
             :: repeat (failed_sell (price (info order) * (1 + rise_to_sell config))
                          (filled_of (fst (api_check_order_status oid wa)))) k
             ++ [EvCreate Sell (price (info order) * (1 + rise_to_sell config))
                   (filled_of (fst (api_check_order_status oid wa))) (Some so)] /\
        created Sell eb = 1%nat /\
        mb = converted oid so (set_buy_order_filled true ma))
     \/ (eb = EvStatus oid (fst (api_check_order_status oid wa))
              :: repeat (failed_sell (price (info order) * (1 + rise_to_sell config))
                           (filled_of (fst (api_check_order_status oid wa)))) 3 /\
         created Sell eb = 0%nat /\
         mb = set_buy_order_filled true ma)) /\
    ((~ (origQty (info order) == filled_of (fst (api_check_order_status oid wa)))%Q \/
      ~ (reports_filled (fst (api_check_order_status oid wa)) \/
         reports_partially_filled (fst (api_check_order_status oid wa)))) ->
     eb = [EvStatus oid (fst (api_check_order_status oid wa))] /\
     buy_orders mb = buy_orders ma /\
     sell_orders mb = sell_orders ma).
Proof.
  intros Hwb Hws Hbuys.
  assert (Hstart : convert_keeps (l1 ++ (oid, order) :: l2) m).
  { rewrite <- Hbuys. repeat split; auto. }
  destruct (for_each_invariant (check_buy_order config)
              (fun r s => convert_keeps (r ++ (oid, order) :: l2) s)
              (fun x rest s w1 HI => check_buy_order_keeps x _ s w1 HI)
              l1 m w Hstart) as (ma & wa & ea & Hrun1 & Hka).
  simpl in Hka.
  assert (Hin : In oid (keys (buy_orders ma))).
  { destruct Hka as (Htracked & _). apply Htracked. now left. }
  assert (Hwa : dict_wf (buy_orders ma)) by (destruct Hka as (_ & _ & H & _); exact H).
  destruct (check_buy_order_spec ma wa oid order Hwa Hin)
    as (mb & wb & eb & Hrunb & Hyes & Hno).
  destruct (check_buy_order_keeps (oid, order) l2 ma wa Hka)
    as (mb' & wb' & eb' & Hrunb' & Hkb).
  rewrite Hrunb in Hrunb'. inversion Hrunb'; subst mb' wb' eb'.
  destruct (for_each_invariant (check_buy_order config) convert_keeps
              (fun x rest s w1 HI => check_buy_order_keeps x rest s w1 HI)
              l2 mb wb Hkb) as (m' & w' & ec & Hrun2 & _).
  exists ma, wa, ea, mb, wb, eb, m', w', ec.
  split.
  { unfold check_and_place_sell_orders. unfold bind at 1, gets. cbv beta iota.
    rewrite Hbuys.
    erewrite for_each_app_ok;
      [reflexivity | exact Hrun1 | rewrite for_each_cons; eapply bind_ok; eassumption]. }
  split; [exact Hrun1|]. split; [exact Hin|]. split; [exact Hrunb|].
  split; [exact Hrun2|]. split; [exact Hyes | exact Hno].
Qed.

Lemma check_and_replace_total (t : GridTrader) (w : X) :
  dict_wf (sell_orders (order_manager t)) ->
  dict_wf (buy_orders (order_manager t)) ->
  exists t' w' e,
    check_and_replace_buy_orders config t w = Ok (tt, t', w', e) /\
    base_price t' = base_price t /\
    dict_wf (sell_orders (order_manager t')) /\
    dict_wf (buy_orders (order_manager t')).
Proof.
  intros Hws Hwb.
  destruct (all_report_filled
              (fst (replies_from (keys (sell_orders (order_manager t))) w))
            && (0 <? List.length (sell_orders (order_manager t)))%nat) eqn:Hc.
  - apply andb_true_iff in Hc. destruct Hc as [Hall Hlen].
    assert (Hne : sell_orders (order_manager t) <> []).
    { intros Hnil. rewrite Hnil in Hlen. discriminate. }
    destruct (exists_last Hne) as (items & [oid o] & Hsells).
    rewrite (check_and_replace_complete t w items oid o Hsells Hall).
    eexists _, _, _. split; [reflexivity|]. simpl.
    repeat split; [now apply dict_remove_wf | assumption].
  - rewrite (check_and_replace_incomplete t w Hc).
    destruct (replace_loop_total t
                (snd (replies_from (keys (sell_orders (order_manager t))) w)) Hws Hwb)
      as (t' & w' & e & Hrun & Hkeep).
    rewrite Hrun. eexists _, _, _. split; [reflexivity|].
    destruct Hkeep as (_ & _ & H1 & H2 & H3 & _). now repeat split.
Qed.

Lemma check_price_rise_total (t : GridTrader) (w : X) :
  exists t' w' e,
    check_price_rise config t w = Ok (tt, t', w', e) /\
    base_price t' = base_price t /\
    order_manager t' = order_manager t.
Proof.
  rewrite check_price_rise_spec. cbv zeta.
  destruct (negb _ && negb _).
  - destruct (api_get_market_price _) as [cur w2].
    eexists _, _, _. split; [reflexivity|].
    destruct cur as [c|]; [|split; reflexivity].
    destruct (base_price t) as [b|] eqn:Hb; [|now split].
    destruct (negb _); simpl; now split.
  - eexists _, _, _. split; [reflexivity|]. split; reflexivity.
Qed.

(** C9 (as the code has it). When a cycle start is due and the last-price
    query fails, the cycle start has already cancelled and dropped every
    tracked buy and cleared [buy_order_filled]; it stores the failed reply as
    the base price and places no order.  Line 264 then clears
    [new_cycle_flag], and the three remaining steps of the tick run from
    that trader.  The tick still returns, and it ends with the base price
    unset, so the next tick starts the cycle again. *)
Theorem price_failure_blocks_cycle_start (t : GridTrader) (w : X) :
  dict_wf (buy_orders (order_manager t)) ->
  dict_wf (sell_orders (order_manager t)) ->
  needs_cycle_start t = true ->
  fst (api_get_market_price
         (cancelled_from (keys (buy_orders (order_manager t))) w)) = None ->
  start_trade_cycle config t w
  = Ok (tt, cycle_reset None t,
        snd (api_get_market_price
               (cancelled_from (keys (buy_orders (order_manager t))) w)),
        map EvCancel (keys (buy_orders (order_manager t))) ++ [EvPrice None]) /\
  sell_orders (order_manager (cycle_reset None t)) = sell_orders (order_manager t) /\
  buy_orders (order_manager (cycle_reset None t)) = [] /\
  buy_order_filled (order_manager (cycle_reset None t)) = false /\
  base_price (cycle_reset None t) = None /\
  new_cycle_flag (set_new_cycle_flag false (cycle_reset None t)) = false /\
  exists t' w' evs,
    (on_order_manager (check_and_place_sell_orders config) ;;
     check_and_replace_buy_orders config ;;
     check_price_rise config)
      (set_new_cycle_flag false (cycle_reset None t))
      (snd (api_get_market_price
              (cancelled_from (keys (buy_orders (order_manager t))) w)))
    = Ok (tt, t', w', evs) /\
    trade_tick config t w
    = Ok (tt, t', w',
          map EvCancel (keys (buy_orders (order_manager t))) ++ EvPrice None :: evs) /\
    base_price t' = None /\
    needs_cycle_start t' = true.
Proof.
  intros Hwb Hws Hstart Hprice.
  assert (Hcycle : start_trade_cycle config t w
    = Ok (tt, cycle_reset None t,
          snd (api_get_market_price
                 (cancelled_from (keys (buy_orders (order_manager t))) w)),
          map EvCancel (keys (buy_orders (order_manager t))) ++ [EvPrice None])).
  { rewrite start_trade_cycle_spec by assumption.
    destruct (api_get_market_price _) as [p w1]. simpl in Hprice. now subst p. }
  split; [exact Hcycle|]. repeat (split; [reflexivity|]).
  set (t1 := set_new_cycle_flag false (cycle_reset None t)).
  set (w1 := snd (api_get_market_price _)) in *.
  destruct (check_and_place_sell_orders_total (order_manager t1) w1)
    as (m2 & w2 & e2 & Hrun2 & Hwb2 & Hws2).
  { constructor. }
  { exact Hws. }
  destruct (check_and_replace_total (set_order_manager m2 t1) w2 Hws2 Hwb2)
    as (t3 & w3 & e3 & Hrun3 & Hbase3 & _).
  destruct (check_price_rise_total t3 w3) as (t4 & w4 & e4 & Hrun4 & Hbase4 & _).
  assert (Hrest :
    (on_order_manager (check_and_place_sell_orders config) ;;
     check_and_replace_buy_orders config ;;
     check_price_rise config) t1 w1
    = Ok (tt, t4, w4, e2 ++ e3 ++ e4)).
  { unfold bind at 1. unfold on_order_manager. rewrite Hrun2.
    unfold bind at 1. rewrite Hrun3, Hrun4. reflexivity. }
  assert (Htick : trade_tick config t w
    = Ok (tt, t4, w4,
          map EvCancel (keys (buy_orders (order_manager t)))
          ++ EvPrice None :: e2 ++ e3 ++ e4)).
  { unfold trade_tick. unfold bind at 1, gets. cbv beta iota. rewrite Hstart.
    unfold bind at 1. unfold bind at 1. rewrite Hcycle. unfold modify.
    cbv beta iota. fold t1. rewrite Hrest.
    rewrite app_nil_r, <- app_assoc. reflexivity. }
  exists t4, w4, (e2 ++ e3 ++ e4). split; [exact Hrest|]. split; [exact Htick|].
  assert (Hnone : base_price t4 = None) by (now rewrite Hbase4, Hbase3).
  split; [exact Hnone|].
  unfold needs_cycle_start. rewrite Hnone. apply orb_true_r.
Qed.

(** C6. In a pass where some tracked sell does not report FILLED, the second
    loop reaches every tracked sell while it is still tracked and queries it
    once more.  When that reply is FILLED it submits exactly one buy, at the
    sell's price times [1 - drop_to_buy] for the sell's quantity; if the
    exchange accepts it the sell is dropped and the buy recorded, and if not
    the trader is left as it was, the sell still tracked.  A sell that does
    not report FILLED triggers no submission. *)
Theorem replenishment_per_filled_sell (t : GridTrader) (w : X) l1 oid order l2 :
  dict_wf (sell_orders (order_manager t)) ->
  dict_wf (buy_orders (order_manager t)) ->
  sell_orders (order_manager t) = l1 ++ (oid, order) :: l2 ->
  ~ Forall reports_filled
      (fst (replies_from (keys (sell_orders (order_manager t))) w)) ->
  exists ta wa ea tb wb eb t' w' ec,
    check_and_replace_buy_orders config t w
    = Ok (tt, t', w',
          status_events (keys (sell_orders (order_manager t)))
            (fst (replies_from (keys (sell_orders (order_manager t))) w))
          ++ ea ++ eb ++ ec) /\
    for_each l1 (replace_sell_order config) t
      (snd (replies_from (keys (sell_orders (order_manager t))) w))
    = Ok (tt, ta, wa, ea) /\
    In oid (keys (sell_orders (order_manager ta))) /\
    replace_sell_order config (oid, order) ta wa = Ok (tt, tb, wb, eb) /\
    for_each l2 (replace_sell_order config) tb wb = Ok (tt, t', w', ec) /\
    (reports_filled (fst (api_check_order_status oid wa)) ->
     exists reply,
       eb = [EvStatus oid (fst (api_check_order_status oid wa));
             EvCreate Buy (price (info order) * (1 - drop_to_buy config))%Q
               (origQty (info order)) reply] /\
       match reply with
       | Some b =>
           tb = replenished oid b ta /\
           ~ In oid (keys (sell_orders (order_manager tb))) /\
           In (id b) (keys (buy_orders (order_manager tb)))
       | None => tb = ta
       end) /\
    (~ reports_filled (fst (api_check_order_status oid wa)) ->
     eb = [EvStatus oid (fst (api_check_order_status oid wa))] /\ tb = ta).
Proof.
  intros Hws Hwb Hsells Hsome.
  assert (Hc : all_report_filled
                 (fst (replies_from (keys (sell_orders (order_manager t))) w))
               && (0 <? List.length (sell_orders (order_manager t)))%nat = false).
  { apply incomplete_iff. tauto. }
  rewrite (check_and_replace_incomplete t w Hc).
  set (w0 := snd (replies_from (keys (sell_orders (order_manager t))) w)).
  assert (Hstart : replace_keeps t (l1 ++ (oid, order) :: l2) t).
  { rewrite <- Hsells. repeat split; auto. }
  destruct (for_each_invariant (replace_sell_order config)
              (fun r s => replace_keeps t (r ++ (oid, order) :: l2) s)
              (fun x rest s w1 HI => replace_sell_order_keeps t x _ s w1 HI)
              l1 t w0 Hstart) as (ta & wa & ea & Hrun1 & Hka).
  simpl in Hka.
  destruct (replace_sell_order_keeps t (oid, order) l2 ta wa Hka)
    as (tb & wb & eb & Hrunb & Hkb).
  destruct (for_each_invariant (replace_sell_order config) (replace_keeps t)
              (fun x rest s w1 HI => replace_sell_order_keeps t x rest s w1 HI)
              l2 tb wb Hkb) as (t' & w' & ec & Hrun2 & _).
  assert (Hin : In oid (keys (sell_orders (order_manager ta)))).
  { destruct Hka as (Htracked & _). apply Htracked. now left. }
  exists ta, wa, ea, tb, wb, eb, t', w', ec.
  assert (Hloop : for_each (sell_orders (order_manager t)) (replace_sell_order config) t w0
                  = Ok (tt, t', w', ea ++ eb ++ ec)).
  { rewrite Hsells. eapply for_each_app_ok; [exact Hrun1|].
    rewrite for_each_cons. eapply bind_ok; eassumption. }
  rewrite Hloop. repeat split; try assumption.
  - intros Hfilled. rewrite (replace_sell_order_spec ta wa oid order Hin) in Hrunb.
    destruct (api_check_order_status oid wa) as [r w1]. simpl in Hfilled |- *.
    apply status_is_spec in Hfilled. rewrite Hfilled in Hrunb.
    destruct (api_create_order Buy _ _ w1) as [reply w2].
    inversion Hrunb; subst. exists reply. split; [reflexivity|].
    destruct reply as [b|]; [|reflexivity].
    destruct Hka as (_ & _ & Hwsa & _).
    repeat split.
    + simpl. now apply dict_remove_gone.
    + simpl. rewrite keys_dict_set.
      destruct (dict_mem (id b) (buy_orders (order_manager ta))) eqn:E.
      * now apply dict_mem_In.
      * apply in_or_app. right. now left.
  - rewrite (replace_sell_order_spec ta wa oid order Hin) in Hrunb.
    destruct (api_check_order_status oid wa) as [r w1]. simpl in H |- *.
    destruct (status_is (status_of r) "FILLED") eqn:E.
    + apply status_is_spec in E. contradiction.
    + now inversion Hrunb.
  - rewrite (replace_sell_order_spec ta wa oid order Hin) in Hrunb.
    destruct (api_check_order_status oid wa) as [r w1]. simpl in H |- *.
    destruct (status_is (status_of r) "FILLED") eqn:E.
    + apply status_is_spec in E. contradiction.
    + now inversion Hrunb.
Qed.

(** ** The loop never raises [KeyError] *)

Lemma start_trade_cycle_outcome (t : GridTrader) (w : X) :
  trader_wf t ->
  match start_trade_cycle config t w with
  | Ok (_, t', _, _) => trader_wf t'
  | Raise e => e = ZeroDivisionError
  end.
Proof.
  intros [Hwb Hws]. rewrite start_trade_cycle_spec by exact Hwb.
  destruct (api_get_market_price _) as [[base|] w1].
  - pose proof (place_buy_orders_outcome base
                  (order_manager (cycle_reset (Some base) t)) w1) as Hout.
    destruct (place_buy_orders config base _ w1) as [[[[u m'] w'] e]|]; [|exact Hout].
    destruct Hout as [Hsell Hwf]. split; simpl.
    + apply Hwf. constructor.
    + rewrite Hsell. exact Hws.
  - split; [constructor | exact Hws].
Qed.

Lemma after_cycle_start (t : GridTrader) (w : X) :
  trader_wf t ->
  exists t' w' e,
    (on_order_manager (check_and_place_sell_orders config) ;;
     check_and_replace_buy_orders config ;;
     check_price_rise config) t w = Ok (tt, t', w', e) /\
    trader_wf t'.
Proof.
  intros [Hwb Hws]. unfold bind at 1, on_order_manager.
  destruct (check_and_place_sell_orders_total (order_manager t) w Hwb Hws)
    as (m2 & w2 & e2 & Hrun2 & Hwb2 & Hws2).
  rewrite Hrun2. unfold bind at 1.
  destruct (check_and_replace_total (set_order_manager m2 t) w2 Hws2 Hwb2)
    as (t3 & w3 & e3 & Hrun3 & _ & Hws3 & Hwb3).
  rewrite Hrun3.
  destruct (check_price_rise_total t3 w3) as (t4 & w4 & e4 & Hrun4 & _ & Hom).
  rewrite Hrun4. eexists _, _, _. split; [reflexivity|].
  unfold trader_wf. rewrite Hom. now split.
Qed.

Lemma trade_tick_outcome (t : GridTrader) (w : X) :
  trader_wf t ->
  match trade_tick config t w with
  | Ok (_, t', _, _) => trader_wf t'
  | Raise e => e = ZeroDivisionError
  end.
Proof.
  intros Hwf. unfold trade_tick. unfold bind at 1, gets. cbv beta iota.
  destruct (needs_cycle_start t).
  - unfold bind at 1. unfold bind at 1.
    pose proof (start_trade_cycle_outcome t w Hwf) as Hstart.
    destruct (start_trade_cycle config t w) as [[[[u t1] w1] e1]|]; [|exact Hstart].
    unfold modify. cbv beta iota.
    destruct (after_cycle_start (set_new_cycle_flag false t1) w1 Hstart)
      as (t' & w' & e & Hrun & Hwf').
    rewrite Hrun. exact Hwf'.
  - unfold bind at 1, ret.
    destruct (after_cycle_start t w Hwf) as (t' & w' & e & Hrun & Hwf').
    rewrite Hrun. exact Hwf'.
Qed.

(** Over an exchange whose calls return. From a fresh [GridTrader], any
    number of passes of the loop either returns, with unique keys in both
    tracking tables, or dies on a division by zero in [place_buy_orders]; no
    [del] ever misses its key and the loop variable of line 236 is always
    bound. *)
Lemma trade_outcome_returning (n : nat) (w : X) :
  match trade config n GridTrader_init w with
  | Ok (_, t', _, _) => trader_wf t'
  | Raise e => e = ZeroDivisionError
  end.
Proof.
  assert (H : forall t w0, trader_wf t ->
            match trade config n t w0 with
            | Ok (_, t', _, _) => trader_wf t'
            | Raise e => e = ZeroDivisionError
            end).
  { induction n as [|n IH]; intros t w0 Hwf.
    - exact Hwf.
    - simpl. unfold bind.
      pose proof (trade_tick_outcome t w0 Hwf) as Htick.
      destruct (trade_tick config t w0) as [[[[u t1] w1] e1]|]; [|exact Htick].
      specialize (IH t1 w1 Htick).
      destruct (trade config n t1 w1) as [[[[u2 t2] w2] e2]|]; exact IH. }
  apply H. split; constructor.
Qed.

(** ** What the passes leave alone *)

Lemma conversion_frame_refl m : conversion_frame m m.
Proof. unfold conversion_frame. repeat split; auto using incl_refl. Qed.

Lemma conversion_frame_trans m0 m1 m2 :
  conversion_frame m0 m1 -> conversion_frame m1 m2 -> conversion_frame m0 m2.
Proof.
  intros (A1 & A2 & A3 & A4 & A5 & A6 & A7) (B1 & B2 & B3 & B4 & B5 & B6 & B7).
  unfold conversion_frame. repeat split.
  - lia.
  - lia.
  - eapply incl_tran; eassumption.
  - eapply incl_tran; eassumption.
  - congruence.
  - auto.
  - auto.
Qed.

Lemma conversion_frame_converted oid so m :
  In oid (keys (buy_orders m)) ->
  conversion_frame m (converted oid so (set_buy_order_filled true m)).
Proof.
  intros Hin. pose proof (length_dict_remove oid (buy_orders m) Hin) as Hrem.
  pose proof (length_dict_set (id so) so (sell_orders m)) as Hset.
  unfold conversion_frame, tracked_orders. simpl. repeat split; try lia.
  - intros k Hk. eapply keys_dict_remove_incl. exact Hk.
  - apply keys_dict_set_incl.
Qed.

Lemma forallb_repeat {A} (P : A -> bool) x n :
  P x = true -> forallb P (repeat x n) = true.
Proof. intros Hx. induction n as [|n IH]; simpl; [reflexivity | now rewrite Hx]. Qed.

Lemma check_buy_order_frame m0 item rest (m : OrderManager) (w : X) :
  convert_keeps (item :: rest) m ->
  conversion_frame m0 m ->
  exists m' w' e,
    check_buy_order config item m w = Ok (tt, m', w', e) /\
    (convert_keeps rest m' /\ conversion_frame m0 m') /\
    forallb (fun ev => is_status ev || is_sell_create ev) e = true.
Proof.
  intros Hkeep Hframe.
  destruct (check_buy_order_keeps item rest m w Hkeep) as (m' & w' & e & Hrun & Hkeep').
  exists m', w', e. split; [exact Hrun|]. 
  destruct item as [oid order]. destruct Hkeep as (Htracked & _).
  assert (Hin : In oid (keys (buy_orders m))) by (apply Htracked; now left).
  unfold check_buy_order in Hrun. unfold bind at 1, check_order_status in Hrun. calls_return in Hrun.
  destruct (api_check_order_status oid w) as [r w1].
  destruct (status_is (status_of r) "FILLED" || status_is (status_of r) "PARTIALLY_FILLED").
  - unfold bind at 1, modify in Hrun.
    assert (Hflag : conversion_frame m (set_buy_order_filled true m)).
    { unfold conversion_frame, tracked_orders. simpl.
      repeat split; auto using incl_refl. }
    destruct (Qeq_bool (origQty (info order)) (filled_of r)).
    + destruct (convert_filled_buy_spec (set_buy_order_filled true m) w1 oid order
                  (filled_of r) Hin) as (m2 & w2 & evs & Hrun2 & Hcase).
      rewrite Hrun2 in Hrun. inversion Hrun; subst m' w' e. clear Hrun.
      destruct Hcase as [(k & so & _ & -> & ->) | (-> & ->)].
      * split; [split; [exact Hkeep'|]|].
        -- eapply conversion_frame_trans; [exact Hframe|].
           now apply conversion_frame_converted.
        -- simpl. rewrite forallb_app, forallb_repeat by reflexivity. reflexivity.
      * split; [split; [exact Hkeep'|]|].
        -- eapply conversion_frame_trans; eassumption.
        -- reflexivity.
    + inversion Hrun; subst m' w' e.
      split; [split; [exact Hkeep'|]|reflexivity].
      eapply conversion_frame_trans; eassumption.
  - inversion Hrun; subst m' w' e. split; [split; assumption | reflexivity].
Qed.

Lemma check_and_place_sell_orders_pass (m : OrderManager) (w : X) :
  dict_wf (buy_orders m) ->
  dict_wf (sell_orders m) ->
  exists m' w' evs,
    check_and_place_sell_orders config m w = Ok (tt, m', w', evs) /\
    dict_wf (buy_orders m') /\ dict_wf (sell_orders m') /\
    conversion_frame m m' /\
    forallb (fun ev => is_status ev || is_sell_create ev) evs = true.
Proof.
  intros Hwb Hws. unfold check_and_place_sell_orders. unfold bind at 1, gets.
  cbv beta iota.
  destruct (for_each_rule (check_buy_order config)
              (fun rest s => convert_keeps rest s /\ conversion_frame m s)
              (fun ev => is_status ev || is_sell_create ev)
              (fun x rest s w0 HI =>
                 check_buy_order_frame m x rest s w0 (proj1 HI) (proj2 HI))
              (buy_orders m) m w) as (m' & w' & e & Hrun & [Hkeep Hframe] & Hev).
  - split; [repeat split; auto | apply conversion_frame_refl].
  - rewrite Hrun. exists m', w', e. split; [reflexivity|].
    destruct Hkeep as (_ & _ & Hwb' & Hws').
    split; [exact Hwb'|]. split; [exact Hws'|]. split; [exact Hframe | exact Hev].
Qed.

(** Over an exchange whose calls return. A conversion pass returns; it only
    queries statuses and submits sells (it never submits a buy, cancels, or
    asks for the price); buys can only leave the table and sells only
    arrive; the pass never tracks more orders after than before, never
    clears [buy_order_filled] or [sell_order_executed], and never writes
    [sell_order_filled]. *)
Lemma conversion_pass_frame_returning (m : OrderManager) (w : X) :
  dict_wf (buy_orders m) ->
  dict_wf (sell_orders m) ->
  exists m' w' evs,
    check_and_place_sell_orders config m w = Ok (tt, m', w', evs) /\
    forallb (fun ev => is_status ev || is_sell_create ev) evs = true /\
    (tracked_orders m' <= tracked_orders m)%nat /\
    (List.length (buy_orders m') <= List.length (buy_orders m))%nat /\
    incl (keys (buy_orders m')) (keys (buy_orders m)) /\
    incl (keys (sell_orders m)) (keys (sell_orders m')) /\
    sell_order_filled m' = sell_order_filled m /\
    (buy_order_filled m = true -> buy_order_filled m' = true) /\
    (sell_order_executed m = true -> sell_order_executed m' = true).
Proof.
  intros Hwb Hws.
  destruct (check_and_place_sell_orders_pass m w Hwb Hws)
    as (m' & w' & evs & Hrun & _ & _ & Hframe & Hev).
  exists m', w', evs. split; [exact Hrun|]. split; [exact Hev | exact Hframe].
Qed.

Lemma replenishment_frame_refl t : replenishment_frame t t.
Proof. unfold replenishment_frame. repeat split; auto using incl_refl. Qed.

Lemma replenishment_frame_trans t0 t1 t2 :
  replenishment_frame t0 t1 -> replenishment_frame t1 t2 -> replenishment_frame t0 t2.
Proof.
  intros (A1 & A2 & A3 & A4 & A5 & A6 & A7 & A8 & A9 & A10)
         (B1 & B2 & B3 & B4 & B5 & B6 & B7 & B8 & B9 & B10).
  unfold replenishment_frame. repeat split; try congruence; try lia.
  - eapply incl_tran; eassumption.
  - eapply incl_tran; eassumption.
Qed.

Lemma replenishment_frame_replenished oid b t :
  In oid (keys (sell_orders (order_manager t))) ->
  replenishment_frame t (replenished oid b t).
Proof.
  intros Hin.
  pose proof (length_dict_remove oid (sell_orders (order_manager t)) Hin) as Hrem.
  pose proof (length_dict_set (id b) b (buy_orders (order_manager t))) as Hset.
  unfold replenishment_frame, tracked_orders. simpl. repeat split; try lia.
  - intros k Hk. eapply keys_dict_remove_incl. exact Hk.
  - apply keys_dict_set_incl.
Qed.

Lemma replace_sell_order_frame t0 t1 item rest (t : GridTrader) (w : X) :
  replace_keeps t0 (item :: rest) t ->
  replenishment_frame t1 t ->
  exists t' w' e,
    replace_sell_order config item t w = Ok (tt, t', w', e) /\
    (replace_keeps t0 rest t' /\ replenishment_frame t1 t') /\
    forallb (fun ev => is_status ev || is_buy_create ev) e = true.
Proof.
  intros Hkeep Hframe.
  destruct (replace_sell_order_keeps t0 item rest t w Hkeep)
    as (t' & w' & e & Hrun & Hkeep').
  exists t', w', e. split; [exact Hrun|].
  destruct item as [oid order]. destruct Hkeep as (Htracked & _).
  assert (Hin : In oid (keys (sell_orders (order_manager t))))
    by (apply Htracked; now left).
  rewrite (replace_sell_order_spec t w oid order Hin) in Hrun.
  destruct (api_check_order_status oid w) as [r w1].
  destruct (status_is (status_of r) "FILLED").
  - destruct (api_create_order Buy _ _ w1) as [[b|] w2];
      inversion Hrun; subst t' w' e.
    + split; [split; [exact Hkeep'|] | reflexivity].
      eapply replenishment_frame_trans;
        [exact Hframe | now apply replenishment_frame_replenished].
    + split; [split; assumption | reflexivity].
  - inversion Hrun; subst t' w' e. split; [split; assumption | reflexivity].
Qed.

Lemma forallb_status_events P ids rs :
  (forall oid r, P (EvStatus oid r) = true) ->
  forallb P (status_events ids rs) = true.
Proof.
  intros HP. unfold status_events.
  induction (combine ids rs) as [|p l IH]; simpl; [reflexivity|].
  now rewrite HP, IH.
Qed.

Lemma check_and_replace_pass (t : GridTrader) (w : X) :
  dict_wf (sell_orders (order_manager t)) ->
  dict_wf (buy_orders (order_manager t)) ->
  exists t' w' evs,
    check_and_replace_buy_orders config t w = Ok (tt, t', w', evs) /\
    (dict_wf (sell_orders (order_manager t')) /\
     dict_wf (buy_orders (order_manager t'))) /\
    forallb (fun ev => is_status ev || is_buy_create ev) evs = true /\
    (tracked_orders (order_manager t') <= tracked_orders (order_manager t))%nat /\
    (List.length (sell_orders (order_manager t'))
     <= List.length (sell_orders (order_manager t)))%nat /\
    incl (keys (sell_orders (order_manager t'))) (keys (sell_orders (order_manager t))) /\
    incl (keys (buy_orders (order_manager t))) (keys (buy_orders (order_manager t'))) /\
    (new_cycle_flag t = true -> new_cycle_flag t' = true) /\
    base_price t' = base_price t /\
    order_executed t' = order_executed t /\
    buy_order_filled (order_manager t') = buy_order_filled (order_manager t) /\
    sell_order_filled (order_manager t') = sell_order_filled (order_manager t) /\
    sell_order_executed (order_manager t') = sell_order_executed (order_manager t).
Proof.
  intros Hws Hwb.
  destruct (all_report_filled
              (fst (replies_from (keys (sell_orders (order_manager t))) w))
            && (0 <? List.length (sell_orders (order_manager t)))%nat) eqn:Hc.
  - apply andb_true_iff in Hc. destruct Hc as [Hall Hlen].
    assert (Hne : sell_orders (order_manager t) <> []).
    { intros Hnil. rewrite Hnil in Hlen. discriminate. }
    destruct (exists_last Hne) as (items & [oid o] & Hsells).
    rewrite (check_and_replace_complete t w items oid o Hsells Hall).
    eexists _, _, _. split; [reflexivity|].
    assert (Hin : In oid (keys (sell_orders (order_manager t)))).
    { rewrite Hsells. unfold keys. rewrite map_app. apply in_or_app. right. now left. }
    pose proof (length_dict_remove oid _ Hin) as Hrem.
    split; [split; [now apply dict_remove_wf | exact Hwb]|].
    split; [apply forallb_status_events; reflexivity|].
    unfold tracked_orders. simpl. repeat split; try lia; auto using incl_refl.
    intros k Hk. eapply keys_dict_remove_incl. exact Hk.
  - rewrite (check_and_replace_incomplete t w Hc).
    destruct (for_each_rule (replace_sell_order config)
                (fun rest s => replace_keeps t rest s /\ replenishment_frame t s)
                (fun ev => is_status ev || is_buy_create ev)
                (fun x rest s w0 HI =>
                   replace_sell_order_frame t t x rest s w0 (proj1 HI) (proj2 HI))
                (sell_orders (order_manager t)) t
                (snd (replies_from (keys (sell_orders (order_manager t))) w)))
      as (t' & w' & e & Hrun & [Hkeep Hframe] & Hev).
    + split; [repeat split; auto | apply replenishment_frame_refl].
    + rewrite Hrun. eexists _, _, _. split; [reflexivity|].
      split; [destruct Hkeep as (_ & _ & H1 & H2 & _); now split|].
      split.
      * rewrite forallb_app, Hev.
        rewrite forallb_status_events by reflexivity. reflexivity.
      * destruct Hframe as (A1 & A2 & A3 & A4 & A5 & A6 & A7 & A8 & A9 & A10).
        repeat split; try assumption. intros Hup. now rewrite A6.
Qed.

(** Over an exchange whose calls return. A replenishment pass returns; it
    only queries statuses and submits buys (it never submits a sell,
    cancels, or asks for the price); sells can only leave the table and buys
    only arrive; it never tracks more orders after than before; it never
    lowers [new_cycle_flag] and leaves the base price and every other flag
    as it found them. *)
Lemma replenishment_pass_frame_returning (t : GridTrader) (w : X) :
  dict_wf (sell_orders (order_manager t)) ->
  dict_wf (buy_orders (order_manager t)) ->
  exists t' w' evs,
    check_and_replace_buy_orders config t w = Ok (tt, t', w', evs) /\
    forallb (fun ev => is_status ev || is_buy_create ev) evs = true /\
    (tracked_orders (order_manager t') <= tracked_orders (order_manager t))%nat /\
    (List.length (sell_orders (order_manager t'))
     <= List.length (sell_orders (order_manager t)))%nat /\
    incl (keys (sell_orders (order_manager t'))) (keys (sell_orders (order_manager t))) /\
    incl (keys (buy_orders (order_manager t))) (keys (buy_orders (order_manager t'))) /\
    (new_cycle_flag t = true -> new_cycle_flag t' = true) /\
    base_price t' = base_price t /\
    order_executed t' = order_executed t /\
    buy_order_filled (order_manager t') = buy_order_filled (order_manager t) /\
    sell_order_filled (order_manager t') = sell_order_filled (order_manager t) /\
    sell_order_executed (order_manager t') = sell_order_executed (order_manager t).
Proof.
  intros Hws Hwb.
  destruct (check_and_replace_pass t w Hws Hwb)
    as (t' & w' & evs & Hrun & _ & Hrest).
  exists t', w', evs. split; [exact Hrun | exact Hrest].
Qed.

(** ** More on the cycle start *)

(** X4. [cancel_all_orders] issues one cancellation per tracked buy, in the
    order of the table, and ends with no buy tracked; the exchange's answer
    to a cancellation is never looked at, so the buy is forgotten whether or
    not it was cancelled.  Sells and flags are untouched. *)
Theorem cancel_all_orders_clears (m : OrderManager) (w : X) :
  dict_wf (buy_orders m) ->
  exists m',
    cancel_all_orders m w
    = Ok (tt, m', cancelled_from (keys (buy_orders m)) w,
          map EvCancel (keys (buy_orders m))) /\
    buy_orders m' = [] /\
    sell_orders m' = sell_orders m /\
    buy_order_filled m' = buy_order_filled m /\
    sell_order_filled m' = sell_order_filled m /\
    sell_order_executed m' = sell_order_executed m.
Proof.
  intros Hwf. exists (set_buy_orders [] m).
  rewrite cancel_all_orders_spec by exact Hwf. repeat split.
Qed.

Lemma place_buy_loop_tracks prices amount (m : OrderManager) (w : X) m' w' evs :
  place_buy_loop prices amount m w = Ok (tt, m', w', evs) ->
  incl (keys (buy_orders m)) (keys (buy_orders m')) /\
  (forall sd p a o,
     In (EvCreate sd p a (Some o)) evs -> In (id o) (keys (buy_orders m'))) /\
  (List.length (buy_orders m') <= List.length (buy_orders m) + List.length prices)%nat /\
  buy_order_filled m' = buy_order_filled m /\
  sell_order_filled m' = sell_order_filled m /\
  sell_order_executed m' = sell_order_executed m.
Proof.
  revert m w evs. induction prices as [|p rest IH]; intros m w evs Hrun.
  - simpl in Hrun. unfold ret in Hrun. inversion Hrun; subst.
    repeat split; auto using incl_refl; try (simpl; lia); intros sd p a o [].
  - simpl in Hrun. unfold bind at 1, create_order in Hrun. calls_return in Hrun.
    destruct (api_create_order Buy p amount w) as [[o|] w1].
    + unfold bind at 1, buy_orders_set, modify in Hrun.
      destruct (place_buy_loop rest amount _ w1) as [[[[[] m2] w2] e2]|] eqn:Hrest;
        [|discriminate].
      inversion Hrun; subst m' w' evs. clear Hrun.
      destruct (IH _ _ _ Hrest) as (Hincl & Htrack & Hlen & Hb & Hs & He).
      simpl in Hincl, Hlen, Hb, Hs, He.
      pose proof (length_dict_set (id o) o (buy_orders m)) as Hset.
      repeat split; try assumption; try (simpl; lia).
      * eapply incl_tran; [apply keys_dict_set_incl | exact Hincl].
      * intros sd q a o' [Heq | Hin].
        -- inversion Heq; subst. apply Hincl. rewrite keys_dict_set.
           destruct (dict_mem (id o') (buy_orders m)) eqn:E.
           ++ now apply dict_mem_In.
           ++ apply in_or_app. right. now left.
        -- eapply Htrack. exact Hin.
    + unfold ret in Hrun. inversion Hrun; subst m' w' evs.
      repeat split; auto using incl_refl; try (simpl; lia).
      intros sd q a o [Heq | []]. discriminate.
Qed.

Lemma nth_error_range1 n k i : nth_error (range1 n) k = Some i -> i = Z.of_nat k + 1.
Proof.
  unfold range1. intros H. rewrite nth_error_map in H.
  destruct (nth_error (seq 1 (Z.to_nat n)) k) as [j|] eqn:E; [|discriminate].
  simpl in H. inversion H; subst.
  assert (Hk : (k < List.length (seq 1 (Z.to_nat n)))%nat).
  { apply nth_error_Some. congruence. }
  rewrite length_seq in Hk.
  rewrite (nth_error_nth' _ 0%nat) in E by (rewrite length_seq; exact Hk).
  rewrite seq_nth in E by exact Hk. inversion E. lia.
Qed.

Lemma inject_Z_zero n : (inject_Z n == 0)%Q <-> n = 0.
Proof. unfold Qeq. simpl. lia. Qed.

Lemma length_buy_prices base :
  List.length (buy_prices config base) = Z.to_nat (max_buy_times config).
Proof. unfold buy_prices, range1. now rewrite !length_map, length_seq. Qed.

(** [place_buy_orders] either divides by zero before anything is sent, or is
    its loop over the ladder. *)
Lemma place_buy_orders_cases base (m : OrderManager) (w : X) :
  ((max_buy_times config = 0 \/ (base == 0)%Q) /\
   place_buy_orders config base m w = Raise ZeroDivisionError)
  \/ (max_buy_times config <> 0 /\ ~ (base == 0)%Q /\
      exists m' w' evs,
        place_buy_orders config base m w = Ok (tt, m', w', evs) /\
        place_buy_loop (buy_prices config base)
          (total_margin config / inject_Z (max_buy_times config)
           * leverage config / base)%Q m w = Ok (tt, m', w', evs)).
Proof.
  destruct (Z.eq_dec (max_buy_times config) 0) as [HN | HN].
  - left. split; [now left|]. unfold place_buy_orders, bind.
    rewrite py_div_zero; [reflexivity | now apply inject_Z_zero].
  - destruct (Qeq_dec base 0) as [HP | HP].
    + left. split; [now right|]. unfold place_buy_orders, bind.
      rewrite py_div_nonzero by (now rewrite inject_Z_zero).
      now rewrite py_div_zero.
    + right. split; [exact HN|]. split; [exact HP|].
      destruct (place_buy_loop_spec (buy_prices config base)
                  (total_margin config / inject_Z (max_buy_times config)
                   * leverage config / base)%Q m w)
        as (m' & w' & evs & Hrun & _).
      exists m', w', evs. split; [|exact Hrun].
      unfold place_buy_orders, bind.
      rewrite py_div_nonzero by (now rewrite inject_Z_zero).
      rewrite py_div_nonzero by exact HP. now rewrite Hrun.
Qed.

(** Over an exchange whose calls return. [place_buy_orders] raises
    [ZeroDivisionError] exactly when [max_buy_times] is zero or the base
    price is zero, and raises nothing else; in every other case, a negative
    [max_buy_times] included, it returns. *)
Lemma place_buy_orders_zero_division_returning base (m : OrderManager) (w : X) :
  (place_buy_orders config base m w = Raise ZeroDivisionError <->
   max_buy_times config = 0 \/ (base == 0)%Q) /\
  (forall e, place_buy_orders config base m w = Raise e -> e = ZeroDivisionError) /\
  (max_buy_times config < 0 -> ~ (base == 0)%Q ->
   place_buy_orders config base m w = Ok (tt, m, w, [])).
Proof.
  destruct (place_buy_orders_cases base m w)
    as [[Hzero Hrun] | (HN & HP & m' & w' & evs & Hrun & Hloop)].
  - rewrite Hrun. split; [tauto|]. split.
    + intros e He. now inversion He.
    + intros Hneg Hbase. exfalso. destruct Hzero as [H | H]; [lia | contradiction].
  - rewrite Hrun. split; [|split].
    + split; [discriminate | tauto].
    + discriminate.
    + intros Hneg _. unfold buy_prices, range1 in Hloop.
      replace (Z.to_nat (max_buy_times config)) with 0%nat in Hloop by lia.
      simpl in Hloop. unfold ret in Hloop. now inversion Hloop.
Qed.

Lemma accepted_not_refused {B} (f : B -> Q) amount evs (l : list B) sd p a :
  Forall2 (fun e i => exists o, e = EvCreate Buy (f i) amount (Some o)) evs l ->
  ~ In (EvCreate sd p a None) evs.
Proof.
  induction 1 as [|e i evs l (o & ->) _ IH]; simpl; [tauto|].
  intros [H | H]; [discriminate | now apply IH].
Qed.

(** Over an exchange whose calls return. With a positive [max_buy_times] and
    a non-zero base price, [place_buy_orders] returns after at most
    [max_buy_times] submissions. A refused submission is always the last
    call of the ladder: every rung before it was accepted and no later rung
    is submitted. Every order the exchange accepted is tracked afterwards,
    the buys tracked before still are, and the sells are untouched. *)
Lemma place_buy_orders_stops_at_refusal_returning base (m : OrderManager) (w : X) :
  0 < max_buy_times config ->
  ~ (base == 0)%Q ->
  exists m' w' evs,
    place_buy_orders config base m w = Ok (tt, m', w', evs) /\
    (List.length evs <= Z.to_nat (max_buy_times config))%nat /\
    (forall sd p a o,
       In (EvCreate sd p a (Some o)) evs -> In (id o) (keys (buy_orders m'))) /\
    incl (keys (buy_orders m)) (keys (buy_orders m')) /\
    sell_orders m' = sell_orders m /\
    (forall sd p a,
       In (EvCreate sd p a None) evs ->
       exists evs0,
         evs = evs0
               ++ [EvCreate Buy
                     (base * (1 - drop_to_buy config
                                  * inject_Z (Z.of_nat (List.length evs0) + 1)))%Q
                     (total_margin config / inject_Z (max_buy_times config)
                      * leverage config / base)%Q None] /\
         (List.length evs0 < Z.to_nat (max_buy_times config))%nat /\
         Forall2 (fun e i => exists o,
                    e = EvCreate Buy
                          (base * (1 - drop_to_buy config * inject_Z i))%Q
                          (total_margin config / inject_Z (max_buy_times config)
                           * leverage config / base)%Q (Some o))
                 evs0 (firstn (List.length evs0) (range1 (max_buy_times config)))).
Proof.
  intros HN HP.
  destruct (place_buy_orders_cases base m w)
    as [[[Hzero | Hzero] _] | (_ & _ & m' & w' & evs & Hrun & Hloop)];
    [lia | contradiction |].
  exists m', w', evs. split; [exact Hrun|].
  destruct (place_buy_loop_tracks _ _ _ _ _ _ _ Hloop)
    as (Hincl & Htrack & _ & _ & _ & _).
  destruct (place_buy_loop_spec (buy_prices config base)
              (total_margin config / inject_Z (max_buy_times config)
               * leverage config / base)%Q m w)
    as (m2 & w2 & evs2 & Hrun2 & Hsell & _ & Hcase).
  rewrite Hloop in Hrun2. inversion Hrun2; subst m2 w2 evs2. clear Hrun2.
  assert (Hlen : (List.length evs <= Z.to_nat (max_buy_times config))%nat).
  { rewrite <- (length_buy_prices base).
    destruct Hcase as [Hall | (evs0 & p & -> & Hlt & _)].
    - apply Forall2_length in Hall. lia.
    - rewrite length_app. simpl. lia. }
  repeat split; try assumption.
  intros sd p a Hin.
  destruct Hcase as [Hall | (evs0 & q & -> & Hlt & Hnth & Hpre)].
  - exfalso. unfold buy_prices in Hall. apply Forall2_map_right in Hall.
    eapply accepted_not_refused in Hall. apply Hall. exact Hin.
  - exists evs0. rewrite length_buy_prices in Hlt. unfold buy_prices in Hnth, Hpre.
    rewrite nth_error_map in Hnth.
    destruct (nth_error (range1 (max_buy_times config)) (List.length evs0))
      as [i|] eqn:Hi; [|discriminate].
    simpl in Hnth. inversion Hnth; subst q.
    apply nth_error_range1 in Hi. subst i.
    rewrite firstn_map in Hpre. apply Forall2_map_right in Hpre.
    repeat split; assumption.
Qed.

(** Over an exchange whose calls return. A cycle start that returns leaves
    at most [max_buy_times] buys tracked, whatever was tracked before and
    whatever the exchange answered; it leaves the sells and [new_cycle_flag]
    alone, clears [buy_order_filled] and stores the reply of the price query
    as the base price. It can only fail on a division by zero, and then
    [max_buy_times] is zero or the price read is zero. *)
Lemma cycle_start_bounds_buys_returning (t : GridTrader) (w : X) :
  dict_wf (buy_orders (order_manager t)) ->
  match start_trade_cycle config t w with
  | Ok (_, t', _, _) =>
      (List.length (buy_orders (order_manager t'))
       <= Z.to_nat (max_buy_times config))%nat /\
      sell_orders (order_manager t') = sell_orders (order_manager t) /\
      buy_order_filled (order_manager t') = false /\
      base_price t'
      = fst (api_get_market_price
               (cancelled_from (keys (buy_orders (order_manager t))) w)) /\
      new_cycle_flag t' = new_cycle_flag t
  | Raise e =>
      e = ZeroDivisionError /\
      (max_buy_times config = 0 \/
       exists p,
         fst (api_get_market_price
                (cancelled_from (keys (buy_orders (order_manager t))) w)) = Some p /\
         (p == 0)%Q)
  end.
Proof.
  intros Hwb. rewrite start_trade_cycle_spec by exact Hwb.
  destruct (api_get_market_price _) as [[base|] w1]; simpl fst.
  - destruct (place_buy_orders_cases base
                (order_manager (cycle_reset (Some base) t)) w1)
      as [[Hzero Hrun] | (_ & _ & m' & w' & evs & Hrun & Hloop)]; rewrite Hrun.
    + split; [reflexivity|]. destruct Hzero as [H | H]; [now left|].
      right. exists base. now split.
    + destruct (place_buy_loop_tracks _ _ _ _ _ _ _ Hloop)
        as (_ & _ & Hlen & Hbof & _ & _).
      destruct (place_buy_loop_spec (buy_prices config base)
                  (total_margin config / inject_Z (max_buy_times config)
                   * leverage config / base)%Q
                  (order_manager (cycle_reset (Some base) t)) w1)
        as (m2 & w2 & evs2 & Hrun2 & Hsell & _).
      rewrite Hloop in Hrun2. inversion Hrun2; subst m2 w2 evs2.
      rewrite length_buy_prices in Hlen. simpl in *.
      repeat split; try assumption. 
  - simpl. repeat split. lia.
Qed.

(** ** Whole ticks *)

Lemma filter_none (P Q : event -> bool) evs :
  forallb P evs = true ->
  (forall e, P e = true -> Q e = false) ->
  filter Q evs = [].
Proof.
  intros Hall Hpq. induction evs as [|e evs IH]; [reflexivity|].
  simpl in *. apply andb_true_iff in Hall. destruct Hall as [He Hall].
  rewrite (Hpq e He). now apply IH.
Qed.

Lemma place_buy_loop_events prices amount (m : OrderManager) (w : X) m' w' evs :
  place_buy_loop prices amount m w = Ok (tt, m', w', evs) ->
  forallb is_buy_create evs = true.
Proof.
  revert m w evs. induction prices as [|p rest IH]; intros m w evs Hrun.
  - simpl in Hrun. unfold ret in Hrun. now inversion Hrun.
  - simpl in Hrun. unfold bind at 1, create_order in Hrun. calls_return in Hrun.
    destruct (api_create_order Buy p amount w) as [[o|] w1].
    + unfold bind at 1, buy_orders_set, modify in Hrun.
      destruct (place_buy_loop rest amount _ w1) as [[[[[] m2] w2] e2]|] eqn:Hrest;
        [|discriminate].
      inversion Hrun; subst. simpl. eapply IH. exact Hrest.
    + unfold ret in Hrun. now inversion Hrun.
Qed.

Lemma check_price_rise_pass (t : GridTrader) (w : X) :
  exists t' w' evs,
    check_price_rise config t w = Ok (tt, t', w', evs) /\
    order_manager t' = order_manager t /\
    base_price t' = base_price t /\
    order_executed t' = order_executed t /\
    filter is_cancel evs = [] /\
    (List.length (filter is_price evs) <= 1)%nat.
Proof.
  rewrite check_price_rise_spec. cbv zeta.
  assert (Hst : forall ids rs, filter is_cancel (status_events ids rs) = []
                               /\ filter is_price (status_events ids rs) = []).
  { intros ids rs. split;
      (eapply filter_none; [apply (forallb_status_events is_status); reflexivity|]);
      intros [] H; (reflexivity || discriminate). }
  destruct (negb _ && negb _).
  - destruct (api_get_market_price _) as [cur w2].
    eexists _, _, _. split; [reflexivity|].
    assert (Hstate : forall t1, (t1 = t \/ t1 = set_new_cycle_flag true t) ->
              order_manager t1 = order_manager t /\ base_price t1 = base_price t /\
              order_executed t1 = order_executed t).
    { intros t1 [-> | ->]; repeat split. }
    rewrite !filter_app. destruct (Hst (keys (buy_orders (order_manager t)))
      (fst (replies_from (keys (buy_orders (order_manager t))) w))) as [-> ->].
    assert (Hev : forall A B : Prop, A -> B -> A /\ B) by tauto.
    match goal with |- order_manager ?t1 = _ /\ _ =>
      destruct (Hstate t1) as (H1 & H2 & H3)
    end.
    { destruct cur as [c|]; [|now left].
      destruct (base_price t) as [b|]; [|now left].
      destruct (negb _); [now right | now left]. }
    repeat split; try assumption. simpl. lia.
  - eexists _, _, _. split; [reflexivity|].
    destruct (Hst (keys (buy_orders (order_manager t)))
      (fst (replies_from (keys (buy_orders (order_manager t))) w))) as [-> ->].
    repeat split. simpl. lia.
Qed.

(** The three passes that follow the cycle-start test of a tick. *)
Lemma three_passes (t : GridTrader) (w : X) :
  trader_wf t ->
  exists t' w' evs,
    (on_order_manager (check_and_place_sell_orders config) ;;
     check_and_replace_buy_orders config ;;
     check_price_rise config) t w = Ok (tt, t', w', evs) /\
    trader_wf t' /\
    filter is_cancel evs = [] /\
    (List.length (filter is_price evs) <= 1)%nat /\
    (tracked_orders (order_manager t') <= tracked_orders (order_manager t))%nat /\
    base_price t' = base_price t /\
    order_executed t' = order_executed t /\
    sell_order_filled (order_manager t') = sell_order_filled (order_manager t).
Proof.
  intros [Hwb Hws]. unfold bind at 1, on_order_manager.
  destruct (check_and_place_sell_orders_pass (order_manager t) w Hwb Hws)
    as (m2 & w2 & e2 & Hrun2 & Hwb2 & Hws2 & Hframe2 & Hev2).
  rewrite Hrun2. unfold bind at 1.
  destruct (check_and_replace_pass (set_order_manager m2 t) w2 Hws2 Hwb2)
    as (t3 & w3 & e3 & Hrun3 & [Hws3 Hwb3] & Hev3 & Htr3 & _ & _ & _ & _
        & Hbase3 & Hox3 & _ & Hsf3 & _).
  rewrite Hrun3.
  destruct (check_price_rise_pass t3 w3)
    as (t4 & w4 & e4 & Hrun4 & Hom4 & Hbase4 & Hox4 & Hc4 & Hp4).
  rewrite Hrun4. eexists _, _, _. split; [reflexivity|].
  destruct Hframe2 as (Htr2 & _ & _ & _ & Hsf2 & _).
  simpl in Htr3, Hbase3, Hox3, Hsf3.
  assert (Hc2 : filter is_cancel e2 = [] /\ filter is_price e2 = []).
  { split; (eapply filter_none; [exact Hev2|]); intros [[]| | |] H;
      (reflexivity || discriminate). }
  assert (Hc3 : filter is_cancel e3 = [] /\ filter is_price e3 = []).
  { split; (eapply filter_none; [exact Hev3|]); intros [[]| | |] H;
      (reflexivity || discriminate). }
  destruct Hc2 as [Hc2 Hp2]. destruct Hc3 as [Hc3 Hp3].
  rewrite !filter_app, Hc2, Hc3, Hc4, Hp2, Hp3. simpl.
  unfold trader_wf. rewrite Hom4.
  repeat split; try assumption; try congruence; try lia.
Qed.

(** Over an exchange whose calls return. A tick in which no cycle start is
    due always returns (nothing in it can raise); it cancels nothing, asks
    for the price at most once, never tracks more orders at its end than at
    its start, and leaves the base price, [order_executed] and
    [sell_order_filled] as they were. *)
Lemma steady_tick_returning (t : GridTrader) (w : X) :
  trader_wf t ->
  needs_cycle_start t = false ->
  exists t' w' evs,
    trade_tick config t w = Ok (tt, t', w', evs) /\
    trader_wf t' /\
    filter is_cancel evs = [] /\
    (List.length (filter is_price evs) <= 1)%nat /\
    (tracked_orders (order_manager t') <= tracked_orders (order_manager t))%nat /\
    base_price t' = base_price t /\
    order_executed t' = order_executed t /\
    sell_order_filled (order_manager t') = sell_order_filled (order_manager t).
Proof.
  intros Hwf Hstart. unfold trade_tick. unfold bind at 1, gets. cbv beta iota.
  rewrite Hstart. unfold bind at 1, ret.
  destruct (three_passes t w Hwf) as (t' & w' & evs & Hrun & Hrest).
  rewrite Hrun. exists t', w', evs. split; [reflexivity | exact Hrest].
Qed.

(** Over an exchange whose calls return. The cancellations of a tick are
    exactly one per buy tracked at its start, in table order, when a cycle
    start is due, and none otherwise: a sell is never cancelled, and a buy
    only at a cycle start. A tick can only fail on a division by zero, and
    only when a cycle start is due. *)
Lemma tick_cancels_tracked_buys_returning (t : GridTrader) (w : X) :
  trader_wf t ->
  match trade_tick config t w with
  | Ok (_, _, _, evs) =>
      filter is_cancel evs
      = if needs_cycle_start t
        then map EvCancel (keys (buy_orders (order_manager t)))
        else []
  | Raise e => e = ZeroDivisionError /\ needs_cycle_start t = true
  end.
Proof.
  intros Hwf. unfold trade_tick. unfold bind at 1, gets. cbv beta iota.
  destruct (needs_cycle_start t) eqn:Hstart.
  - unfold bind at 1. unfold bind at 1.
    pose proof (start_trade_cycle_outcome t w Hwf) as Hout.
    destruct Hwf as [Hwb Hws].
    rewrite start_trade_cycle_spec in * by exact Hwb.
    assert (Hcancels : forall ids, filter is_cancel (map EvCancel ids) = map EvCancel ids).
    { induction ids as [|i ids IH]; simpl; [reflexivity | now rewrite IH]. }
    destruct (api_get_market_price _) as [[base|] w1].
    + destruct (place_buy_orders_cases base
                  (order_manager (cycle_reset (Some base) t)) w1)
        as [[_ Hrun] | (_ & _ & m' & w' & evs & Hrun & Hloop)];
        rewrite Hrun in *; [now split|].
      unfold modify. cbv beta iota.
      destruct (three_passes
                  (set_new_cycle_flag false
                     (set_order_manager m' (cycle_reset (Some base) t))) w' Hout)
        as (t4 & w4 & e4 & Hrun4 & _ & Hc4 & _).
      rewrite Hrun4. rewrite !filter_app, Hcancels, Hc4. simpl.
      rewrite (filter_none is_buy_create is_cancel evs
                 (place_buy_loop_events _ _ _ _ _ _ _ Hloop)).
      * now rewrite !app_nil_r.
      * intros [[]| | |] H; (reflexivity || discriminate).
    + unfold modify. cbv beta iota.
      destruct (three_passes (set_new_cycle_flag false (cycle_reset None t)) w1 Hout)
        as (t4 & w4 & e4 & Hrun4 & _ & Hc4 & _).
      rewrite Hrun4. rewrite !filter_app, Hcancels, Hc4. simpl.
      now rewrite !app_nil_r.
  - unfold bind at 1, ret.
    destruct (three_passes t w Hwf) as (t' & w' & evs & Hrun & _ & Hc & _).
    rewrite Hrun. exact Hc.
Qed.

(** ** Passes in which nothing is due *)

Lemma check_buy_order_quiet oid order (m : OrderManager) (w : X) :
  convertible order (fst (api_check_order_status oid w)) = false ->
  check_buy_order config (oid, order) m w
  = Ok (tt,
        (if reports_fill (fst (api_check_order_status oid w))
         then set_buy_order_filled true m else m),
        snd (api_check_order_status oid w),
        [EvStatus oid (fst (api_check_order_status oid w))]).
Proof.
  unfold check_buy_order, convertible, reports_fill.
  unfold bind at 1, check_order_status. calls_return.
  destruct (api_check_order_status oid w) as [r w1]. simpl fst. simpl snd.
  destruct (status_is (status_of r) "FILLED" || status_is (status_of r) "PARTIALLY_FILLED").
  - simpl. intros ->. reflexivity.
  - reflexivity.
Qed.

Lemma quiet_conversion_loop items (m : OrderManager) (w : X) :
  Forall2 (fun item r => convertible (snd item) r = false)
          items (fst (replies_from (keys items) w)) ->
  for_each items (check_buy_order config) m w
  = Ok (tt,
        (if existsb reports_fill (fst (replies_from (keys items) w))
         then set_buy_order_filled true m else m),
        snd (replies_from (keys items) w),
        status_events (keys items) (fst (replies_from (keys items) w))).
Proof.
  revert m w. induction items as [|[oid order] rest IH]; intros m w Hq.
  - reflexivity.
  - rewrite for_each_cons. unfold bind.
    assert (Hsplit : convertible order (fst (api_check_order_status oid w)) = false /\
              Forall2 (fun item r0 => convertible (snd item) r0 = false) rest
                (fst (replies_from (keys rest) (snd (api_check_order_status oid w))))).
    { simpl in Hq. destruct (api_check_order_status oid w) as [r w1].
      simpl fst. simpl snd.
      destruct (replies_from (keys rest) w1) as [rs w2].
      simpl in Hq |- *. inversion Hq; subst. now split. }
    destruct Hsplit as [Hhead Htail].
    rewrite (check_buy_order_quiet oid order m w Hhead).
    rewrite (IH _ _ Htail). simpl.
    destruct (api_check_order_status oid w) as [r w1]. simpl.
    destruct (replies_from (keys rest) w1) as [rs w2]. simpl.
    destruct (reports_fill r); [|reflexivity].
    now destruct (existsb reports_fill rs).
Qed.

(** X10. A conversion pass in which no tracked buy is convertible (each
    reply is either not FILLED or PARTIALLY_FILLED, or reports an executed
    quantity different from the requested one) makes one status query per
    tracked buy and nothing else.  It leaves both tables as they were; the
    only thing it may change is [buy_order_filled], raised when some reply is
    FILLED or PARTIALLY_FILLED: a partial fill is recorded but not converted. *)
Theorem quiet_conversion_pass (m : OrderManager) (w : X) :
  Forall2 (fun item r => convertible (snd item) r = false)
          (buy_orders m) (fst (replies_from (keys (buy_orders m)) w)) ->
  check_and_place_sell_orders config m w
  = Ok (tt,
        (if existsb reports_fill (fst (replies_from (keys (buy_orders m)) w))
         then set_buy_order_filled true m else m),
        snd (replies_from (keys (buy_orders m)) w),
        status_events (keys (buy_orders m))
          (fst (replies_from (keys (buy_orders m)) w))).
Proof.
  intros Hq. unfold check_and_place_sell_orders. unfold bind at 1, gets.
  cbv beta iota. now rewrite (quiet_conversion_loop (buy_orders m) m w Hq).
Qed.

Lemma quiet_replace_loop items (t : GridTrader) (w : X) :
  (forall r, In r (fst (replies_from (keys items) w)) -> ~ reports_filled r) ->
  for_each items (replace_sell_order config) t w
  = Ok (tt, t, snd (replies_from (keys items) w),
        status_events (keys items) (fst (replies_from (keys items) w))).
Proof.
  revert w. induction items as [|[oid order] rest IH]; intros w Hq.
  - reflexivity.
  - rewrite for_each_cons. unfold bind.
    assert (Hbody : replace_sell_order config (oid, order) t w
                    = Ok (tt, t, snd (api_check_order_status oid w),
                          [EvStatus oid (fst (api_check_order_status oid w))])).
    { unfold replace_sell_order. unfold bind at 1, check_order_status. calls_return.
      simpl in Hq. destruct (api_check_order_status oid w) as [r w1].
      destruct (replies_from (keys rest) w1) as [rs w2].
      destruct (status_is (status_of r) "FILLED") eqn:E; [|reflexivity].
      exfalso. apply (Hq r); [now left | now apply status_is_spec]. }
    rewrite Hbody. rewrite IH.
    + simpl. destruct (api_check_order_status oid w) as [r w1]. simpl.
      now destruct (replies_from (keys rest) w1) as [rs w2].
    + intros r' Hin. apply Hq. simpl.
      destruct (api_check_order_status oid w) as [r w1]. simpl in Hin |- *.
      destruct (replies_from (keys rest) w1) as [rs w2]. now right.
Qed.

(** X11. A replenishment pass in which no tracked sell reports FILLED, in
    the first loop or in the second, leaves the trader exactly as it was and
    submits nothing; it queries the status of every tracked sell twice, once
    per loop. *)
Theorem quiet_replenishment_pass (t : GridTrader) (w : X) :
  (forall r,
     In r (fst (replies_from (keys (sell_orders (order_manager t))) w)) ->
     ~ reports_filled r) ->
  (forall r,
     In r (fst (replies_from (keys (sell_orders (order_manager t)))
                  (snd (replies_from (keys (sell_orders (order_manager t))) w)))) ->
     ~ reports_filled r) ->
  check_and_replace_buy_orders config t w
  = Ok (tt, t,
        snd (replies_from (keys (sell_orders (order_manager t)))
               (snd (replies_from (keys (sell_orders (order_manager t))) w))),
        status_events (keys (sell_orders (order_manager t)))
          (fst (replies_from (keys (sell_orders (order_manager t))) w))
        ++ status_events (keys (sell_orders (order_manager t)))
             (fst (replies_from (keys (sell_orders (order_manager t)))
                     (snd (replies_from (keys (sell_orders (order_manager t))) w))))).
Proof.
  intros H1 H2.
  assert (Hc : all_report_filled
                 (fst (replies_from (keys (sell_orders (order_manager t))) w))
               && (0 <? List.length (sell_orders (order_manager t)))%nat = false).
  { apply incomplete_iff. intros [Hne Hall].
    destruct (sell_orders (order_manager t)) as [|[oid o] rest] eqn:Hs;
      [now apply Hne|].
    simpl in Hall, H1. destruct (api_check_order_status oid w) as [r w1].
    destruct (replies_from (keys rest) w1) as [rs w2].
    simpl in Hall, H1. inversion Hall; subst. apply (H1 r); [now left | assumption]. }
  rewrite (check_and_replace_incomplete t w Hc).
  now rewrite (quiet_replace_loop _ t _ H2).
Qed.

(** ** While the price cannot be read *)

Lemma outage_tick (down : X -> Prop) (t : GridTrader) (w : X) :
  (forall w0, down w0 ->
     fst (api_get_market_price w0) = None /\ down (snd (api_get_market_price w0))) ->
  down w ->
  order_manager t = OrderManager_init ->
  base_price t = None ->
  exists t' w',
    trade_tick config t w = Ok (tt, t', w', [EvPrice None; EvPrice None]) /\
    down w' /\
    order_manager t' = OrderManager_init /\
    base_price t' = None /\
    new_cycle_flag t' = false.
Proof.
  intros Hdown Hw Hom Hbase.
  destruct t as [om bp flag oe]. simpl in Hom, Hbase. subst om bp.
  destruct (Hdown w Hw) as [Hp1 Hw1].
  destruct (api_get_market_price w) as [p1 w1] eqn:E1. simpl in Hp1, Hw1. subst p1.
  destruct (Hdown w1 Hw1) as [Hp2 Hw2].
  destruct (api_get_market_price w1) as [p2 w2] eqn:E2. simpl in Hp2, Hw2. subst p2.
  eexists _, w2. split.
  - unfold trade_tick, needs_cycle_start. unfold bind at 1, gets. simpl base_price.
    rewrite orb_true_r. unfold bind at 1. unfold bind at 1.
    rewrite start_trade_cycle_spec by constructor.
    simpl. rewrite E1. unfold modify. cbv beta iota.
    unfold bind at 1, on_order_manager. simpl.
    unfold bind at 1. rewrite check_and_replace_incomplete by reflexivity.
    simpl. rewrite check_price_rise_spec. simpl. rewrite E2. reflexivity.
  - repeat split. exact Hw2.
Qed.

(** X12. As long as the price query fails, a fresh trader tracks and submits
    nothing: every tick is a cycle start that stops at the price query,
    followed by the price-rise check's own query, so [n] ticks make exactly
    [2 * n] price queries and no other call, never raise, and leave a cycle
    start due. *)
Theorem price_outage (down : X -> Prop) (n : nat) (w : X) :
  (forall w0, down w0 ->
     fst (api_get_market_price w0) = None /\ down (snd (api_get_market_price w0))) ->
  down w ->
  exists t' w',
    trade config n GridTrader_init w
    = Ok (tt, t', w', repeat (EvPrice None) (2 * n)) /\
    down w' /\
    order_manager t' = OrderManager_init /\
    base_price t' = None /\
    needs_cycle_start t' = true.
Proof.
  intros Hdown Hw.
  assert (H : forall t w0, down w0 -> order_manager t = OrderManager_init ->
            base_price t = None ->
            exists t' w',
              trade config n t w0 = Ok (tt, t', w', repeat (EvPrice None) (2 * n)) /\
              down w' /\ order_manager t' = OrderManager_init /\ base_price t' = None).
  { induction n as [|k IH]; intros t w0 Hw0 Hom Hbase.
    - exists t, w0. repeat split; assumption.
    - destruct (outage_tick down t w0 Hdown Hw0 Hom Hbase)
        as (t1 & w1 & Hrun1 & Hw1 & Hom1 & Hbase1 & _).
      destruct (IH t1 w1 Hw1 Hom1 Hbase1) as (t2 & w2 & Hrun2 & Hrest).
      exists t2, w2. split; [|exact Hrest].
      simpl trade. unfold bind. rewrite Hrun1, Hrun2.
      replace (2 * S k)%nat with (S (S (2 * k)))%nat by lia. reflexivity. }
  destruct (H GridTrader_init w Hw eq_refl eq_refl)
    as (t' & w' & Hrun & Hw' & Hom & Hbase).
  exists t', w'. repeat split; try assumption.
  unfold needs_cycle_start. rewrite Hbase. apply orb_true_r.
Qed.

(** ** Where the calls of a pass come from *)

Lemma check_buy_order_calls items0 item rest (m : OrderManager) (w : X) :
  convert_keeps (item :: rest) m ->
  incl (item :: rest) items0 ->
  exists m' w' e,
    check_buy_order config item m w = Ok (tt, m', w', e) /\
    (convert_keeps rest m' /\ incl rest items0) /\
    Forall (conversion_call config items0) e.
Proof.
  intros Hkeep Hincl.
  destruct (check_buy_order_keeps item rest m w Hkeep) as (m' & w' & e & Hrun & Hkeep').
  exists m', w', e. split; [exact Hrun|].
  split; [split; [exact Hkeep' | intros x Hx; apply Hincl; now right]|].
  destruct item as [oid order]. destruct Hkeep as (Htracked & _).
  assert (Hin : In oid (keys (buy_orders m))) by (apply Htracked; now left).
  assert (Hitem : In (oid, order) items0) by (apply Hincl; now left).
  assert (Hkey : In oid (keys items0)).
  { unfold keys. change oid with (fst (oid, order)). now apply in_map. }
  unfold check_buy_order in Hrun. unfold bind at 1, check_order_status in Hrun. calls_return in Hrun.
  destruct (api_check_order_status oid w) as [r w1].
  destruct (status_is (status_of r) "FILLED" || status_is (status_of r) "PARTIALLY_FILLED").
  - unfold bind at 1, modify in Hrun.
    destruct (Qeq_bool (origQty (info order)) (filled_of r)) eqn:Hq.
    + apply Qeq_bool_iff in Hq.
      destruct (convert_filled_buy_spec (set_buy_order_filled true m) w1 oid order
                  (filled_of r) Hin) as (m2 & w2 & evs & Hrun2 & Hcase).
      rewrite Hrun2 in Hrun. inversion Hrun; subst m' w' e. clear Hrun.
      assert (Hsell : forall reply,
                conversion_call config items0
                  (EvCreate Sell (price (info order) * (1 + rise_to_sell config))
                     (filled_of r) reply)).
      { intros reply. exists oid, order. repeat split; [assumption|].
        symmetry. exact Hq. }
      constructor; [exact Hkey|].
      destruct Hcase as [(k & so & _ & -> & _) | (-> & _)].
      * apply Forall_app. split.
        -- apply Forall_forall. intros x Hx. apply repeat_spec in Hx. subst x.
           apply Hsell.
        -- constructor; [apply Hsell | constructor].
      * apply Forall_forall. intros x Hx. apply repeat_spec in Hx. subst x.
        apply Hsell.
    + inversion Hrun; subst. constructor; [exact Hkey | constructor].
  - inversion Hrun; subst. constructor; [exact Hkey | constructor].
Qed.

(** Over an exchange whose calls return. Every call of a conversion pass
    concerns a buy that was tracked when the pass began: a status query
    carries the id of such a buy, and a sell submission is priced at such a
    buy's recorded price times [1 + rise_to_sell], for that buy's requested
    quantity. A buy that is no longer tracked is therefore never queried or
    sold again, and nothing is ever sold below the markup. *)
Lemma conversion_pass_calls_returning (m : OrderManager) (w : X) :
  dict_wf (buy_orders m) ->
  dict_wf (sell_orders m) ->
  exists m' w' evs,
    check_and_place_sell_orders config m w = Ok (tt, m', w', evs) /\
    Forall (conversion_call config (buy_orders m)) evs.
Proof.
  intros Hwb Hws. unfold check_and_place_sell_orders. unfold bind at 1, gets.
  cbv beta iota.
  destruct (for_each_rule_prop (check_buy_order config)
              (fun rest s => convert_keeps rest s /\ incl rest (buy_orders m))
              (conversion_call config (buy_orders m))
              (fun x rest s w0 HI =>
                 check_buy_order_calls (buy_orders m) x rest s w0 (proj1 HI) (proj2 HI))
              (buy_orders m) m w) as (m' & w' & e & Hrun & _ & Hev).
  - split; [repeat split; auto | apply incl_refl].
  - rewrite Hrun. exists m', w', e. split; [reflexivity | exact Hev].
Qed.

Lemma replace_sell_order_calls t0 items0 item rest (t : GridTrader) (w : X) :
  replace_keeps t0 (item :: rest) t ->
  incl (item :: rest) items0 ->
  exists t' w' e,
    replace_sell_order config item t w = Ok (tt, t', w', e) /\
    (replace_keeps t0 rest t' /\ incl rest items0) /\
    Forall (replenishment_call config items0) e.
Proof.
  intros Hkeep Hincl.
  destruct (replace_sell_order_keeps t0 item rest t w Hkeep)
    as (t' & w' & e & Hrun & Hkeep').
  exists t', w', e. split; [exact Hrun|].
  split; [split; [exact Hkeep' | intros x Hx; apply Hincl; now right]|].
  destruct item as [oid order]. destruct Hkeep as (Htracked & _).
  assert (Hin : In oid (keys (sell_orders (order_manager t))))
    by (apply Htracked; now left).
  assert (Hitem : In (oid, order) items0) by (apply Hincl; now left).
  assert (Hkey : In oid (keys items0)).
  { unfold keys. change oid with (fst (oid, order)). now apply in_map. }
  rewrite (replace_sell_order_spec t w oid order Hin) in Hrun.
  destruct (api_check_order_status oid w) as [r w1].
  destruct (status_is (status_of r) "FILLED").
  - destruct (api_create_order Buy _ _ w1) as [reply w2].
    inversion Hrun; subst. constructor; [exact Hkey|].
    constructor; [|constructor]. exists oid, order. now repeat split.
  - inversion Hrun; subst. constructor; [exact Hkey | constructor].
Qed.

Lemma status_events_calls (P : event -> Prop) ids rs :
  (forall oid r, In oid ids -> P (EvStatus oid r)) ->
  Forall P (status_events ids rs).
Proof.
  intros HP. unfold status_events. apply Forall_forall. intros e He.
  apply in_map_iff in He. destruct He as ([oid r] & <- & Hin).
  apply in_combine_l in Hin. now apply HP.
Qed.

(** Over an exchange whose calls return. Every call of a replenishment pass
    concerns a sell that was tracked when the pass began: a status query
    carries the id of such a sell, and a buy submission is priced at such a
    sell's recorded price times [1 - drop_to_buy], for exactly that sell's
    requested quantity. *)
Lemma replenishment_pass_calls_returning (t : GridTrader) (w : X) :
  dict_wf (sell_orders (order_manager t)) ->
  dict_wf (buy_orders (order_manager t)) ->
  exists t' w' evs,
    check_and_replace_buy_orders config t w = Ok (tt, t', w', evs) /\
    Forall (replenishment_call config (sell_orders (order_manager t))) evs.
Proof.
  intros Hws Hwb.
  assert (Hpoll : forall rs,
            Forall (replenishment_call config (sell_orders (order_manager t)))
              (status_events (keys (sell_orders (order_manager t))) rs)).
  { intros rs. apply status_events_calls. intros oid r Hin. exact Hin. }
  destruct (all_report_filled
              (fst (replies_from (keys (sell_orders (order_manager t))) w))
            && (0 <? List.length (sell_orders (order_manager t)))%nat) eqn:Hc.
  - apply andb_true_iff in Hc. destruct Hc as [Hall Hlen].
    assert (Hne : sell_orders (order_manager t) <> []).
    { intros Hnil. rewrite Hnil in Hlen. discriminate. }
    destruct (exists_last Hne) as (items & [oid o] & Hsells).
    rewrite (check_and_replace_complete t w items oid o Hsells Hall).
    eexists _, _, _. split; [reflexivity | apply Hpoll].
  - rewrite (check_and_replace_incomplete t w Hc).
    destruct (for_each_rule_prop (replace_sell_order config)
                (fun rest s => replace_keeps t rest s
                               /\ incl rest (sell_orders (order_manager t)))
                (replenishment_call config (sell_orders (order_manager t)))
                (fun x rest s w0 HI =>
                   replace_sell_order_calls t _ x rest s w0 (proj1 HI) (proj2 HI))
                (sell_orders (order_manager t)) t
                (snd (replies_from (keys (sell_orders (order_manager t))) w)))
      as (t' & w' & e & Hrun & _ & Hev).
    + split; [repeat split; auto | apply incl_refl].
    + rewrite Hrun. eexists _, _, _. split; [reflexivity|].
      apply Forall_app. split; [apply Hpoll | exact Hev].
Qed.

(** ** Why the loop can die *)

Lemma trade_tick_cause (t : GridTrader) (w : X) e :
  trader_wf t ->
  trade_tick config t w = Raise e ->
  e = ZeroDivisionError /\ zero_division_cause config.
Proof.
  intros Hwf. unfold trade_tick. unfold bind at 1, gets. cbv beta iota.
  destruct (needs_cycle_start t).
  - unfold bind at 1. unfold bind at 1.
    pose proof (start_trade_cycle_outcome t w Hwf) as Hstart.
    pose proof (cycle_start_bounds_buys_returning t w (proj1 Hwf)) as Hcause.
    destruct (start_trade_cycle config t w) as [[[[u t1] w1] e1]|e0].
    + unfold modify. cbv beta iota.
      destruct (after_cycle_start (set_new_cycle_flag false t1) w1 Hstart)
        as (t' & w' & ev & Hrun & _).
      rewrite Hrun. discriminate.
    + intros Hraise. destruct Hcause as [He Hcause].
      split; [congruence|].
      destruct Hcause as [HN | (p & Hp & Hzero)]; [now left|].
      right. eexists _, p. split; [exact Hp | exact Hzero].
  - unfold bind at 1, ret.
    destruct (after_cycle_start t w Hwf) as (t' & w' & ev & Hrun & _).
    rewrite Hrun. discriminate.
Qed.

Lemma trade_cause (n : nat) (t : GridTrader) (w : X) :
  trader_wf t ->
  match trade config n t w with
  | Ok (_, t', _, _) => trader_wf t'
  | Raise e => e = ZeroDivisionError /\ zero_division_cause config
  end.
Proof.
  revert t w. induction n as [|n IH]; intros t w Hwf.
  - exact Hwf.
  - simpl. unfold bind.
    pose proof (trade_tick_outcome t w Hwf) as Htick.
    pose proof (trade_tick_cause t w) as Hcause.
    destruct (trade_tick config t w) as [[[[u t1] w1] e1]|e0].
    + specialize (IH t1 w1 Htick).
      destruct (trade config n t1 w1) as [[[[u2 t2] w2] e2]|e2]; exact IH.
    + now apply Hcause.
Qed.

End Properties.

(** ** The gateway (lines 51-132) *)

(** * Calls that raise

    Over an [Api] whose calls may raise, a run of the controller goes as the
    run over the exchange [answers A] does, up to the first call that
    raises. *)

Section Raising.

Context {X : Type} {A : Api X}.
Variable config : TraderConfig.

Lemma alike_refl {S B} (m : M X S B) : alike (raised_by_api A) m m.
Proof. intros s w. destruct (m s w); [reflexivity | now left]. Qed.

Lemma alike_bind {S B C} (m m' : M X S B) (f f' : B -> M X S C) :
  alike (raised_by_api A) m m' ->
  (forall b, alike (raised_by_api A) (f b) (f' b)) ->
  alike (raised_by_api A) (bind m f) (bind m' f').
Proof.
  intros Hm Hf s w. unfold bind. specialize (Hm s w).
  destruct (m s w) as [[[[b s1] w1] e1]|e].
  - rewrite Hm. specialize (Hf b s1 w1).
    destruct (f b s1 w1) as [[[[c s2] w2] e2]|e].
    + now rewrite Hf.
    + destruct Hf as [Hf | Hf]; [rewrite Hf; now left | now right].
  - destruct Hm as [Hm | Hm]; [rewrite Hm; now left | now right].
Qed.

Lemma alike_on_order_manager {B} (m m' : M X OrderManager B) :
  alike (raised_by_api A) m m' ->
  alike (raised_by_api A) (on_order_manager m) (on_order_manager m').
Proof.
  intros Hm t w. unfold on_order_manager. specialize (Hm (order_manager t) w).
  destruct (m (order_manager t) w) as [[[[b s1] w1] e1]|e].
  - now rewrite Hm.
  - destruct Hm as [Hm | Hm]; [rewrite Hm; now left | now right].
Qed.

Lemma alike_for_each {S B} (xs : list B) (body body' : B -> M X S unit) :
  (forall x, alike (raised_by_api A) (body x) (body' x)) ->
  alike (raised_by_api A) (for_each xs body) (for_each xs body').
Proof.
  intros Hbody. induction xs as [|x rest IH]; simpl.
  - apply alike_refl.
  - apply alike_bind; [apply Hbody | intros _; exact IH].
Qed.

Lemma alike_create_order {S} sd p amount :
  alike (raised_by_api A)
    (create_order (S := S) sd p amount)
    (create_order (A := returning (answers A)) sd p amount).
Proof.
  intros s w. unfold create_order. simpl.
  destruct (call_create_order sd p amount w) as [[r w']|e] eqn:Hcall.
  - reflexivity.
  - right. left. now exists sd, p, amount, w.
Qed.

Lemma alike_check_order_status {S} oid :
  alike (raised_by_api A)
    (check_order_status (S := S) oid)
    (check_order_status (A := returning (answers A)) oid).
Proof.
  intros s w. unfold check_order_status. simpl.
  destruct (call_check_order_status oid w) as [[r w']|e] eqn:Hcall.
  - reflexivity.
  - right. right. now exists oid, w.
Qed.

Lemma alike_cancel_order {S} oid :
  alike (raised_by_api A)
    (cancel_order (S := S) oid)
    (cancel_order (A := returning (answers A)) oid).
Proof. intros s w. reflexivity. Qed.

Lemma alike_get_market_price {S} :
  alike (raised_by_api A)
    (get_market_price (S := S))
    (get_market_price (A := returning (answers A))).
Proof.
  intros s w. unfold get_market_price. simpl.
  now destruct (call_get_market_price w).
Qed.

Lemma alike_place_buy_loop prices amount :
  alike (raised_by_api A)
    (place_buy_loop prices amount)
    (place_buy_loop (A := returning (answers A)) prices amount).
Proof.
  induction prices as [|p rest IH]; simpl; [apply alike_refl|].
  apply alike_bind; [apply alike_create_order|].
  intros [o|]; [|apply alike_refl].
  apply alike_bind; [apply alike_refl | intros _; exact IH].
Qed.

Lemma alike_place_buy_orders base :
  alike (raised_by_api A)
    (place_buy_orders config base)
    (place_buy_orders (A := returning (answers A)) config base).
Proof.
  unfold place_buy_orders.
  apply alike_bind; [apply alike_refl | intros single_margin].
  apply alike_bind; [apply alike_refl | intros single_amount].
  apply alike_place_buy_loop.
Qed.

Lemma alike_sell_retry_loop n p q :
  alike (raised_by_api A)
    (sell_retry_loop n p q)
    (sell_retry_loop (A := returning (answers A)) n p q).
Proof.
  induction n as [|n IH]; simpl; [apply alike_refl|].
  apply alike_bind; [apply alike_create_order|].
  intros [so|]; [apply alike_refl | exact IH].
Qed.

Lemma alike_check_buy_order item :
  alike (raised_by_api A)
    (check_buy_order config item)
    (check_buy_order (A := returning (answers A)) config item).
Proof.
  destruct item as [oid order]. unfold check_buy_order.
  apply alike_bind; [apply alike_check_order_status | intros r].
  destruct (_ || _); [|apply alike_refl].
  apply alike_bind; [apply alike_refl | intros _].
  destruct (Qeq_bool _ _); [|apply alike_refl].
  unfold convert_filled_buy.
  apply alike_bind; [apply alike_sell_retry_loop | intros so; apply alike_refl].
Qed.

Lemma alike_check_and_place_sell_orders :
  alike (raised_by_api A)
    (check_and_place_sell_orders config)
    (check_and_place_sell_orders (A := returning (answers A)) config).
Proof.
  unfold check_and_place_sell_orders.
  apply alike_bind; [apply alike_refl | intros items].
  apply alike_for_each. apply alike_check_buy_order.
Qed.

Lemma alike_cancel_all_orders :
  alike (raised_by_api A)
    cancel_all_orders
    (cancel_all_orders (A := returning (answers A))).
Proof.
  unfold cancel_all_orders.
  apply alike_bind; [apply alike_refl | intros ks].
  apply alike_for_each. intros oid.
  apply alike_bind; [apply alike_cancel_order | intros _; apply alike_refl].
Qed.

Lemma alike_start_trade_cycle :
  alike (raised_by_api A)
    (start_trade_cycle config)
    (start_trade_cycle (A := returning (answers A)) config).
Proof.
  unfold start_trade_cycle.
  apply alike_bind; [apply alike_refl | intros _].
  apply alike_bind; [apply alike_on_order_manager, alike_cancel_all_orders | intros _].
  apply alike_bind; [apply alike_get_market_price | intros p].
  apply alike_bind; [apply alike_refl | intros _].
  destruct p as [base|]; [|apply alike_refl].
  apply alike_on_order_manager, alike_place_buy_orders.
Qed.

Lemma alike_poll_statuses {S} ids :
  alike (raised_by_api A)
    (poll_statuses (S := S) ids)
    (poll_statuses (A := returning (answers A)) ids).
Proof.
  induction ids as [|oid rest IH]; simpl; [apply alike_refl|].
  apply alike_bind; [apply alike_check_order_status | intros r].
  apply alike_bind; [exact IH | intros rs; apply alike_refl].
Qed.

Lemma alike_check_price_rise :
  alike (raised_by_api A)
    (check_price_rise config)
    (check_price_rise (A := returning (answers A)) config).
Proof.
  unfold check_price_rise.
  apply alike_bind; [apply alike_refl | intros ids].
  apply alike_bind; [apply alike_poll_statuses | intros rs].
  apply alike_bind; [apply alike_refl | intros bof].
  destruct (_ && _); [|apply alike_refl].
  apply alike_bind; [apply alike_get_market_price | intros cur; apply alike_refl].
Qed.

Lemma alike_poll_sell_orders items all bound :
  alike (raised_by_api A)
    (poll_sell_orders items all bound)
    (poll_sell_orders (A := returning (answers A)) items all bound).
Proof.
  revert all bound. induction items as [|[oid o] rest IH]; intros all bound; simpl;
    [apply alike_refl|].
  apply alike_bind; [apply alike_check_order_status | intros r; apply IH].
Qed.

Lemma alike_replace_sell_order item :
  alike (raised_by_api A)
    (replace_sell_order config item)
    (replace_sell_order (A := returning (answers A)) config item).
Proof.
  destruct item as [oid order]. unfold replace_sell_order.
  apply alike_bind; [apply alike_check_order_status | intros r].
  destruct (status_is _ _); [|apply alike_refl].
  apply alike_bind; [apply alike_create_order | intros b; apply alike_refl].
Qed.

Lemma alike_check_and_replace_buy_orders :
  alike (raised_by_api A)
    (check_and_replace_buy_orders config)
    (check_and_replace_buy_orders (A := returning (answers A)) config).
Proof.
  unfold check_and_replace_buy_orders.
  apply alike_bind; [apply alike_refl | intros items].
  apply alike_bind; [apply alike_poll_sell_orders | intros [all bound]].
  apply alike_bind; [apply alike_refl | intros n].
  destruct (_ && _); [apply alike_refl|].
  apply alike_bind; [apply alike_refl | intros items2].
  apply alike_for_each. apply alike_replace_sell_order.
Qed.

Lemma alike_trade_tick :
  alike (raised_by_api A)
    (trade_tick config)
    (trade_tick (A := returning (answers A)) config).
Proof.
  unfold trade_tick.
  apply alike_bind; [apply alike_refl | intros start].
  apply alike_bind.
  - destruct start; [|apply alike_refl].
    apply alike_bind; [apply alike_start_trade_cycle | intros _; apply alike_refl].
  - intros _.
    apply alike_bind;
      [apply alike_on_order_manager, alike_check_and_place_sell_orders | intros _].
    apply alike_bind;
      [apply alike_check_and_replace_buy_orders | intros _; apply alike_check_price_rise].
Qed.

Lemma alike_trade n :
  alike (raised_by_api A)
    (trade config n)
    (trade (A := returning (answers A)) config n).
Proof.
  induction n as [|n IH]; simpl; [apply alike_refl|].
  apply alike_bind; [apply alike_trade_tick | intros _; exact IH].
Qed.

(** What a run over [answers A] does, the run over [A] does, unless a call
    raises. *)
Lemma alike_outcome {S B} (m m' : M X S B)
    (P : B * S * X * list event -> Prop) (Q : exn -> Prop) s w :
  alike (raised_by_api A) m m' ->
  match m' s w with Ok r => P r | Raise e => Q e end ->
  match m s w with Ok r => P r | Raise e => Q e \/ raised_by_api A e end.
Proof.
  intros Halike H. specialize (Halike s w). destruct (m s w) as [r|e].
  - now rewrite Halike in H.
  - destruct Halike as [Hm | Hm]; [rewrite Hm in H; now left | now right].
Qed.











End Raising.

Section Gateway.

Import BinanceAPI.

Context {W : Type} {T : Transport W}.
Variable config : TraderConfig.
Variable round : Q -> Z -> Q.

Lemma price_filter_none fs :
  price_filter fs = None <->
  existsb (fun x => String.eqb (Reply.filterType x) "PRICE_FILTER") fs = false.
Proof.
  unfold price_filter. induction fs as [|f fs IH]; simpl; [tauto|].
  destruct (String.eqb (Reply.filterType f) "PRICE_FILTER"); simpl; [|exact IH].
  split; discriminate.
Qed.

Lemma scan_symbols_first_usable name l :
  scan_symbols name l
  = match first_usable name l with
    | Some symbol_info =>
        match price_filter (Reply.filters symbol_info) with
        | Some pf =>
            match Reply.tickSize pf with
            | Some tick =>
                Ok (Some {| pricePrecision := Reply.pricePrecision symbol_info;
                            quantityPrecision := Reply.quantityPrecision symbol_info;
                            tickSize := tick |})
            | None => Raise KeyError
            end
        | None => Ok None
        end
    | None => Ok None
    end.
Proof.
  unfold first_usable. induction l as [|si rest IH]; [reflexivity|].
  simpl. unfold usable at 1.
  destruct (String.eqb (Reply.symbol si) name); simpl; [|exact IH].
  destruct (price_filter (Reply.filters si)) as [pf|] eqn:Hpf.
  - destruct (existsb _ (Reply.filters si)) eqn:Hex.
    + now rewrite Hpf.
    + apply price_filter_none in Hex. congruence.
  - apply price_filter_none in Hpf. rewrite Hpf. exact IH.
Qed.

(** X13. [get_symbol_info] sends one exchange-information request and
    answers from the first entry that carries the configured pair's name
    (slashes removed) and holds a PRICE_FILTER: an entry of that name without
    one is passed over.  It returns [None] when the request fails, when the
    reply has no [symbols] key, or when no such entry exists, and raises
    [KeyError] when that entry's first PRICE_FILTER has no [tickSize]. *)
Theorem get_symbol_info_lookup (w : W) :
  get_symbol_info config w
  = match fst (get_exchangeInfo w) with
    | Some response =>
        match Reply.symbols response with
        | Some l =>
            match first_usable (remove_slashes (symbol config)) l with
            | Some symbol_info =>
                match price_filter (Reply.filters symbol_info) with
                | Some pf =>
                    match Reply.tickSize pf with
                    | Some tick =>
                        Ok (Some {| pricePrecision := Reply.pricePrecision symbol_info;
                                    quantityPrecision :=
                                      Reply.quantityPrecision symbol_info;
                                    tickSize := tick |},
                            snd (get_exchangeInfo w), [GetExchangeInfo])
                    | None => Raise KeyError
                    end
                | None => Ok (None, snd (get_exchangeInfo w), [GetExchangeInfo])
                end
            | None => Ok (None, snd (get_exchangeInfo w), [GetExchangeInfo])
            end
        | None => Ok (None, snd (get_exchangeInfo w), [GetExchangeInfo])
        end
    | None => Ok (None, snd (get_exchangeInfo w), [GetExchangeInfo])
    end
  /\ (forall name l symbol_info,
        first_usable name l = Some symbol_info ->
        In symbol_info l /\
        Reply.symbol symbol_info = name /\
        price_filter (Reply.filters symbol_info) <> None).
Proof.
  split.
  - unfold get_symbol_info. destruct (get_exchangeInfo w) as [[[[l|]]|] w1];
      simpl; try reflexivity.
    rewrite scan_symbols_first_usable.
    destruct (first_usable _ l) as [si|]; [|reflexivity].
    destruct (price_filter (Reply.filters si)) as [pf|]; [|reflexivity].
    now destruct (Reply.tickSize pf).
  - intros name l si Hfind. unfold first_usable in Hfind.
    apply find_some in Hfind. destruct Hfind as [Hin Hus].
    unfold usable in Hus. apply andb_true_iff in Hus. destruct Hus as [Hname Hpf].
    split; [exact Hin|]. split; [now apply String.eqb_eq|].
    intros Hnone. apply price_filter_none in Hnone. congruence.
Qed.

Lemma scan_symbols_unlisted name l :
  (forall symbol_info, In symbol_info l -> Reply.symbol symbol_info <> name) ->
  scan_symbols name l = Ok None.
Proof.
  induction l as [|si rest IH]; intros Hno; [reflexivity|].
  simpl. destruct (String.eqb (Reply.symbol si) name) eqn:E.
  - apply String.eqb_eq in E. exfalso. apply (Hno si); [now left | exact E].
  - apply IH. intros si' Hin. apply Hno. now right.
Qed.

(** X14. When the exchange information cannot be had for the configured
    pair (the request fails, the reply has no [symbols], or no entry carries
    the pair's name), [create_order] returns [None] and posts nothing: its
    only request is the one for the exchange information. *)
Theorem create_order_unknown_symbol (sd : side) (p amount : Q) (w : W) :
  (forall response l,
     fst (get_exchangeInfo w) = Some response ->
     Reply.symbols response = Some l ->
     forall symbol_info,
       In symbol_info l ->
       Reply.symbol symbol_info <> remove_slashes (symbol config)) ->
  create_order config round sd p amount w
  = Ok (None, snd (get_exchangeInfo w), [GetExchangeInfo]).
Proof.
  intros Hno. unfold create_order, get_symbol_info.
  destruct (get_exchangeInfo w) as [[[[l|]]|] w1]; simpl in *; try reflexivity.
  rewrite scan_symbols_unlisted; [reflexivity|].
  intros si Hin. eapply Hno; [reflexivity | reflexivity | exact Hin].
Qed.

(** The count of ticks [math.floor] returns is the floor or the ceiling of
    the exact quotient of the two floats. *)
Lemma floor_to_tick_count p tick :
  (0 <= p)%Q ->
  (0 < b64 tick)%Q ->
  (b64 p / b64 tick < 2 ^ 52)%Q ->
  (Qfloor (b64 p / b64 tick) <= Qfloor (float_div p tick)
   <= Qceiling (b64 p / b64 tick))%Z.
Proof.
  intros Hp Htick Hsmall. unfold float_div.
  set (x := (b64 p / b64 tick)%Q) in *.
  assert (Hp' : (0 <= b64 p)%Q) by (apply (b64_above 0); [lia | exact Hp]).
  assert (Hx : (0 <= x)%Q).
  { unfold x. apply Qle_shift_div_l; [exact Htick | lra]. }
  assert (Htop : (2 ^ 52 == inject_Z (2 ^ 52))%Q) by reflexivity.
  assert (Hfloor : (0 <= Qfloor x < 2 ^ 53)%Z).
  { split.
    - rewrite <- (Qfloor_Z 0). now apply Qfloor_resp_le.
    - assert (H : (Qfloor x <= 2 ^ 52)%Z); [|lia].
      rewrite <- (Qfloor_Z (2 ^ 52)). apply Qfloor_resp_le. rewrite <- Htop. lra. }
  assert (Hceil : (0 <= Qceiling x < 2 ^ 53)%Z).
  { split.
    - rewrite <- (Qceiling_Z 0). now apply Qceiling_resp_le.
    - assert (H : (Qceiling x <= 2 ^ 52)%Z); [|lia].
      rewrite <- (Qceiling_Z (2 ^ 52)). apply Qceiling_resp_le. rewrite <- Htop. lra. }
  split.
  - rewrite <- (Qfloor_Z (Qfloor x)) at 1. apply Qfloor_resp_le.
    apply b64_above; [exact Hfloor | apply Qfloor_le].
  - rewrite <- (Qfloor_Z (Qceiling x)). apply Qfloor_resp_le.
    apply b64_below; [exact Hceil | exact Hx | apply Qle_ceiling].
Qed.

(** Hence that many ticks lie within one tick of the price, on either
    side. *)
Lemma floor_to_tick_near p tick :
  (0 <= p)%Q ->
  (0 < b64 tick)%Q ->
  (b64 p / b64 tick < 2 ^ 52)%Q ->
  (b64 p - b64 tick < inject_Z (Qfloor (float_div p tick)) * b64 tick)%Q /\
  (inject_Z (Qfloor (float_div p tick)) * b64 tick < b64 p + b64 tick)%Q.
Proof.
  intros Hp Htick Hsmall.
  destruct (floor_to_tick_count p tick Hp Htick Hsmall) as [Hlo Hhi].
  set (x := (b64 p / b64 tick)%Q) in *.
  set (k := Qfloor (float_div p tick)) in *.
  assert (Hback : (x * b64 tick == b64 p)%Q) by (unfold x; field; lra).
  pose proof (Qlt_floor x) as Hfl. pose proof (Qceiling_lt x) as Hce.
  rewrite Zle_Qle in Hlo, Hhi.
  rewrite inject_Z_plus in Hfl. unfold Z.sub in Hce. rewrite inject_Z_plus in Hce.
  change (inject_Z 1) with 1%Q in Hfl. change (inject_Z (- (1))) with (-1)%Q in Hce.
  assert (H1 : (x - 1 < inject_Z k)%Q) by lra.
  assert (H2 : (inject_Z k < x + 1)%Q) by lra.
  split.
  - apply (Qmult_lt_compat_r _ _ (b64 tick) Htick) in H1. lra.
  - apply (Qmult_lt_compat_r _ _ (b64 tick) Htick) in H2. lra.
Qed.


End Gateway.

(** * The controller over [BinanceAPI] *)

Section Composed.

Context {W : Type} {T : BinanceAPI.Transport W}.
Variable config : TraderConfig.
Variable round : Q -> Z -> Q.

(** X16. Nothing catches the [KeyError] of line 117.  When no cycle start
    is due and the order query for the first tracked buy comes back as a
    non-empty object without a [status] key, the tick dies of [KeyError] in
    its conversion pass, and so does the loop. *)
Theorem status_reply_without_status_is_fatal (n : nat) (t : GridTrader) (w : W)
    oid order rest r :
  needs_cycle_start t = false ->
  buy_orders (order_manager t) = (oid, order) :: rest ->
  fst (BinanceAPI.get_order (BinanceAPI.remove_slashes (symbol config)) oid w)
  = Some r ->
  BinanceAPI.truthy r = true ->
  Reply.status r = None ->
  on_order_manager (check_and_place_sell_orders (A := binance_api config round) config)
    t w = Raise KeyError /\
  trade_tick (A := binance_api config round) config t w = Raise KeyError /\
  trade (A := binance_api config round) config (S n) t w = Raise KeyError.
Proof.
  intros Hsteady Hbuys Hreply Htruthy Hstatus.
  assert (Hcall : call_check_order_status (Api := binance_api config round) oid w
                  = Raise KeyError).
  { simpl. unfold BinanceAPI.check_order_status.
    destruct (BinanceAPI.get_order _ oid w) as [reply w1]. simpl in Hreply.
    subst reply. now rewrite Htruthy, Hstatus. }
  assert (Hpass :
    on_order_manager (check_and_place_sell_orders (A := binance_api config round) config)
      t w = Raise KeyError).
  { unfold on_order_manager, check_and_place_sell_orders.
    unfold bind at 1, gets. cbv beta iota. rewrite Hbuys.
    rewrite for_each_cons. unfold bind at 1. unfold check_buy_order at 1.
    unfold bind at 1, check_order_status. now rewrite Hcall. }
  assert (Htick : trade_tick (A := binance_api config round) config t w
                  = Raise KeyError).
  { unfold trade_tick. unfold bind at 1, gets. cbv beta iota. rewrite Hsteady.
    unfold bind at 1. unfold bind at 1, ret. cbv beta iota.
    unfold bind at 1. now rewrite Hpass. }
  split; [exact Hpass|]. split; [exact Htick|].
  simpl. unfold bind. now rewrite Htick.
Qed.

(** X20. Nothing catches the [ZeroDivisionError] of line 88 either.  With a
    rung to place and a non-zero base price, [place_buy_orders] dies on its
    first [create_order] when the exchange information gives the pair a tick
    size that is zero as a float. *)
Theorem zero_tick_size_is_fatal base (m : OrderManager) (w w1 : W)
    (symbol_info : BinanceAPI.SymbolMeta) (reqs : list BinanceAPI.request) :
  0 < max_buy_times config ->
  ~ (base == 0)%Q ->
  BinanceAPI.get_symbol_info config w = Ok (Some symbol_info, w1, reqs) ->
  (b64 (BinanceAPI.tickSize symbol_info) == 0)%Q ->
  place_buy_orders (A := binance_api config round) config base m w
  = Raise ZeroDivisionError /\
  raised_by_api (binance_api config round) ZeroDivisionError.
Proof.
  intros HN HP Hinfo Htick.
  assert (Hcall : forall sd p amount,
            call_create_order (Api := binance_api config round) sd p amount w
            = Raise ZeroDivisionError).
  { intros sd p amount. simpl. unfold BinanceAPI.create_order. rewrite Hinfo.
    apply Qeq_bool_iff in Htick. now rewrite Htick. }
  split.
  - unfold place_buy_orders, bind.
    rewrite py_div_nonzero by (rewrite inject_Z_zero; lia).
    rewrite py_div_nonzero by exact HP.
    unfold buy_prices, range1.
    destruct (Z.to_nat (max_buy_times config)) as [|k] eqn:Hk; [lia|].
    simpl. unfold bind at 1, create_order. now rewrite Hcall.
  - left. exists Buy, base, base, w. apply Hcall.
Qed.

End Composed.

(** ** The scenarios, run *)

Lemma unique_keys_sound d : unique_keys (keys d) = true -> dict_wf d.
Proof.
  unfold dict_wf. induction (keys d) as [|k rest IH]; simpl; [constructor|].
  rewrite andb_true_iff, negb_true_iff. intros [Hk Hrest].
  constructor; [|auto]. intros Hin.
  assert (existsb (Z.eqb k) rest = true).
  { apply existsb_exists. exists k. split; [assumption | apply Z.eqb_refl]. }
  congruence.
Qed.

(** C2, run: a cold start that reads 600, one per mille spacing, two rungs,
    both accepted.  Exactly two buys are submitted, at 599.4 and 598.8. *)
Lemma cycle_start_ladder_witness :
  dict_wf (buy_orders (order_manager GridTrader_init)) /\
  0 < max_buy_times scenario_config /\
  fst (api_get_market_price
         (cancelled_from (keys (buy_orders (order_manager GridTrader_init)))
            accepting_ladder)) = Some 600%Q /\
  ~ (600 == 0)%Q /\
  exists t' w' e1 e2 a1 a2 p1 p2 r1 r2,
    start_trade_cycle scenario_config GridTrader_init accepting_ladder
    = Ok (tt, t', w', [EvPrice (Some 600%Q); e1; e2]) /\
    e1 = EvCreate Buy p1 a1 r1 /\ e2 = EvCreate Buy p2 a2 r2 /\
    (p1 == 5994 # 10)%Q /\ (p2 == 5988 # 10)%Q /\
    (a1 == (1000 / 2) * 10 / 600)%Q /\ (a2 == a1)%Q.
Proof.
  assert (Hwb : dict_wf (buy_orders (order_manager GridTrader_init)))
    by (apply unique_keys_sound; reflexivity).
  assert (HN : 0 < max_buy_times scenario_config) by reflexivity.
  assert (Hprice : fst (api_get_market_price
                          (cancelled_from
                             (keys (buy_orders (order_manager GridTrader_init)))
                             accepting_ladder)) = Some 600%Q) by reflexivity.
  assert (HP : ~ (600 == 0)%Q) by discriminate.
  split; [exact Hwb|]. split; [exact HN|]. split; [exact Hprice|]. split; [exact HP|].
  destruct (cycle_start_ladder scenario_config 600 GridTrader_init accepting_ladder
              Hwb HN Hprice HP) as (t' & w' & evs & Hrun & _ & Hall).
  assert (Hevs : exists o1 o2 x1 x2 y1 y2,
             evs = [EvCreate Buy x1 y1 (Some o1); EvCreate Buy x2 y2 (Some o2)]).
  { vm_compute in Hrun. inversion Hrun. repeat eexists. }
  destruct Hevs as (o1 & o2 & x1 & x2 & y1 & y2 & ->).
  destruct Hall as [Hall _].
  { intros sd p a [H | [H | []]]; discriminate. }
  inversion Hall as [|? ? ? ? (o1' & H1) Hall']; subst.
  inversion Hall' as [|? ? ? ? (o2' & H2) _]; subst.
  inversion H1; inversion H2; subst.
  eexists t', w', _, _, _, _, _, _, _, _.
  split; [exact Hrun|]. repeat split; reflexivity.
Defined.

(** C4, refuted as stated: a tracked buy whose reported executed quantity
    equals its requested quantity need not yield a sell.  In the first run
    the buy is reported FILLED in full and the exchange refuses all three
    sell submissions; in the second the quantities agree under a status that
    is neither FILLED nor PARTIALLY_FILLED.  Either way no sell is created
    and the buy stays tracked. *)
Lemma conversion_counterexample :
  (origQty (info held_buy)
   == filled_of (fst (api_check_order_status 7%Z refusing_sells)))%Q /\
  (exists m' w' evs,
     check_and_place_sell_orders scenario_config one_buy refusing_sells
     = Ok (tt, m', w', evs) /\
     created Sell evs <> 1%nat /\
     sell_orders m' = [] /\
     keys (buy_orders m') = [7]) /\
  (origQty (info held_buy)
   == filled_of (fst (api_check_order_status 7%Z stale_status)))%Q /\
  (exists m' w' evs,
     check_and_place_sell_orders scenario_config one_buy stale_status
     = Ok (tt, m', w', evs) /\
     created Sell evs <> 1%nat /\
     sell_orders m' = [] /\
     keys (buy_orders m') = [7]).
Proof.
  split; [reflexivity|]. split.
  - eexists _, _, _. split; [vm_compute; reflexivity|].
    repeat split. discriminate.
  - split; [reflexivity|].
    eexists _, _, _. split; [vm_compute; reflexivity|].
    repeat split. discriminate.
Qed.

(** C4, run: the buy of 1.5 at 598.8 is reported FILLED in full and the sell
    is accepted at once: one sell, at 599.3988, for 1.5. *)
Lemma conversion_per_filled_buy_witness :
  dict_wf (buy_orders one_buy) /\
  dict_wf (sell_orders one_buy) /\
  buy_orders one_buy = [] ++ (7, held_buy) :: [] /\
  exists m' w' r p q so,
    check_and_place_sell_orders scenario_config one_buy accepting_sell
    = Ok (tt, m', w', [EvStatus 7 r; EvCreate Sell p q (Some so)]) /\
    (p == 5993988 # 10000)%Q /\ (q == 15 # 10)%Q /\
    m' = converted 7 so (set_buy_order_filled true one_buy).
Proof.
  assert (Hwb : dict_wf (buy_orders one_buy)) by (apply unique_keys_sound; reflexivity).
  assert (Hws : dict_wf (sell_orders one_buy)) by (apply unique_keys_sound; reflexivity).
  split; [exact Hwb|]. split; [exact Hws|]. split; [reflexivity|].
  destruct (conversion_per_filled_buy scenario_config one_buy accepting_sell
              [] 7 held_buy [] Hwb Hws eq_refl)
    as (ma & wa & ea & mb & wb & eb & m' & w' & ec
        & Hrun & Hpre & _ & _ & Hpost & Hconv & _).
  simpl in Hpre. inversion Hpre; subst ma wa ea.
  simpl in Hpost. inversion Hpost; subst m' w' ec.
  rewrite app_nil_r in Hrun. simpl in Hrun.
  destruct Hconv as [(k & so & Hk & Hevs & _ & Hm) | (Hevs & _ & _)].
  - left. reflexivity.
  - reflexivity.
  - assert (k = 0%nat) as ->.
    { rewrite Hevs in Hrun. vm_compute in Hrun.
      destruct k as [|[|[|k]]]; [reflexivity | discriminate .. ]. }
    rewrite Hevs in Hrun. simpl in Hrun.
    eexists mb, wb, _, _, _, so. split; [exact Hrun|].
    repeat split; try reflexivity; exact Hm.
  - exfalso. rewrite Hevs in Hrun. vm_compute in Hrun. discriminate.
Defined.

(** C5, run: two refusals, then the third submission is accepted; the buy
    leaves the table and the sell is recorded. *)
Lemma convert_filled_buy_retries_witness :
  dict_wf (buy_orders one_buy) /\
  In 7 (keys (buy_orders one_buy)) /\
  exists m' w' evs,
    convert_filled_buy scenario_config 7 held_buy
      (15 # 10) one_buy third_time_lucky
    = Ok (tt, m', w', evs) /\
    List.length evs = 3%nat /\
    created Sell evs = 1%nat /\
    keys (buy_orders m') = [] /\
    keys (sell_orders m') = [8].
Proof.
  assert (Hwf : dict_wf (buy_orders one_buy)) by (apply unique_keys_sound; reflexivity).
  assert (Hin : In 7 (keys (buy_orders one_buy))) by (simpl; auto).
  split; [exact Hwf|]. split; [exact Hin|].
  destruct (convert_filled_buy_retries scenario_config one_buy third_time_lucky 7
              held_buy (15 # 10) Hwf Hin)
    as (m' & w' & evs & Hrun & _).
  exists m', w', evs. split; [exact Hrun|].
  vm_compute in Hrun. inversion Hrun. repeat split.
Defined.

(** C1, refuted as stated: with no sell tracked, every tracked sell is FILLED
    (there is none), yet the pass leaves the flag down. *)
Lemma cycle_completion_counterexample :
  exists t' w' evs,
    check_and_replace_buy_orders main_config idle_trader silent = Ok (tt, t', w', evs) /\
    ~ (new_cycle_flag t' = true <->
       Forall reports_filled
         (fst (replies_from (keys (sell_orders (order_manager idle_trader))) silent))).
Proof.
  eexists _, _, _. split; [vm_compute; reflexivity|].
  simpl. intros [_ H]. specialize (H (Forall_nil _)). discriminate.
Qed.

(** C1, run: two sells, both FILLED on the same pass.  The flag goes up, the
    last sell is dropped and nothing is submitted. *)
Lemma cycle_completion_iff_witness :
  dict_wf (sell_orders (order_manager two_sells)) /\
  dict_wf (buy_orders (order_manager two_sells)) /\
  exists t' w' evs,
    check_and_replace_buy_orders main_config two_sells both_filled
    = Ok (tt, t', w', evs) /\
    new_cycle_flag two_sells = false /\
    new_cycle_flag t' = true /\
    buy_orders (order_manager t') = [] /\
    existsb is_create evs = false.
Proof.
  assert (Hws : dict_wf (sell_orders (order_manager two_sells)))
    by (apply unique_keys_sound; reflexivity).
  assert (Hwb : dict_wf (buy_orders (order_manager two_sells)))
    by (apply unique_keys_sound; reflexivity).
  split; [exact Hws|]. split; [exact Hwb|].
  destruct (cycle_completion_iff main_config two_sells both_filled Hws Hwb)
    as (t' & w' & evs & Hrun & _ & Hdrop).
  exists t', w', evs. split; [exact Hrun|]. split; [reflexivity|].
  destruct Hdrop as (Hflag & _ & Hbuys & Hquiet).
  - discriminate.
  - apply all_report_filled_spec. reflexivity.
  - repeat split; assumption.
Defined.

(** C6, run: of two tracked sells the first reports FILLED and the second is
    open.  One replacement buy is submitted, at 600 * (1 - 0.001) for 1.5; it
    is accepted, the first sell is dropped and the buy recorded. *)
Lemma replenishment_per_filled_sell_witness :
  dict_wf (sell_orders (order_manager two_sells)) /\
  dict_wf (buy_orders (order_manager two_sells)) /\
  sell_orders (order_manager two_sells)
  = [] ++ (5, limit_order 5 (6000 # 10) (15 # 10))
       :: [(6, limit_order 6 (5994 # 10) (15 # 10))] /\
  ~ Forall reports_filled
      (fst (replies_from (keys (sell_orders (order_manager two_sells))) first_filled)) /\
  exists t' w' evs,
    check_and_replace_buy_orders main_config two_sells first_filled
    = Ok (tt, t', w', evs) /\
    List.length (filter is_buy_create evs) = 1%nat /\
    keys (sell_orders (order_manager t')) = [6] /\
    keys (buy_orders (order_manager t')) = [7].
Proof.
  assert (Hws : dict_wf (sell_orders (order_manager two_sells)))
    by (apply unique_keys_sound; reflexivity).
  assert (Hwb : dict_wf (buy_orders (order_manager two_sells)))
    by (apply unique_keys_sound; reflexivity).
  assert (Hopen : ~ Forall reports_filled
      (fst (replies_from (keys (sell_orders (order_manager two_sells))) first_filled))).
  { intros H. apply all_report_filled_spec in H. discriminate. }
  split; [exact Hws|]. split; [exact Hwb|]. split; [reflexivity|].
  split; [exact Hopen|].
  destruct (replenishment_per_filled_sell main_config two_sells first_filled
              [] 5 (limit_order 5 (6000 # 10) (15 # 10))
              [(6, limit_order 6 (5994 # 10) (15 # 10))] Hws Hwb eq_refl Hopen)
    as (ta & wa & ea & tb & wb & eb & t' & w' & ec & Hrun & _).
  match type of Hrun with _ = Ok (_, _, _, ?e) => remember e as evs eqn:Hevs end.
  clear Hevs. exists t', w', evs. split; [exact Hrun|].
  vm_compute in Hrun. inversion Hrun. repeat split.
Defined.


(** C9, refuted as stated: a cycle start whose price query fails does not
    leave the trader as it was; the tracked buy is gone and the base price
    is lost. *)
Lemma price_failure_counterexample :
  fst (api_get_market_price
         (cancelled_from (keys (buy_orders (order_manager restart_due)))
            price_unavailable)) = None /\
  exists t' w' evs,
    start_trade_cycle main_config restart_due price_unavailable
    = Ok (tt, t', w', evs) /\
    t' <> restart_due /\
    buy_orders (order_manager restart_due) = [(7, held_buy)] /\
    buy_orders (order_manager t') = [] /\
    base_price restart_due = Some 600%Q /\
    base_price t' = None.
Proof.
  split; [reflexivity|].
  eexists _, _, _. split; [vm_compute; reflexivity|].
  repeat split. discriminate.
Qed.

(** C9, run: the same cycle start; line 264 lowers the flag that was up,
    and the tick returns with the base price unset, so the next tick starts
    the cycle again. *)
Lemma price_failure_blocks_cycle_start_witness :
  dict_wf (buy_orders (order_manager restart_due)) /\
  dict_wf (sell_orders (order_manager restart_due)) /\
  needs_cycle_start restart_due = true /\
  fst (api_get_market_price
         (cancelled_from (keys (buy_orders (order_manager restart_due)))
            price_unavailable)) = None /\
  new_cycle_flag restart_due = true /\
  exists t' w' evs,
    trade_tick main_config restart_due price_unavailable
    = Ok (tt, t', w', EvCancel 7 :: EvPrice None :: evs) /\
    new_cycle_flag t' = false /\
    base_price t' = None /\
    needs_cycle_start t' = true /\
    existsb is_create evs = false.
Proof.
  assert (Hwb : dict_wf (buy_orders (order_manager restart_due)))
    by (apply unique_keys_sound; reflexivity).
  assert (Hws : dict_wf (sell_orders (order_manager restart_due)))
    by (apply unique_keys_sound; reflexivity).
  assert (Hdue : needs_cycle_start restart_due = true) by reflexivity.
  assert (Hfail : fst (api_get_market_price
                         (cancelled_from (keys (buy_orders (order_manager restart_due)))
                            price_unavailable)) = None) by reflexivity.
  split; [exact Hwb|]. split; [exact Hws|]. split; [exact Hdue|].
  split; [exact Hfail|]. split; [reflexivity|].
  destruct (price_failure_blocks_cycle_start main_config restart_due price_unavailable
              Hwb Hws Hdue Hfail)
    as (_ & _ & _ & _ & _ & _ & t' & w' & evs & Hrest & Hrun & Hnone & Hnext).
  exists t', w', evs. split; [exact Hrun|].
  vm_compute in Hrest. inversion Hrest.
  split; [reflexivity|]. split; [reflexivity|]. split; reflexivity.
Defined.

(** C10, run: two sells, both FILLED; only the second is removed, and the
    first is still tracked after the cycle start that follows. *)
Lemma completion_drops_only_last_witness :
  dict_wf (sell_orders (order_manager two_sells)) /\
  dict_wf (buy_orders (order_manager two_sells)) /\
  [(5, limit_order 5 (6000 # 10) (15 # 10))] <> [] /\
  Forall reports_filled
    (fst (replies_from (keys (sell_orders (order_manager two_sells))) both_filled)) /\
  exists t' w' evs t2 w2 evs2,
    check_and_replace_buy_orders main_config two_sells both_filled
    = Ok (tt, t', w', evs) /\
    keys (sell_orders (order_manager t')) = [5] /\
    start_trade_cycle main_config t' w' = Ok (tt, t2, w2, evs2) /\
    keys (sell_orders (order_manager t2)) = [5] /\
    keys (buy_orders (order_manager t2)) = [7; 8; 9; 10].
Proof.
  assert (Hws : dict_wf (sell_orders (order_manager two_sells)))
    by (apply unique_keys_sound; reflexivity).
  assert (Hwb : dict_wf (buy_orders (order_manager two_sells)))
    by (apply unique_keys_sound; reflexivity).
  assert (Hne : [(5, limit_order 5 (6000 # 10) (15 # 10))] <> []) by discriminate.
  assert (Hall : Forall reports_filled
    (fst (replies_from (keys (sell_orders (order_manager two_sells))) both_filled))).
  { apply all_report_filled_spec. reflexivity. }
  split; [exact Hws|]. split; [exact Hwb|]. split; [exact Hne|]. split; [exact Hall|].
  destruct (completion_drops_only_last main_config two_sells both_filled
              [(5, limit_order 5 (6000 # 10) (15 # 10))] 6
              (limit_order 6 (5994 # 10) (15 # 10)) Hws Hwb eq_refl Hne Hall)
    as (t' & w' & evs & Hrun & Hsells & _ & _ & _ & Hnext).
  specialize (Hnext w').
  assert (Hrun' := Hrun). vm_compute in Hrun'. inversion Hrun'; subst t' w' evs.
  eexists _, _, _, _, _, _. split; [exact Hrun|]. split; [reflexivity|].
  split; [vm_compute; reflexivity|]. split; reflexivity.
Defined.

(** C3, on the failing input: a cold start with four rungs where the
    exchange refuses the second.  In the first tick rung 1 is placed and
    tracked, rung 2 is refused and rungs 3 and 4 are never submitted; the tick
    ends with no cycle start due, and the second tick submits nothing at all:
    the ladder is not attempted again. *)
Lemma refused_rung_is_not_retried :
  exists t1 w1 e1 t2 w2 e2,
    trade_tick main_config GridTrader_init second_rung_refused = Ok (tt, t1, w1, e1) /\
    List.length (filter is_buy_create e1) = 2%nat /\
    created Buy e1 = 1%nat /\
    keys (buy_orders (order_manager t1)) = [1] /\
    needs_cycle_start t1 = false /\
    trade_tick main_config t1 w1 = Ok (tt, t2, w2, e2) /\
    existsb is_create e2 = false /\
    keys (buy_orders (order_manager t2)) = [1] /\
    needs_cycle_start t2 = false.
Proof.
  eexists _, _, _, _, _, _.
  repeat (split; [vm_compute; reflexivity|]).
  vm_compute. reflexivity.
Qed.

(** C8, on the failing input: three ticks under the configuration of
    [__main__] ([max_buy_times = 4]).  All four sells of the first cycle report
    FILLED on one pass, which drops only the last of them; in the next cycle
    the three left over are each replaced by a buy on top of the new ladder,
    and six buys are tracked at once. *)
Lemma tracked_buys_exceed_max_buy_times :
  exists t3 w3 e3,
    trade main_config 3 GridTrader_init three_ticks = Ok (tt, t3, w3, e3) /\
    keys (buy_orders (order_manager t3)) = [10; 11; 12; 14; 15; 16] /\
    max_buy_times main_config
    < Z.of_nat (List.length (buy_orders (order_manager t3))).
Proof.
  eexists _, _, _. split; [vm_compute; reflexivity|].
  split; reflexivity.
Qed.



(** X4, run: the one tracked buy is cancelled and forgotten. *)
Lemma cancel_all_orders_clears_witness :
  dict_wf (buy_orders one_buy) /\
  exists m',
    cancel_all_orders one_buy silent = Ok (tt, m', silent, [EvCancel 7]) /\
    buy_orders m' = [].
Proof.
  assert (Hwb : dict_wf (buy_orders one_buy)) by (apply unique_keys_sound; reflexivity).
  split; [exact Hwb|].
  destruct (cancel_all_orders_clears one_buy silent Hwb) as (m' & Hrun & Hbuys & _).
  exists m'. split; [exact Hrun | exact Hbuys].
Defined.





(** X10, run: the tracked buy of 1.5 reports 1 executed; the pass raises
    [buy_order_filled] and converts nothing. *)
Lemma quiet_conversion_pass_witness :
  Forall2 (fun item r => convertible (snd item) r = false)
          (buy_orders one_buy)
          (fst (replies_from (keys (buy_orders one_buy)) partial_fill)) /\
  exists w' r,
    check_and_place_sell_orders scenario_config one_buy partial_fill
    = Ok (tt, set_buy_order_filled true one_buy, w', [EvStatus 7 r]).
Proof.
  assert (Hq : Forall2 (fun item r => convertible (snd item) r = false)
                 (buy_orders one_buy)
                 (fst (replies_from (keys (buy_orders one_buy)) partial_fill))).
  { repeat constructor. }
  split; [exact Hq|].
  eexists _, _.
  rewrite (quiet_conversion_pass scenario_config one_buy partial_fill Hq).
  reflexivity.
Defined.

(** X11, run: both sells are open; the pass queries each twice and changes
    nothing. *)
Lemma quiet_replenishment_pass_witness :
  (forall r,
     In r (fst (replies_from (keys (sell_orders (order_manager two_sells))) all_open)) ->
     ~ reports_filled r) /\
  exists w' evs,
    check_and_replace_buy_orders main_config two_sells all_open
    = Ok (tt, two_sells, w', evs) /\
    List.length evs = 4%nat.
Proof.
  assert (H1 : forall r,
     In r (fst (replies_from (keys (sell_orders (order_manager two_sells))) all_open)) ->
     ~ reports_filled r).
  { intros r [<- | [<- | []]]; discriminate. }
  assert (H2 : forall r,
     In r (fst (replies_from (keys (sell_orders (order_manager two_sells)))
                  (snd (replies_from (keys (sell_orders (order_manager two_sells)))
                          all_open)))) ->
     ~ reports_filled r).
  { intros r [<- | [<- | []]]; discriminate. }
  split; [exact H1|].
  eexists _, _.
  rewrite (quiet_replenishment_pass main_config two_sells all_open H1 H2).
  split; reflexivity.
Defined.

(** X12, run: three ticks against an exchange whose price script has run
    out: six price queries, nothing else. *)
Lemma price_outage_witness :
  (forall w0 : Scripted, price_script_spent w0 ->
     fst (api_get_market_price w0) = None /\
     price_script_spent (snd (api_get_market_price w0))) /\
  price_script_spent silent /\
  exists t' w',
    trade main_config 3 GridTrader_init silent
    = Ok (tt, t', w', repeat (EvPrice None) 6) /\
    needs_cycle_start t' = true.
Proof.
  assert (Hdown : forall w0 : Scripted, price_script_spent w0 ->
     fst (api_get_market_price w0) = None /\
     price_script_spent (snd (api_get_market_price w0))).
  { intros w0 H. unfold price_script_spent in *. simpl. unfold scripted_price.
    rewrite H. now split. }
  split; [exact Hdown|]. split; [reflexivity|].
  destruct (price_outage main_config price_script_spent 3 silent Hdown eq_refl)
    as (t' & w' & Hrun & _ & _ & _ & Hnext).
  exists t', w'. split; [exact Hrun | exact Hnext].
Defined.

(** X14, run: the listing holds no DOGEUSDT; nothing is posted. *)
Lemma create_order_unknown_symbol_witness :
  (forall response l,
     fst (BinanceAPI.get_exchangeInfo wire_accepting) = Some response ->
     Reply.symbols response = Some l ->
     forall symbol_info,
       In symbol_info l ->
       Reply.symbol symbol_info <> BinanceAPI.remove_slashes (symbol unlisted_config)) /\
  BinanceAPI.create_order unlisted_config decimal_round Buy (59934 # 100) (25 # 6)
    wire_accepting
  = Ok (None, wire_accepting, [BinanceAPI.GetExchangeInfo]).
Proof.
  assert (Hno : forall response l,
     fst (BinanceAPI.get_exchangeInfo wire_accepting) = Some response ->
     Reply.symbols response = Some l ->
     forall symbol_info,
       In symbol_info l ->
       Reply.symbol symbol_info
       <> BinanceAPI.remove_slashes (symbol unlisted_config)).
  { intros response l Hr Hl si Hin. simpl in Hr. inversion Hr; subst response.
    simpl in Hl. inversion Hl; subst l.
    destruct Hin as [<- | [<- | [<- | []]]]; discriminate. }
  split; [exact Hno|].
  exact (create_order_unknown_symbol unlisted_config decimal_round Buy
           (59934 # 100) (25 # 6) wire_accepting Hno).
Defined.


(** X16, run: the one tracked buy is queried and the reply holds no
    [status]; the tick dies, and with it the loop. *)
Lemma status_reply_without_status_is_fatal_witness :
  needs_cycle_start watching = false /\
  BinanceAPI.truthy
    {| Reply.status := None; Reply.origQty := None;
       Reply.executedQty := None; Reply.other_keys := true |} = true /\
  trade_tick (A := binance_api main_config python_round) main_config watching
    wire_no_status = Raise KeyError /\
  trade (A := binance_api main_config python_round) main_config 3 watching
    wire_no_status = Raise KeyError.
Proof.
  assert (Hsteady : needs_cycle_start watching = false) by reflexivity.
  assert (Htruthy : BinanceAPI.truthy
            {| Reply.status := None; Reply.origQty := None;
               Reply.executedQty := None; Reply.other_keys := true |} = true)
    by reflexivity.
  split; [exact Hsteady|]. split; [exact Htruthy|].
  assert (Hreply :
            fst (BinanceAPI.get_order
                   (BinanceAPI.remove_slashes (symbol main_config)) 7 wire_no_status)
            = Some {| Reply.status := None; Reply.origQty := None;
                      Reply.executedQty := None; Reply.other_keys := true |})
    by reflexivity.
  destruct (status_reply_without_status_is_fatal main_config python_round 2
              watching wire_no_status 7 held_buy [] _
              Hsteady eq_refl Hreply Htruthy eq_refl) as (_ & Htick & Hloop).
  split; [exact Htick | exact Hloop].
Defined.



(** X20, run: the exchange information gives BNBUSDT a tick size of zero;
    the ladder dies on its first rung. *)
Lemma zero_tick_size_is_fatal_witness :
  0 < max_buy_times main_config /\
  ~ (600 == 0)%Q /\
  (b64 0 == 0)%Q /\
  place_buy_orders (A := binance_api main_config python_round) main_config 600
    OrderManager_init wire_zero_tick = Raise ZeroDivisionError.
Proof.
  assert (HN : 0 < max_buy_times main_config) by reflexivity.
  assert (HP : ~ (600 == 0)%Q) by discriminate.
  assert (Htick : (b64 0 == 0)%Q) by reflexivity.
  split; [exact HN|]. split; [exact HP|]. split; [exact Htick|].
  assert (Hinfo : BinanceAPI.get_symbol_info main_config wire_zero_tick
    = Ok (Some {| BinanceAPI.pricePrecision := 2; BinanceAPI.quantityPrecision := 2;
                  BinanceAPI.tickSize := 0 |},
          wire_zero_tick, [BinanceAPI.GetExchangeInfo])) by reflexivity.
  destruct (zero_tick_size_is_fatal main_config python_round 600 OrderManager_init
              wire_zero_tick wire_zero_tick
              {| BinanceAPI.pricePrecision := 2; BinanceAPI.quantityPrecision := 2;
                 BinanceAPI.tickSize := 0 |}
              [BinanceAPI.GetExchangeInfo] HN HP Hinfo Htick) as [Hrun _].
  exact Hrun.
Defined.
